(** * Lead / weather analysis pipeline: a shallow embedding

    The development follows the Python sources under [src/analysis]:

    - [lawn_lead_prediction.py]   (source classification, daily aggregation,
      coarse weather classifier, feature engineering, trainer, projection)
    - [weather_momentum_analysis.py] (quality classifier, streak tracker)
    - [model_validation.py]       (holdout validation)

    Conventions.  Numbers that Python holds as floats are rationals [Q]; a
    threshold written [0.25] in the source is the rational [25 # 100].  A
    float cell can also be NaN, which is how pandas stores a missing
    observation; NaN is kept apart from every number because Python treats it
    differently (it is truthy, and every ordering comparison with it is
    false).  Integer columns (year, day of week, lead counts) are [Z]. *)

From Stdlib Require Import QArith Qabs ZArith Lia.
From stdpp Require Import gmap strings list sorting.

(** ** Python values met in a weather row *)

Module Py.

(** A float: NaN or a finite number. *)
Inductive num := NaN | Fin (q : Q).

(** What [row.get(key, default)] can hand back for a weather column. *)
Inductive pyval := PyNone | PyFloat (x : num).

(** A row as the classifiers see it: a mapping from column name to value. *)
Abbreviation row := (gmap string pyval).

(** [row.get(k, d)] *)
Definition get (r : row) (k : string) (d : Q) : pyval :=
  match r !! k with
  | Some v => v
  | None => PyFloat (Fin d)
  end.

(** Truth value of a cell: [None] and zero are falsy, NaN is truthy. *)
Definition truthy (v : pyval) : bool :=
  match v with
  | PyNone => false
  | PyFloat NaN => true
  | PyFloat (Fin q) => negb (Qeq_bool q 0)
  end.

(** [v or d]: [v] when it is truthy, the literal [d] otherwise.  The result
    is never [None], which is falsy. *)
Definition or_ (v : pyval) (d : Q) : num :=
  match v with
  | PyFloat x => if truthy v then x else Fin d
  | PyNone => Fin d
  end.

(** Ordering comparisons of a float with a literal; false on NaN. *)
Definition gt (x : num) (c : Q) : bool :=
  match x with
  | NaN => false
  | Fin q => match (q ?= c)%Q with Gt => true | _ => false end
  end.

Definition ge (x : num) (c : Q) : bool :=
  match x with
  | NaN => false
  | Fin q => match (q ?= c)%Q with Lt => false | _ => true end
  end.

Definition lt (x : num) (c : Q) : bool :=
  match x with
  | NaN => false
  | Fin q => match (q ?= c)%Q with Lt => true | _ => false end
  end.

End Py.

(** ** Weather classifiers *)

Module Classifier.
Import Py.

(** The six descriptive labels of [classify_weather_condition]. *)
Inductive condition :=
  Snow | Rain | LightRain | Sunny | PartlyCloudy | CloudyOvercast.

Definition condition_label (c : condition) : string :=
  match c with
  | Snow => "Snow"
  | Rain => "Rain"
  | LightRain => "Light Rain"
  | Sunny => "Sunny"
  | PartlyCloudy => "Partly Cloudy"
  | CloudyOvercast => "Cloudy/Overcast"
  end.

(** The three labels of [classify_day_weather]. *)
Inductive quality := nice | ok | bad.

Definition quality_label (q : quality) : string :=
  match q with nice => "nice" | ok => "ok" | bad => "bad" end.

#[global] Instance quality_eq_dec : EqDecision quality.
Proof. solve_decision. Defined.

#[global] Instance condition_eq_dec : EqDecision condition.
Proof. solve_decision. Defined.

(** [classify_weather_condition] of lawn_lead_prediction.py.  [precip] and
    [temp_max] are read by the source and not used. *)
Definition classify_weather_condition (r : row) : condition :=
  let snowfall := or_ (get r "snowfall_in" 0) 0 in
  let rain := or_ (get r "rain_in" 0) 0 in
  let sunshine := or_ (get r "sunshine_hrs" 0) 0 in
  if gt snowfall (1 # 10) || gt (or_ (get r "snow_depth" 0) 0) 1 then Snow
  else if gt rain (25 # 100) then Rain
  else if gt rain (5 # 100) then LightRain
  else if ge sunshine 8 then Sunny
  else if ge sunshine 4 then PartlyCloudy
  else CloudyOvercast.

(** [classify_day_weather] of weather_momentum_analysis.py (the same text is
    in model_validation.py). *)
Definition classify_day_weather (r : row) : quality :=
  let sunshine := or_ (get r "sunshine_hrs" 0) 0 in
  let temp := or_ (get r "temp_max" 50) 50 in
  let precip := or_ (get r "precip_in" 0) 0 in
  let snow := or_ (get r "snowfall_in" 0) 0 in
  if gt snow (1 # 10) || gt (or_ (get r "snow_depth" 0) 0) 1 then bad
  else if gt precip (2 # 10) then bad
  else if ge sunshine 7 && ge temp 55 then nice
  else if ge sunshine 5 && ge temp 50 then ok
  else if lt sunshine 3 || lt temp 42 then bad
  else ok.

(** *** The rule lists as the specification words them

    The specification's classifier first replaces every missing field by its
    neutral default and then runs a priority list over plain numbers. *)

(** A field is missing when the key is absent, holds [None], or holds NaN. *)
Definition spec_field (r : row) (k : string) (d : Q) : Q :=
  match r !! k with
  | Some (PyFloat (Fin q)) => q
  | _ => d
  end.

Definition Qgt_bool (a b : Q) : bool :=
  match (a ?= b)%Q with Gt => true | _ => false end.
Definition Qge_bool (a b : Q) : bool :=
  match (a ?= b)%Q with Lt => false | _ => true end.
Definition Qlt_bool (a b : Q) : bool :=
  match (a ?= b)%Q with Lt => true | _ => false end.

Definition spec_condition_rules (snowfall snow_depth rain sunshine : Q)
  : condition :=
  if Qgt_bool snowfall (1 # 10) || Qgt_bool snow_depth 1 then Snow
  else if Qgt_bool rain (25 # 100) then Rain
  else if Qgt_bool rain (5 # 100) then LightRain
  else if Qge_bool sunshine 8 then Sunny
  else if Qge_bool sunshine 4 then PartlyCloudy
  else CloudyOvercast.

Definition spec_classify_condition (r : row) : condition :=
  spec_condition_rules (spec_field r "snowfall_in" 0)
                       (spec_field r "snow_depth" 0)
                       (spec_field r "rain_in" 0)
                       (spec_field r "sunshine_hrs" 0).

Definition spec_quality_rules (snowfall snow_depth precip sunshine temp : Q)
  : quality :=
  if Qgt_bool snowfall (1 # 10) || Qgt_bool snow_depth 1 then bad
  else if Qgt_bool precip (2 # 10) then bad
  else if Qge_bool sunshine 7 && Qge_bool temp 55 then nice
  else if Qge_bool sunshine 5 && Qge_bool temp 50 then ok
  else if Qlt_bool sunshine 3 || Qlt_bool temp 42 then bad
  else ok.

Definition spec_classify_quality (r : row) : quality :=
  spec_quality_rules (spec_field r "snowfall_in" 0)
                     (spec_field r "snow_depth" 0)
                     (spec_field r "precip_in" 0)
                     (spec_field r "sunshine_hrs" 0)
                     (spec_field r "temp_max" 50).

(** A field that is missing the Python way: no such key, or [None]. *)
Definition missing (r : row) (k : string) : Prop :=
  r !! k = None \/ r !! k = Some PyNone.

(** The field is present and holds a number. *)
Definition has_number (r : row) (k : string) (q : Q) : Prop :=
  r !! k = Some (PyFloat (Fin q)).

(** No snow: neither snow rule of the priority list fires. *)
Definition no_snow (r : row) : Prop :=
  Qgt_bool (spec_field r "snowfall_in" 0) (1 # 10) = false /\
  Qgt_bool (spec_field r "snow_depth" 0) 1 = false.

End Classifier.

(** ** The merged daily table *)

Module Frame.
Import Py.

(** One row of [daily_leads_weather.csv]: the calendar and lead columns of
    [aggregate_daily] joined with the weather columns.  A float column holds
    NaN where the left join found no observation.  [date] is a day number. *)
Record day := mk_day {
  date : Z;
  year : Z;
  month : Z;
  dow : Z;
  week_num : Z;
  is_weekend : bool;
  is_saturday : bool;
  day_of_season : Z;
  total_leads : Z;
  dm_leads : Z;
  organic_leads : Z;
  temp_max : num;
  temp_mean : num;
  precip_in : num;
  snowfall_in : num;
  snow_depth : num;
  sunshine_hrs : num;
  rain_in : num;
  wind_max_mph : num
}.

(** The weather cells of a table row as [df.apply(f, axis=1)] hands them to
    [f]: every weather column is a key of the row. *)
Definition row_of (d : day) : row :=
  <["temp_max" := PyFloat (temp_max d)]>
  (<["temp_mean" := PyFloat (temp_mean d)]>
  (<["precip_in" := PyFloat (precip_in d)]>
  (<["snowfall_in" := PyFloat (snowfall_in d)]>
  (<["snow_depth" := PyFloat (snow_depth d)]>
  (<["sunshine_hrs" := PyFloat (sunshine_hrs d)]>
  (<["rain_in" := PyFloat (rain_in d)]>
  (<["wind_max_mph" := PyFloat (wind_max_mph d)]> ∅))))))).

(** [df['year'].isin([2021, 2022, 2023, 2024, 2025])] *)
Definition full_years : list Z := [2021; 2022; 2023; 2024; 2025]%Z.

(** [df.sort_values(key)].  Rows are inserted in key order, a row going
    before the first row whose key is not smaller.  The tables sorted here
    have one row per key, where every sorting procedure gives this same
    order. *)
Fixpoint insert_by {A} (key : A -> Z) (d : A) (l : list A) : list A :=
  match l with
  | [] => [d]
  | x :: l' =>
      if (key d <=? key x)%Z then d :: l else x :: insert_by key d l'
  end.

Definition sort_values {A} (key : A -> Z) (l : list A) : list A :=
  foldr (insert_by key) [] l.

(** [df.sort_values('date')] *)
Definition sort_values_date (l : list day) : list day := sort_values date l.

(** Keys in non-descending order. *)
Definition sorted_by {A} (key : A -> Z) (l : list A) : Prop :=
  StronglySorted (fun a b => (key a <= key b)%Z) l.

(** [series.unique()]: the distinct values in order of first appearance. *)
Fixpoint unique_from (seen : list Z) (l : list Z) : list Z :=
  match l with
  | [] => []
  | x :: l' =>
      if bool_decide (x ∈ seen) then unique_from seen l'
      else x :: unique_from (x :: seen) l'
  end.

Definition unique (l : list Z) : list Z := unique_from [] l.

(** The keys of [df.groupby(key)]: the distinct values, ascending. *)
Definition group_keys (keys : list Z) : list Z :=
  sort_values (fun k => k) (unique keys).

(** [df.groupby(key)]: each key with its rows, in table order. *)
Definition groupby {A} (key : A -> Z) (l : list A) : list (Z * list A) :=
  map (fun k => (k, filter (fun r => key r = k) l)) (group_keys (map key l)).

(** [df[df['year'] == y].index] over a table whose index is [i, i+1, ...]:
    the labels of the rows of year [y], ascending. *)
Fixpoint year_index_from (i : nat) (y : Z) (years : list Z) : list nat :=
  match years with
  | [] => []
  | y' :: rest =>
      if bool_decide (y' = y) then i :: year_index_from (S i) y rest
      else year_index_from (S i) y rest
  end.

Definition year_index (y : Z) (years : list Z) : list nat :=
  year_index_from 0 y years.

(** Dates in non-descending order. *)
Definition date_sorted (l : list day) : Prop := sorted_by date l.

End Frame.

(** ** Streak tracker (weather_momentum_analysis.py) *)

Module Momentum.
Import Py Classifier Frame.

(** [load_data]: full years only, Sundays dropped, date order, and a fresh
    index 0, 1, 2, ...  ([normalize_leads], which [main] runs next, adds
    columns and keeps the rows, their order and such an index.) *)
Definition load_data (csv : list day) : list day :=
  sort_values_date
    (filter (fun d => (dow d < 6)%Z) (filter (fun d => year d ∈ full_years) csv)).

(** A row after [build_streaks] has added its five columns.
    [prev_day_quality] and [prev_2day_quality] hold [None] until written. *)
Record tagged := mk_tagged {
  base : day;
  weather_quality : quality;
  nice_streak : Z;
  bad_streak : Z;
  prev_day_quality : option quality;
  prev_2day_quality : option quality
}.

(** The columns as first created: the label of each day, zero streaks and
    [None] in both previous-quality columns. *)
Definition init_row (d : day) : tagged :=
  mk_tagged d (classify_day_weather (row_of d)) 0 0 None None.

(** The loop-local variables of one year's scan and the table they write. *)
Record scan := mk_scan {
  nice_count : Z;
  bad_count : Z;
  qualities : list quality;
  frame : list tagged
}.

(** [l[-n]] for [1 <= n <= len(l)] *)
Definition from_end {A} (l : list A) (n : nat) : option A :=
  l !! (length l - n).

(** [l[-n]] where it exists, [None] where the list is shorter than [n]. *)
Definition back {A} (l : list A) (n : nat) : option A :=
  if bool_decide (n <= length l) then from_end l n else None.

(** The body of [for i, ix in enumerate(idx)]. *)
Definition scan_step (st : scan) (ix : nat) : scan :=
  match frame st !! ix with
  | None => st
  | Some r =>
      let q := weather_quality r in
      let nice_count' :=
        match q with nice => (nice_count st + 1)%Z | _ => 0%Z end in
      let bad_count' :=
        match q with bad => (bad_count st + 1)%Z | _ => 0%Z end in
      let pd :=
        if bool_decide (1 <= length (qualities st))
        then from_end (qualities st) 1 else prev_day_quality r in
      let p2 :=
        if bool_decide (2 <= length (qualities st))
        then from_end (qualities st) 2 else prev_2day_quality r in
      let r' := mk_tagged (base r) q nice_count' bad_count' pd p2 in
      mk_scan nice_count' bad_count' (qualities st ++ [q]) (<[ix := r']> (frame st))
  end.

(** The body of [for year in df['year'].unique()]: fresh counters, then the
    scan over that year's index. *)
Definition scan_year (f : list tagged) (y : Z) : list tagged :=
  let idx := year_index y (map (fun r => year (base r)) f) in
  frame (fold_left scan_step idx (mk_scan 0 0 [] f)).

(** [build_streaks]: the label of every row first, then the loop over the
    years.  The table is scanned in the order it comes in. *)
Definition build_streaks (df : list day) : list tagged :=
  fold_left scan_year (unique (map year df)) (map init_row df).

(** *** The state machine of the specification *)

(** Transition of the pair (nice streak, bad streak) on observing [q]. *)
Definition transition (s : Z * Z) (q : quality) : Z * Z :=
  match q with
  | nice => (fst s + 1, 0)%Z
  | bad => (0, snd s + 1)%Z
  | ok => (0, 0)%Z
  end.

(** The counters of row [ix] of a tagged table; (0, 0) where there is no such
    row. *)
Definition streaks_at (out : list tagged) (ix : nat) : Z * Z :=
  match out !! ix with
  | Some r => (nice_streak r, bad_streak r)
  | None => (0, 0)%Z
  end.

(** The counters on the previous day of the year, the initial state (0, 0)
    on the first day.  [idx] is the year's index and [k] the day's rank. *)
Definition streaks_before (out : list tagged) (idx : list nat) (k : nat)
  : Z * Z :=
  match k with
  | O => (0, 0)%Z
  | S k' => match idx !! k' with
            | Some j => streaks_at out j
            | None => (0, 0)%Z
            end
  end.

(** The label of row [j], when there is one. *)
Definition label_at (out : list tagged) (j : nat) : option quality :=
  r ← out !! j; Some (weather_quality r).

(** The label of the day [n] places before rank [k] in the year, [None]
    (unknown) when the year has no such day. *)
Definition quality_back (out : list tagged) (idx : list nat) (k n : nat)
  : option quality :=
  if bool_decide (n <= k) then j ← idx !! (k - n); label_at out j
  else None.

(** *** Loop invariants of [build_streaks] *)

(** The static part of a tagged table over the input [df]: same rows, each
    with its own label. *)
Definition tagged_over (df : list day) (f : list tagged) : Prop :=
  map base f = df /\
  Forall (fun r => weather_quality r = classify_day_weather (row_of (base r))) f.

(** No previous-quality cell of year [y] has been written yet. *)
Definition fresh_year (df : list day) (y : Z) (f : list tagged) : Prop :=
  forall ix r, map year df !! ix = Some y -> f !! ix = Some r ->
    prev_day_quality r = None /\ prev_2day_quality r = None.

(** The rows of year [y] obey the recurrence of the state machine. *)
Definition year_scanned (df : list day) (y : Z) (f : list tagged) : Prop :=
  let idx := year_index y (map year df) in
  forall k ix, idx !! k = Some ix ->
    exists r, f !! ix = Some r /\
      (nice_streak r, bad_streak r) =
        transition (streaks_before f idx k) (weather_quality r) /\
      prev_day_quality r = quality_back f idx k 1 /\
      prev_2day_quality r = quality_back f idx k 2.

End Momentum.

(** ** Feature engineering (lawn_lead_prediction.py, model_validation.py) *)

Module Features.
Import Py Frame.

(** A row after [engineer_features] has added its six columns. *)
Record featured := mk_featured {
  fbase : day;
  is_snow : Z;
  is_rainy : Z;
  is_sunny : Z;
  year_trend : Z;
  temp_max_3d_avg : num;
  sunshine_3d_avg : num
}.

(** [series.fillna(0)] on one cell *)
Definition fillna0 (x : num) : num :=
  match x with NaN => Fin 0 | Fin q => Fin q end.

(** [.astype(int)] of a boolean *)
Definition as_int (b : bool) : Z := if b then 1%Z else 0%Z.

(** The four columns computed row by row; the two rolling columns do not
    exist yet and read as NaN once the first assignment creates them. *)
Definition flag_row (d : day) : featured :=
  mk_featured d
    (as_int (gt (fillna0 (snowfall_in d)) (5 # 100)
             || gt (fillna0 (snow_depth d)) (5 # 10)))
    (as_int (gt (fillna0 (rain_in d)) (1 # 10)))
    (as_int (ge (fillna0 (sunshine_hrs d)) 8))
    (year d - 2021)%Z
    NaN NaN.

(** The observations of a window: its cells that are not NaN. *)
Definition observed (w : list num) : list Q :=
  omap (fun x => match x with Fin q => Some q | NaN => None end) w.

Definition Qsum (l : list Q) : Q := foldr Qplus 0%Q l.

(** Mean of a window under [min_periods=1]: NaN unless the window holds at
    least one observation. *)
Definition mean_min1 (w : list num) : num :=
  let obs := observed w in
  if bool_decide (1 <= length obs)
  then Fin (Qsum obs / inject_Z (Z.of_nat (length obs)))%Q
  else NaN.

(** The trailing window of size 3 ending at position [k]: positions
    [k-2 .. k], cut at the start of the series. *)
Definition window3 (xs : list num) (k : nat) : list num :=
  drop (k - 2) (take (S k) xs).

(** [series.rolling(3, min_periods=1).mean()] *)
Definition rolling3_mean (xs : list num) : list num :=
  imap (fun k _ => mean_min1 (window3 xs k)) xs.

(** [df.loc[mask, col]]: the cells of column [col] at the labels [idx]. *)
Definition gather (col : featured -> num) (idx : list nat) (f : list featured)
  : list num :=
  omap (fun ix => col <$> f !! ix) idx.

(** [df.loc[mask, col] = series]: the series carries the labels [idx], and
    each of its values goes to the row with the same label. *)
Definition assign (set : featured -> num -> featured)
    (idx : list nat) (vals : list num) (f : list featured) : list featured :=
  fold_left (fun f' iv => alter (fun r => set r (snd iv)) (fst iv) f')
            (zip idx vals) f.

Definition set_temp_max_3d_avg (r : featured) (v : num) : featured :=
  mk_featured (fbase r) (is_snow r) (is_rainy r) (is_sunny r) (year_trend r)
              v (sunshine_3d_avg r).

Definition set_sunshine_3d_avg (r : featured) (v : num) : featured :=
  mk_featured (fbase r) (is_snow r) (is_rainy r) (is_sunny r) (year_trend r)
              (temp_max_3d_avg r) v.

(** The body of [for year in df['year'].unique()]. *)
Definition roll_year (f : list featured) (y : Z) : list featured :=
  let idx := year_index y (map (fun r => year (fbase r)) f) in
  let f1 :=
    assign set_temp_max_3d_avg idx
           (rolling3_mean (gather (fun r => temp_max (fbase r)) idx f)) f in
  assign set_sunshine_3d_avg idx
         (rolling3_mean (gather (fun r => sunshine_hrs (fbase r)) idx f1)) f1.

(** [engineer_features].  The table is put in date order before the loop;
    rows keep their labels through the sort, and both sides of each
    assignment carry the same labels, so positions in the sorted table stand
    for the labels. *)
Definition engineer_features (df : list day) : list featured :=
  let sorted := sort_values_date df in
  fold_left roll_year (unique (map year sorted)) (map flag_row sorted).

(** [dropna(subset=['temp_max', 'sunshine_hrs'])] *)
Definition is_nan (x : num) : bool :=
  match x with NaN => true | Fin _ => false end.

Definition observed_weather (d : day) : bool :=
  negb (is_nan (temp_max d)) && negb (is_nan (sunshine_hrs d)).

(** The model's input columns, in the order of [feature_cols]. *)
Definition feature_cols : list string :=
  [ "dow"; "is_weekend"; "is_saturday";
    "day_of_season"; "week_num"; "month";
    "temp_max"; "temp_mean"; "sunshine_hrs";
    "precip_in"; "snowfall_in"; "wind_max_mph";
    "is_snow"; "is_rainy"; "is_sunny";
    "temp_max_3d_avg"; "sunshine_3d_avg";
    "year_trend" ]%string.

Definition of_int (z : Z) : num := Fin (inject_Z z).
Definition of_bool (b : bool) : num := of_int (as_int b).

(** [df[feature_cols]] on one row *)
Definition feature_cells (r : featured) : list num :=
  let d := fbase r in
  [ of_int (dow d); of_bool (is_weekend d); of_bool (is_saturday d);
    of_int (day_of_season d); of_int (week_num d); of_int (month d);
    temp_max d; temp_mean d; sunshine_hrs d;
    precip_in d; snowfall_in d; wind_max_mph d;
    of_int (is_snow r); of_int (is_rainy r); of_int (is_sunny r);
    temp_max_3d_avg r; sunshine_3d_avg r;
    of_int (year_trend r) ].

(** [.fillna(0)] at the model-input boundary *)
Definition filled (x : num) : Q :=
  match x with NaN => 0%Q | Fin q => q end.

Definition feature_vector (r : featured) : list Q :=
  map filled (feature_cells r).

(** The rows of year [y], in table order. *)
Definition season (y : Z) (l : list day) : list day :=
  filter (fun d => year d = y) l.

(** The rows of year [y] hold the rolling means of that year's own series,
    where [s] is the table in date order. *)
Definition year_rolled (s : list day) (y : Z) (f : list featured) : Prop :=
  forall k ix, year_index y (map year s) !! k = Some ix ->
    exists r, f !! ix = Some r /\
      temp_max_3d_avg r = mean_min1 (window3 (map temp_max (season y s)) k) /\
      sunshine_3d_avg r = mean_min1 (window3 (map sunshine_hrs (season y s)) k).

(** Equality of two float cells: both NaN, or equal numbers. *)
Definition num_eq (a b : num) : Prop :=
  match a, b with
  | NaN, NaN => True
  | Fin p, Fin q => (p == q)%Q
  | _, _ => False
  end.

(** *** The trailing mean as the specification words it *)

(** The ranks of the window of the day of rank [k]: the day itself and up
    to two days before it. *)
Definition spec_window_ranks (k : nat) : list nat :=
  match k with
  | O => [0%nat]
  | S O => [0%nat; 1%nat]
  | S (S j) => [j; S j; S (S j)]
  end.

(** The cells of a series at those ranks. *)
Definition spec_window (xs : list num) (k : nat) : list num :=
  omap (fun j => xs !! j) (spec_window_ranks k).

(** [avg] is the mean over the observations among the cells [w]: with no
    observation it is NaN; otherwise it is the number that, taken as many
    times as there are observations, gives their sum. *)
Definition spec_mean_of (w : list num) (avg : num) : Prop :=
  exists obs : list Q,
    filter (fun x => is_nan x = false) w = map Fin obs /\
    match avg with
    | NaN => obs = []
    | Fin a =>
        obs <> [] /\
        (a * inject_Z (Z.of_nat (length obs)) == foldr Qplus 0 obs)%Q
    end.


End Features.

(** ** Daily aggregation of leads (lawn_lead_prediction.py) *)

Module Leads.
Import Frame.

(** A raw lead after [load_lead_files]: a parsed date and a source string
    ([fillna('Unknown').str.strip()] has made every source a string). *)
Record lead := mk_lead {
  lead_date : Z;
  source : string
}.

Inductive source_type := DirectMail | OrganicDigital.

Definition source_type_label (t : source_type) : string :=
  match t with
  | DirectMail => "Direct Mail"
  | OrganicDigital => "Organic/Digital"
  end.

#[global] Instance source_type_eq_dec : EqDecision source_type.
Proof. solve_decision. Defined.

(** [sub in s] *)
Fixpoint contains (sub s : string) : bool :=
  String.prefix sub s ||
  match s with
  | EmptyString => false
  | String _ s' => contains sub s'
  end.

Section WithUpper.

(** [str.upper] of the Python library, which upper-cases by the rules of
    Unicode.  A string is held as its bytes in UTF-8, where looking for a
    text of ASCII characters finds what looking for it among the characters
    finds. *)
Variable str_upper : string -> string.

(** [classify_source] *)
Definition classify_source (src : string) : source_type :=
  let s := str_upper src in
  if String.prefix "DM" s || contains "DIRECT MAIL" s then DirectMail
  else OrganicDigital.

(** [series.groupby(key).size()]: one entry per distinct key, keys
    ascending, with the number of rows holding the key. *)
Definition count_key (k : Z) (keys : list Z) : Z :=
  Z.of_nat (length (filter (fun x => x = k) keys)).

Definition group_sizes (keys : list Z) : list (Z * Z) :=
  map (fun k => (k, count_key k keys)) (group_keys keys).

(** The value joined onto date [k] by [merge(..., on='date', how='left')]:
    [None] (a NaN cell) where the right table has no such date. *)
Definition joined (k : Z) (right : list (Z * Z)) : option Z :=
  hit ← list_find (fun p => fst p = k) right; Some (snd (snd hit)).

(** [.fillna(0).astype(int)] *)
Definition fillna0_int (c : option Z) : Z := default 0%Z c.

(** One row of the daily table, with the columns that count leads.  The
    calendar columns that [aggregate_daily] derives from the date alone are
    not part of this record. *)
Record daily := mk_daily {
  d_date : Z;
  d_total_leads : Z;
  d_dm_leads : Z;
  d_organic_leads : Z
}.

(** [aggregate_daily] *)
Definition aggregate_daily (df : list lead) : list daily :=
  let source_type_of := fun l => classify_source (source l) in
  let daily_total := group_sizes (map lead_date df) in
  let daily_dm :=
    group_sizes
      (map lead_date (filter (fun l => source_type_of l = DirectMail) df)) in
  let daily_organic :=
    group_sizes
      (map lead_date (filter (fun l => source_type_of l = OrganicDigital) df)) in
  sort_values d_date
    (map (fun p => mk_daily (fst p) (snd p)
                     (fillna0_int (joined (fst p) daily_dm))
                     (fillna0_int (joined (fst p) daily_organic)))
         daily_total).

End WithUpper.

End Leads.

(** ** Error metrics *)

Module Metrics.
Import Features.

(** A quotient; there is none where the divisor is 0. *)
Definition divide (a b : Q) : option Q :=
  if Qeq_bool b 0 then None else Some (a / b)%Q.

(** [np.maximum(y, 1)] *)
Definition floor_at_1 (y : list Z) : list Z := map (fun v => Z.max v 1) y.

(** [np.abs((y - y_pred) / np.maximum(y, 1))], one quotient per day. *)
Definition abs_pct_error (v : Z) (p : Q) : option Q :=
  e ← divide (inject_Z v - p)%Q (inject_Z (Z.max v 1)); Some (Qabs e).

Definition abs_pct_errors (y : list Z) (y_pred : list Q) : option (list Q) :=
  mapM (fun vp => abs_pct_error (fst vp) (snd vp)) (zip y y_pred).

(** [np.mean]: the sum over the number of elements. *)
Definition mean (l : list Q) : option Q :=
  divide (Qsum l) (inject_Z (Z.of_nat (length l))).

(** [np.mean(np.abs((y - y_pred) / np.maximum(y, 1))) * 100] *)
Definition mape (y : list Z) (y_pred : list Q) : option Q :=
  errs ← abs_pct_errors y y_pred; m ← mean errs; Some (m * 100)%Q.

(** [mean_absolute_error(y, y_pred)] *)
Definition mean_absolute_error (y : list Z) (y_pred : list Q) : option Q :=
  mean (zip_with (fun v p => Qabs (inject_Z v - p)) y y_pred).

End Metrics.

(** ** Model trainer (lawn_lead_prediction.py) *)

Module Trainer.
Import Py Frame Features Metrics.

(** Modelled from the spec: the splitter [TimeSeriesSplit] is library code
    and not part of the sources.  Each fold trains on a prefix of the
    positions and evaluates on the block of positions right after it.  The
    block size and the starts are those scikit-learn documents: blocks of
    [n_samples // (n_splits + 1)] positions, the last one ending at the last
    sample.  There is no split ([ValueError]) with fewer samples than
    [n_splits + 1]. *)
Definition time_series_split (n_splits n_samples : nat)
  : option (list (list nat * list nat)) :=
  let n_folds := S n_splits in
  let test_size := (n_samples / n_folds)%nat in
  if bool_decide (n_samples < n_folds)%nat then None
  else if bool_decide (n_samples <= test_size * n_splits)%nat then None
  else
    Some (map (fun i =>
                 let test_start :=
                   (n_samples - n_splits * test_size + i * test_size)%nat in
                 (seq 0 test_start, seq test_start test_size))
              (seq 0 n_splits)).

(** [X.iloc[positions]] *)
Definition iloc {A} (positions : list nat) (tbl : list A) : list A :=
  omap (fun i => tbl !! i) positions.

(** The table [train_and_evaluate] receives from [build_prediction_model]:
    full years, engineered features, rows without temperature or sunshine
    dropped. *)
Definition training_table (daily_weather : list day) : list featured :=
  filter (fun r => observed_weather (fbase r))
         (engineer_features
            (filter (fun d => year d ∈ full_years) daily_weather)).

(** The row blocks of [cross_val_score(model, X, y, cv=TimeSeriesSplit(5))]:
    for each fold the training rows and the evaluation rows. *)
Definition walk_forward_blocks {A} (tbl : list A)
  : option (list (list A * list A)) :=
  folds ← time_series_split 5 (length tbl);
  Some (map (fun f => (iloc (fst f) tbl, iloc (snd f) tbl)) folds).

Section WithLearner.

(** The regressor with its fixed configuration and seed: training rows and
    targets give a prediction function. *)
Variable fit : list (list Q) -> list Z -> list Q -> Q.

(** The scores of [cross_val_score(..., scoring='neg_mean_absolute_error')],
    sign flipped: per fold, the mean absolute error on the evaluation block
    of the model fitted on the training block. *)
Definition cross_val_mae (tbl : list featured) : option (list (option Q)) :=
  blocks ← walk_forward_blocks tbl;
  Some (map (fun b =>
               let model := fit (map feature_vector (fst b))
                                (map (fun r => total_leads (fbase r)) (fst b)) in
               mean_absolute_error
                 (map (fun r => total_leads (fbase r)) (snd b))
                 (map (fun r => model (feature_vector r)) (snd b)))
            blocks).

End WithLearner.

(** Every training date is strictly earlier than every evaluation date. *)
Definition chronological (b : list featured * list featured) : Prop :=
  forall tr ev, tr ∈ fst b -> ev ∈ snd b ->
    (date (fbase tr) < date (fbase ev))%Z.

(** The training rows are a prefix of the table and the evaluation rows the
    block right after it. *)
Definition prefix_then_block {A} (tbl : list A) (b : list A * list A) : Prop :=
  exists s t : nat, fst b = take s tbl /\ snd b = take t (drop s tbl).

End Trainer.

(** ** Holdout validation (model_validation.py) *)

Module Holdout.
Import Py Classifier Frame Features Metrics.

(** A test row with its prediction. *)
Record scored := mk_scored {
  srow : featured;
  predicted : Q;
  error : Q;
  abs_error : Q
}.

Definition actual (r : scored) : Z := total_leads (fbase (srow r)).

(** One line of the weekly table. *)
Record weekly_row := mk_weekly {
  w_week_num : Z;
  w_actual_total : Z;
  w_predicted_total : Q;
  w_daily_mae : option Q;
  w_days : nat;
  w_error_pct : option Q
}.

(** One line of the day-of-week table [dow_acc], which counts no days.
    The name is missing for a number that [dow_names] does not map. *)
Record dow_accuracy_row := mk_dow_accuracy {
  da_dow : Z;
  da_avg_actual : option Q;
  da_avg_predicted : option Q;
  da_mae : option Q;
  da_dow_name : option string;
  da_error_pct : option Q
}.

(** One line of the weather-quality table [cond_acc]. *)
Record accuracy_row (K : Type) := mk_accuracy {
  a_key : K;
  a_avg_actual : option Q;
  a_avg_predicted : option Q;
  a_mae : option Q;
  a_count : nat;
  a_error_pct : option Q
}.
Arguments mk_accuracy {K}.

Record report := mk_report {
  r_mae : option Q;
  r_r2 : Q;
  r_mape : option Q;
  r_total_actual : Z;
  r_total_predicted : Q;
  r_total_error_pct : option Q;
  r_weekly : list weekly_row;
  r_dow : list dow_accuracy_row;
  r_quality : list (accuracy_row quality)
}.

Definition Zsum (l : list Z) : Z := foldr Z.add 0%Z l.

(** [(predicted / actual - 1) * 100] *)
Definition error_pct (predicted_ actual_ : Q) : option Q :=
  q ← divide predicted_ actual_; Some ((q - 1) * 100)%Q.

Definition error_pct_opt (p a : option Q) : option Q :=
  p' ← p; a' ← a; error_pct p' a'.

Definition accuracy_of {K} (k : K) (rows : list scored) : accuracy_row K :=
  let avg_a := mean (map (fun r => inject_Z (actual r)) rows) in
  let avg_p := mean (map predicted rows) in
  mk_accuracy k avg_a avg_p (mean (map abs_error rows)) (length rows)
              (error_pct_opt avg_p avg_a).

(** [dow_names] of [run_holdout_validation] *)
Definition dow_names : list string :=
  ["Mon"; "Tue"; "Wed"; "Thu"; "Fri"; "Sat"; "Sun"]%string.

(** [dow_acc['dow'].map(dow_names)] on one cell *)
Definition dow_name_of (k : Z) : option string :=
  if (0 <=? k)%Z then dow_names !! Z.to_nat k else None.

Definition dow_accuracy_of (k : Z) (rows : list scored) : dow_accuracy_row :=
  let avg_a := mean (map (fun r => inject_Z (actual r)) rows) in
  let avg_p := mean (map predicted rows) in
  mk_dow_accuracy k avg_a avg_p (mean (map abs_error rows)) (dow_name_of k)
                  (error_pct_opt avg_p avg_a).

Definition weekly_of (k : Z) (rows : list scored) : weekly_row :=
  let a := Zsum (map actual rows) in
  let p := Qsum (map predicted rows) in
  mk_weekly k a p (mean (map abs_error rows)) (length rows)
            (error_pct p (inject_Z a)).

(** The labels in the order [groupby('weather_quality')] lists them. *)
Definition quality_keys : list quality := [bad; nice; ok].

Definition scored_quality (r : scored) : quality :=
  classify_day_weather (row_of (fbase (srow r))).

Definition train_years : list Z := [2021; 2022; 2023; 2024]%Z.
Definition test_year : Z := 2025%Z.

(** The table after the year filter, [dropna] and [engineer_features]. *)
Definition prepared (csv : list day) : list featured :=
  engineer_features
    (filter (fun d => observed_weather d)
            (filter (fun d => year d ∈ full_years) csv)).

Definition train_partition (csv : list day) : list featured :=
  filter (fun r => year (fbase r) ∈ train_years) (prepared csv).

Definition test_partition (csv : list day) : list featured :=
  filter (fun r => year (fbase r) = test_year) (prepared csv).

Section WithLearner.

(** The regressor with its fixed configuration and seed. *)
Variable fit : list (list Q) -> list Z -> list Q -> Q.

(** [r2_score] of the metrics library. *)
Variable r2_score : list Z -> list Q -> Q.

(** The metrics and tables that [run_holdout_validation] reports for the
    2025 season.  The check of the 2026 rows that follows in the source
    prints and returns nothing. *)
Definition run_holdout_validation (csv : list day) : report :=
  let train := train_partition csv in
  let test := test_partition csv in
  let model :=
    fit (map feature_vector train)
        (map (fun r => total_leads (fbase r)) train) in
  let y_test := map (fun r => total_leads (fbase r)) test in
  let y_pred := map (fun r => model (feature_vector r)) test in
  let total_actual := Zsum y_test in
  let total_predicted := Qsum y_pred in
  let test_with_pred :=
    map (fun r =>
           let p := model (feature_vector r) in
           let e := (p - inject_Z (total_leads (fbase r)))%Q in
           mk_scored r p e (Qabs e))
        test in
  mk_report
    (mean_absolute_error y_test y_pred)
    (r2_score y_test y_pred)
    (mape y_test y_pred)
    total_actual total_predicted
    (error_pct total_predicted (inject_Z total_actual))
    (map (fun g => weekly_of (fst g) (snd g))
         (groupby (fun r => week_num (fbase (srow r))) test_with_pred))
    (map (fun g => dow_accuracy_of (fst g) (snd g))
         (groupby (fun r => dow (fbase (srow r))) test_with_pred))
    (omap (fun q =>
             let rows := filter (fun r => scored_quality r = q) test_with_pred in
             if bool_decide (rows = []) then None else Some (accuracy_of q rows))
          quality_keys).

End WithLearner.

(** The input table with the rows of the season in progress removed. *)
Definition without_2026 (csv : list day) : list day :=
  filter (fun d => year d ≠ 2026%Z) csv.

End Holdout.

(** ** Seasonal projection (lawn_lead_prediction.py) *)

Module Projection.
Import Py Frame Features.

(** The calendar of [pd.Timestamp('2025-02-15') + pd.Timedelta(days=dos)],
    for dates within 2025 before December 29 (the season window lies well
    inside).  February 15 is day 46 of the year; the first ISO week of 2025
    starts on Monday, December 30, 2024. *)
Definition day_of_year_2025 (dos : Z) : Z := (46 + dos)%Z.

Definition iso_week_2025 (dos : Z) : Z :=
  ((day_of_year_2025 dos + 1) / 7 + 1)%Z.

Definition month_2025 (dos : Z) : Z :=
  let n := day_of_year_2025 dos in
  if (n <=? 31)%Z then 1 else if (n <=? 59)%Z then 2
  else if (n <=? 90)%Z then 3 else if (n <=? 120)%Z then 4
  else if (n <=? 151)%Z then 5 else if (n <=? 181)%Z then 6
  else if (n <=? 212)%Z then 7 else if (n <=? 243)%Z then 8
  else if (n <=? 273)%Z then 9 else if (n <=? 304)%Z then 10
  else if (n <=? 334)%Z then 11 else 12.

(** One row of [avg_by_day], with the columns the projection reads. *)
Record day_average := mk_day_average {
  a_day_of_season : Z;
  avg_temp_max : num;
  avg_temp_mean : num;
  avg_sunshine : num;
  avg_precip : num;
  avg_snow : num;
  avg_wind : num;
  avg_leads : num;
  std_leads : num
}.

(** The feature dictionary built for one day of season and one weekday, in
    the order the source writes it.  The three flags are tested on the cells
    of the row of [avg_by_day], which hold the means that the float library
    computed. *)
Definition feature_row (a : day_average) (dow_val : Z) : list (string * num) :=
  [ ("dow", of_int dow_val);
    ("is_weekend", of_int (if (5 <=? dow_val)%Z then 1 else 0));
    ("is_saturday", of_int (if (dow_val =? 5)%Z then 1 else 0));
    ("day_of_season", of_int (a_day_of_season a));
    ("week_num", of_int (iso_week_2025 (a_day_of_season a)));
    ("month", of_int (month_2025 (a_day_of_season a)));
    ("temp_max", avg_temp_max a);
    ("temp_mean", avg_temp_mean a);
    ("sunshine_hrs", avg_sunshine a);
    ("precip_in", avg_precip a);
    ("snowfall_in", avg_snow a);
    ("wind_max_mph", avg_wind a);
    ("is_snow", of_int (if gt (avg_snow a) (5 # 100) then 1 else 0));
    ("is_rainy", of_int (if gt (avg_precip a) (1 # 10) then 1 else 0));
    ("is_sunny", of_int (if ge (avg_sunshine a) 8 then 1 else 0));
    ("temp_max_3d_avg", avg_temp_max a);
    ("sunshine_3d_avg", avg_sunshine a);
    ("year_trend", of_int 4) ]%string.

(** The value under a key of the dictionary. *)
Definition value_of (k : string) (fr : list (string * num)) : option num :=
  hit ← list_find (fun p => fst p = k) fr; Some (snd (snd hit)).

(** [pd.DataFrame([available])[features]]: the cells in the order of
    [features]; there is none ([KeyError]) when a feature is not a key. *)
Definition select (features : list string) (fr : list (string * num))
  : option (list num) :=
  mapM (fun k => value_of k fr) features.

Definition dow_names : list string :=
  ["Mon"; "Tue"; "Wed"; "Thu"; "Fri"; "Sat"; "Sun"]%string.

(** One row of the projection table. *)
Record projection_row := mk_projection_row {
  p_day_of_season : Z;
  p_dow : Z;
  p_dow_name : string;
  p_predicted_leads : Q;
  p_historical_avg : num;
  p_historical_std : Q
}.

(** The weekdays of [range(7)]. *)
Definition weekdays : list Z := [0; 1; 2; 3; 4; 5; 6]%Z.

(** The most recent year among the full-year rows, as a year_trend value
    ([year - 2021]); [None] for a table without such rows. *)
Definition latest_year_trend (tbl : list day) : option Z :=
  let ys := map year (filter (fun d => year d ∈ full_years) tbl) in
  match ys with
  | [] => None
  | y :: rest => Some (foldr Z.max y rest - 2021)%Z
  end.

Section WithModel.

(** [model.predict] on one row of features.  It has no value where the call
    raises, as a regressor does on a row that it does not accept. *)
Variable predict : list num -> option Q.
(** The mean of a non-empty column of numbers as the float library
    computes it: the rational that stands for the float it returns, which
    need not be the exact mean. *)
Variable mean_float : list Q -> Q.
(** The square root of the float library. *)
Variable sqrtQ : Q -> Q.
(** [round(x, 1)] *)
Variable round1 : Q -> Q.

Definition round_num (x : num) : num :=
  match x with NaN => NaN | Fin q => Fin (round1 q) end.

(** The aggregation ['mean'] of a group: NaN cells are skipped, and the
    mean of a column without observation is NaN. *)
Definition group_mean (xs : list num) : num :=
  match observed xs with
  | [] => NaN
  | q :: obs => Fin (mean_float (q :: obs))
  end.

(** The aggregation ['std'] of a group of counts: the sample standard
    deviation, NaN for a group of fewer than two rows. *)
Definition column_std (xs : list Z) : num :=
  let n := length xs in
  if bool_decide (n < 2)%nat then NaN
  else
    let m := (Qsum (map inject_Z xs) / inject_Z (Z.of_nat n))%Q in
    Fin (sqrtQ (Qsum (map (fun x => (inject_Z x - m) * (inject_Z x - m)) xs)
                / inject_Z (Z.of_nat (n - 1)))%Q).

Definition averages (dos : Z) (rows : list day) : day_average :=
  mk_day_average dos
    (group_mean (map temp_max rows))
    (group_mean (map temp_mean rows))
    (group_mean (map sunshine_hrs rows))
    (group_mean (map precip_in rows))
    (group_mean (map snowfall_in rows))
    (group_mean (map wind_max_mph rows))
    (group_mean (map (fun d => of_int (total_leads d)) rows))
    (column_std (map total_leads rows)).

(** The full-year rows the projection averages over. *)
Definition historical (daily_weather : list day) : list day :=
  filter (fun d => year d ∈ full_years) daily_weather.

(** [avg_by_day]: one row per distinct day of season. *)
Definition avg_by_day (daily_weather : list day) : list day_average :=
  map (fun g => averages (fst g) (snd g))
      (groupby day_of_season (historical daily_weather)).

(** The row appended for one day of season and one weekday, given the
    prediction. *)
Definition projected (a : day_average) (dow_val : Z) (pred : Q)
  : projection_row :=
  mk_projection_row
    (a_day_of_season a) dow_val
    (default ""%string (dow_names !! Z.to_nat dow_val))
    (round1 pred)
    (round_num (avg_leads a))
    (match std_leads a with NaN => 0%Q | Fin s => round1 s end).

(** The row for a day of season and a weekday when [predict] has a value
    on the features of all of [feature_cols]. *)
Definition scored_row (a : day_average) (dow_val : Z) : projection_row :=
  projected a dow_val
            (default 0%Q (predict (map snd (feature_row a dow_val)))).

(** The body of the inner loop.  It raises, and there is no row, when a
    feature is not a key of the dictionary or when [predict] raises. *)
Definition project (features : list string) (a : day_average) (dow_val : Z)
  : option projection_row :=
  x ← select features (feature_row a dow_val);
  pred ← predict x;
  Some (projected a dow_val pred).

(** [build_seasonal_projection]: the rows in loop order.  The call raises,
    and there is no table, when the body of the loop raises and when the
    loop appends no row: [projection['day_of_season']] is then a KeyError,
    the table having no column. *)
Definition build_seasonal_projection (features : list string)
    (daily_weather : list day) : option (list projection_row) :=
  rows ← mapM (fun ad => project features (fst ad) (snd ad))
              (a ← avg_by_day daily_weather; dw ← weekdays; [(a, dw)]);
  match rows with
  | [] => None
  | _ :: _ => Some rows
  end.

(** The rows of the table for one day of season. *)
Definition rows_of_day (dos : Z) (rows : list projection_row)
  : list projection_row :=
  filter (fun r => p_day_of_season r = dos) rows.

(** The averaged weather columns. *)
Definition weather_columns : list (day -> num) :=
  [temp_max; temp_mean; sunshine_hrs; precip_in; snowfall_in; wind_max_mph].

(** Every day of season among the full-year rows has an observation of
    each averaged weather column, so that no average is NaN. *)
Definition weather_complete (daily_weather : list day) : Prop :=
  Forall (fun g =>
            Forall (fun col : day -> num => observed (map col (snd g)) <> [])
                   weather_columns)
         (groupby day_of_season (historical daily_weather)).

(** [predict] has a value on every row of numbers. *)
Definition scores_numbers : Prop :=
  forall x, Forall (fun c => is_nan c = false) x -> is_Some (predict x).

(** What the source puts in a projected row: the prediction on the features
    built from the averages over the historical rows of its day of season
    and from its weekday, year_trend being 4, next to the rounded mean and
    standard deviation of the leads of those rows. *)
Definition built_from_averages (daily_weather : list day) (r : projection_row)
  : Prop :=
  let grp := filter (fun d => day_of_season d = p_day_of_season r)
                    (historical daily_weather) in
  let a := averages (p_day_of_season r) grp in
  let fr := feature_row a (p_dow r) in
  grp ≠ [] /\
  round1 <$> predict (map snd fr) = Some (p_predicted_leads r) /\
  value_of "dow" fr = Some (of_int (p_dow r)) /\
  value_of "is_weekend" fr =
    Some (of_int (if (5 <=? p_dow r)%Z then 1 else 0)) /\
  value_of "is_saturday" fr =
    Some (of_int (if (p_dow r =? 5)%Z then 1 else 0)) /\
  value_of "day_of_season" fr = Some (of_int (p_day_of_season r)) /\
  value_of "temp_max" fr = Some (group_mean (map temp_max grp)) /\
  value_of "temp_mean" fr = Some (group_mean (map temp_mean grp)) /\
  value_of "sunshine_hrs" fr = Some (group_mean (map sunshine_hrs grp)) /\
  value_of "precip_in" fr = Some (group_mean (map precip_in grp)) /\
  value_of "snowfall_in" fr = Some (group_mean (map snowfall_in grp)) /\
  value_of "wind_max_mph" fr = Some (group_mean (map wind_max_mph grp)) /\
  value_of "year_trend" fr = Some (of_int 4) /\
  p_historical_avg r =
    round_num (group_mean (map (fun d => of_int (total_leads d)) grp)) /\
  p_historical_std r =
    match column_std (map total_leads grp) with
    | NaN => 0%Q
    | Fin s => round1 s
    end.

End WithModel.

End Projection.

(** ** Sample data used to exercise the definitions *)

Module Samples.
Import Py Frame.

(** A day with the given date, year, weekday, maximum temperature and
    sunshine; dry, no snow, 40 leads. *)
Definition sample_day (dt yr wd : Z) (tmax sun : num) : day :=
  mk_day dt yr 3 wd 10 (bool_decide (5 <= wd)%Z) (bool_decide (wd = 5)%Z)
         (dt mod 100) 40 10 30
         tmax tmax (Fin 0) (Fin 0) (Fin 0) sun (Fin 0) (Fin 5).

(** A weekend of 2025: a sunny Saturday, a snowy Sunday and a sunny
    Monday, after a sunny Friday. *)
Definition snowy_sunday : day :=
  mk_day 20250302 2025 3 6 9 true false 15 12 2 10
         (Fin 30) (Fin 28) (Fin (5 # 10)) (Fin 3) (Fin 2) (Fin 0) (Fin 0) (Fin 12).

Definition long_weekend : list day :=
  [ sample_day 20250228 2025 4 (Fin 58) (Fin 8);
    sample_day 20250301 2025 5 (Fin 60) (Fin 9);
    snowy_sunday;
    sample_day 20250303 2025 0 (Fin 61) (Fin 9);
    sample_day 20250304 2025 1 (Fin 45) (Fin 6) ].

(** Two sunny warm days of 2024, then a cold dark day and a sunny day of
    2025. *)
Definition two_seasons : list day :=
  [ sample_day 20240301 2024 4 (Fin 60) (Fin 9);
    sample_day 20240302 2024 5 (Fin 62) (Fin 10);
    sample_day 20250301 2025 5 (Fin 35) (Fin 1);
    sample_day 20250303 2025 0 (Fin 61) (Fin 9) ].

(** A row with a maximum temperature and nothing else: the other columns
    are not keys of the row. *)
Definition only_temp_max (t : Q) : row := {["temp_max" := PyFloat (Fin t)]}.

(** A table row with a maximum temperature and no other observation: the
    other weather cells hold NaN, as [read_csv] and the left join leave
    them. *)
Definition only_temp_max_nan (t : Q) : day :=
  mk_day 20250301 2025 3 5 9 true true 14 40 10 30
         (Fin t) NaN NaN NaN NaN NaN NaN NaN.

(** [str.upper] on a string of ASCII characters: the letters a-z go to
    A-Z, every other character stays. *)
Definition ascii_upper_char (c : Ascii.ascii) : Ascii.ascii :=
  let n := Ascii.nat_of_ascii c in
  if bool_decide (97 <= n <= 122)%nat then Ascii.ascii_of_nat (n - 32) else c.

Fixpoint ascii_upper (s : string) : string :=
  match s with
  | EmptyString => EmptyString
  | String c s' => String (ascii_upper_char c) (ascii_upper s')
  end.

(** Five raw leads over two days, with sources of ASCII characters. *)
Definition some_leads : list Leads.lead :=
  [ Leads.mk_lead 20250301 "DM Spring Postcard";
    Leads.mk_lead 20250301 "Google Ads";
    Leads.mk_lead 20250302 "Unknown";
    Leads.mk_lead 20250301 "new direct mail offer";
    Leads.mk_lead 20250302 "" ].

(** Seven days of one season, the third without weather. *)
Definition one_week : list day :=
  [ sample_day 20250303 2025 0 (Fin 61) (Fin 9);
    sample_day 20250304 2025 1 (Fin 45) (Fin 6);
    sample_day 20250305 2025 2 NaN NaN;
    sample_day 20250306 2025 3 (Fin 50) (Fin 2);
    sample_day 20250307 2025 4 (Fin 55) (Fin 7);
    sample_day 20250308 2025 5 (Fin 58) (Fin 8);
    sample_day 20250310 2025 0 (Fin 63) (Fin 10);
    sample_day 20250311 2025 1 (Fin 64) (Fin 10) ].

(** A small merged table: one day of each full year and two days of the
    season in progress. *)
Definition with_partial_season : list day :=
  [ sample_day 20210301 2021 0 (Fin 50) (Fin 5);
    sample_day 20220301 2022 1 (Fin 52) (Fin 6);
    sample_day 20230301 2023 2 (Fin 54) (Fin 7);
    sample_day 20240301 2024 4 (Fin 60) (Fin 9);
    sample_day 20250301 2025 5 (Fin 35) (Fin 1);
    sample_day 20250303 2025 0 (Fin 61) (Fin 9);
    sample_day 20260301 2026 6 (Fin 70) (Fin 11);
    sample_day 20260302 2026 0 (Fin 71) (Fin 11) ].

(** A merged table whose last season is 2024: the week of [one_week], a
    year earlier, after one day of 2023. *)
Definition until_2024 : list day :=
  [ sample_day 20230301 2023 2 (Fin 54) (Fin 7);
    sample_day 20240301 2024 4 (Fin 61) (Fin 9);
    sample_day 20240302 2024 5 (Fin 45) (Fin 6);
    sample_day 20240304 2024 0 (Fin 50) (Fin 2);
    sample_day 20240305 2024 1 (Fin 55) (Fin 7);
    sample_day 20240306 2024 2 (Fin 58) (Fin 8);
    sample_day 20240307 2024 3 (Fin 63) (Fin 10) ].

(** A model that answers with the last cell of its input, which under
    [feature_cols] is year_trend. *)
Definition read_year_trend (x : list num) : Q :=
  match last x with
  | Some (Fin q) => q
  | _ => 0%Q
  end.

(** Stand-ins for the square root and the rounding of the float library,
    and the mean without rounding. *)
Definition no_sqrt (q : Q) : Q := q.
Definition no_rounding (q : Q) : Q := q.
Definition exact_mean (l : list Q) : Q :=
  (Features.Qsum l / inject_Z (Z.of_nat (length l)))%Q.

(** A regressor that takes rows of numbers only. *)
Definition numbers_only (x : list num) : option Q :=
  if forallb (fun c => negb (Features.is_nan c)) x
  then Some (read_year_trend x) else None.

(** One day of 2025 without temperature and sunshine. *)
Definition no_weather_day : list day :=
  [ sample_day 20250301 2025 5 NaN NaN ].

End Samples.

(** * Further parts of the sources *)

(** ** More about the classifiers *)

Module ClassifierExtra.
Import Py Classifier.

(** The cell under [k] carries no observation: the key is absent, or it
    holds [None] or NaN. *)
Definition unobserved (r : row) (k : string) : Prop :=
  r !! k = None \/ r !! k = Some PyNone \/ r !! k = Some (PyFloat NaN).

(** The snow test shared by both classifiers:
    [snowfall > 0.1 or (row.get('snow_depth', 0) or 0) > 1]. *)
Definition snow_test (r : row) : bool :=
  gt (or_ (get r "snowfall_in" 0) 0) (1 # 10)
  || gt (or_ (get r "snow_depth" 0) 0) 1.

(** The labels of [classify_day_weather] from worst to best. *)
Definition quality_rank (q : quality) : Z :=
  match q with bad => 0%Z | ok => 1%Z | nice => 2%Z end.

(** A row with the given hours of sunshine and maximum temperature. *)
Definition with_sun_and_temp (r : row) (s t : Q) : row :=
  <["sunshine_hrs" := PyFloat (Fin s)]> (<["temp_max" := PyFloat (Fin t)]> r).

(** What [x or d] reads off a cell that holds the number [x]. *)
Definition read_or (x d : Q) : Q := if Qeq_bool x 0 then d else x.

(** The last four rules of [classify_day_weather] on the outcomes of their
    six comparisons. *)
Definition sun_temp_rules (s7 t55 s5 t50 s3 t42 : bool) : quality :=
  if s7 && t55 then nice
  else if s5 && t50 then ok
  else if s3 || t42 then bad
  else ok.

End ClassifierExtra.

(** ** More about the streak columns *)

Module MomentumExtra.
Import Py Classifier Frame Momentum.

(** What the counters of a row say about its label. *)
Definition counters_fit (r : tagged) : Prop :=
  (0 <= nice_streak r)%Z /\ (0 <= bad_streak r)%Z /\
  ((0 < nice_streak r)%Z <-> weather_quality r = nice) /\
  ((0 < bad_streak r)%Z <-> weather_quality r = bad) /\
  (nice_streak r = 0%Z \/ bad_streak r = 0%Z).

(** [is_pop_day] of [rebuild_model_with_momentum], the test that
    [analyze_pop_and_regression] also uses for its pop days:
    [(weather_quality == 'nice') & (prev_day_quality == 'bad')], as 0/1. *)
Definition is_pop_day (r : tagged) : Z :=
  if bool_decide (weather_quality r = nice)
     && bool_decide (prev_day_quality r = Some bad)
  then 1%Z else 0%Z.

(** [df[df['dow'] < 5]] *)
Definition weekdays_of (df : list tagged) : list tagged :=
  filter (fun r => (dow (base r) < 5)%Z) df.

(** The rows behind one line of a streak table: the days whose streak has
    the length [streak_len], or at least that length on the last line
    ([last] is 5 for nice streaks and 4 for bad ones).  The selection is the
    same in [analyze_streaks] and in [export_momentum_coefficients]. *)
Definition streak_subset (streak : tagged -> Z) (last : Z)
    (weekdays : list tagged) (streak_len : Z) : list tagged :=
  if (streak_len <? last)%Z
  then filter (fun r => streak r = streak_len) weekdays
  else filter (fun r => (streak_len <= streak r)%Z) weekdays.

(** [range(a, b)] *)
Definition range (a b : Z) : list Z :=
  map (fun i => (a + Z.of_nat i)%Z) (seq 0 (Z.to_nat (b - a))).

(** The subsets of [analyze_streaks], in loop order. *)
Definition nice_streak_subsets (weekdays : list tagged) : list (list tagged) :=
  map (streak_subset nice_streak 5 weekdays) (range 1 6).

Definition bad_streak_subsets (weekdays : list tagged) : list (list tagged) :=
  map (streak_subset bad_streak 4 weekdays) (range 1 5).

(** The subsets of [export_momentum_coefficients], which start at streak
    length 0. *)
Definition export_nice_subsets (weekdays : list tagged) : list (list tagged) :=
  map (streak_subset nice_streak 5 weekdays) (range 0 6).

Definition export_bad_subsets (weekdays : list tagged) : list (list tagged) :=
  map (streak_subset bad_streak 4 weekdays) (range 0 5).

(** [dropna(subset=['temp_max', 'sunshine_hrs'])] in
    [rebuild_model_with_momentum], whose table goes to
    [export_momentum_coefficients]. *)
Definition with_weather (df : list tagged) : list tagged :=
  filter (fun r => Features.observed_weather (base r) = true) df.

End MomentumExtra.

(** ** The season window (lawn_lead_prediction.py) *)

Module SeasonWindow.

(** The calendar fields of a date. *)
Record timestamp := mk_timestamp {
  ts_year : Z;
  ts_month : Z;
  ts_day : Z
}.

Definition is_leap_year (y : Z) : bool :=
  ((y mod 4 =? 0)%Z && negb (y mod 100 =? 0)%Z) || (y mod 400 =? 0)%Z.

Definition days_in_month (y m : Z) : Z :=
  if (m =? 2)%Z then (if is_leap_year y then 29%Z else 28%Z)
  else if ((m =? 4) || (m =? 6) || (m =? 9) || (m =? 11))%Z then 30%Z
  else 31%Z.

(** A date of the calendar. *)
Definition calendar_date (t : timestamp) : Prop :=
  (1 <= ts_month t <= 12)%Z /\
  (1 <= ts_day t <= days_in_month (ts_year t) (ts_month t))%Z.

(** The number of the day within its year, January 1 being day 1. *)
Definition day_of_year (t : timestamp) : Z :=
  (foldr Z.add 0
     (map (fun m => days_in_month (ts_year t) (Z.of_nat m))
          (seq 1 (Z.to_nat (ts_month t - 1)))) + ts_day t)%Z.

(** [(date - pd.to_datetime(year + '-02-15')).dt.days] of [aggregate_daily]:
    the days from February 15 of the date's own year. *)
Definition day_of_season (t : timestamp) : Z :=
  (day_of_year t - day_of_year (mk_timestamp (ts_year t) 2 15))%Z.

(** The mask of [filter_season]. *)
Definition in_window (t : timestamp) : bool :=
  let md := (ts_month t * 100 + ts_day t)%Z in
  (215 <=? md)%Z && (md <=? 510)%Z.

(** [filter_season] *)
Definition filter_season {A} (date_of : A -> timestamp) (df : list A) : list A :=
  filter (fun r => in_window (date_of r) = true) df.

(** The last day of season of a year: May 10. *)
Definition last_day_of_season (y : Z) : Z :=
  if is_leap_year y then 85%Z else 84%Z.

End SeasonWindow.

(** ** Season phases (seasonal_weather_interaction.py) *)

Module Seasonal.
Import Py Classifier Frame Features Metrics.

Inductive phase := Early | Ramp | Peak | Tail | Unknown.

Definition phase_label (p : phase) : string :=
  match p with
  | Early => "Early (Feb 15-Mar 1)"
  | Ramp => "Ramp (Mar 1-17)"
  | Peak => "Peak (Mar 17-Apr 16)"
  | Tail => "Tail (Apr 16-May 10)"
  | Unknown => "Unknown"
  end.

#[global] Instance phase_eq_dec : EqDecision phase.
Proof. solve_decision. Defined.

(** [np.select(conditions, labels, default)] on one row: the label of the
    first condition that holds. *)
Fixpoint np_select {L} (choices : list (bool * L)) (default : L) : L :=
  match choices with
  | [] => default
  | (c, l) :: rest => if c then l else np_select rest default
  end.

Definition phase_of (dos : Z) : phase :=
  np_select
    [ ((dos <? 14)%Z, Early);
      ((14 <=? dos)%Z && (dos <? 30)%Z, Ramp);
      ((30 <=? dos)%Z && (dos <? 60)%Z, Peak);
      ((60 <=? dos)%Z, Tail) ]
    Unknown.

(** A row with the season_phase column. *)
Record phased := mk_phased {
  pbase : day;
  season_phase : phase
}.

(** [define_season_phases] *)
Definition define_season_phases (df : list day) : list phased :=
  map (fun d => mk_phased d (phase_of (day_of_season d))) df.

(** The list [phases] that the analyses loop over. *)
Definition phases : list phase := [Early; Ramp; Peak; Tail].

(** [df[df['dow'] < 5]] *)
Definition weekdays_of (df : list phased) : list phased :=
  filter (fun r => (dow (pbase r) < 5)%Z) df.

Definition weather_quality_of (r : phased) : quality :=
  classify_day_weather (row_of (pbase r)).

(** [rows['total_leads'].mean()]: NaN for no row. *)
Definition leads_mean (rows : list phased) : num :=
  mean_min1 (map (fun r => of_int (total_leads (pbase r))) rows).

Definition finite (x : num) : option Q :=
  match x with NaN => None | Fin q => Some q end.

(** [(avg / phase_avg - 1) * 100]; there is no finite value where an
    average is NaN or the phase average is 0. *)
Definition pct_vs (avg phase_avg : num) : option Q :=
  a ← finite avg; b ← finite phase_avg; q ← divide a b; Some ((q - 1) * 100)%Q.

Record weather_effect := mk_weather_effect {
  we_quality : quality;
  we_avg_leads : num;
  we_vs_phase_avg_pct : option Q;
  we_count : nat
}.

Record phase_result := mk_phase_result {
  pr_phase : phase;
  pr_phase_avg : num;
  pr_weather_effects : list weather_effect
}.

(** The rows of one phase and one weather quality. *)
Definition weather_subset (weekdays : list phased) (ph : phase) (q : quality)
  : list phased :=
  filter (fun r => weather_quality_of r = q)
         (filter (fun r => season_phase r = ph) weekdays).

(** The mean of a float column: NaN cells are skipped, and the mean of a
    column without observation is NaN. *)
Definition column_mean (xs : list num) : num := mean_min1 xs.

Definition minus (a b : num) : num :=
  match a, b with
  | Fin p, Fin q => Fin (p - q)
  | _, _ => NaN
  end.

(** [temp_vs_normal]: the day's temperature less the mean temperature of
    the weekdays with the same day of season. *)
Definition temp_vs_normal (weekdays : list phased) (r : phased) : num :=
  minus (temp_max (pbase r))
        (column_mean
           (map (fun r' => temp_max (pbase r'))
                (filter (fun r' => day_of_season (pbase r') =
                                   day_of_season (pbase r)) weekdays))).

Definition temp_above_normal (weekdays : list phased) (r : phased) : bool :=
  gt (temp_vs_normal weekdays r) 5.

Definition temp_below_normal (weekdays : list phased) (r : phased) : bool :=
  lt (temp_vs_normal weekdays r) (-5).

Inductive temp_category := Above | Normal | Below.

Definition temp_category_label (c : temp_category) : string :=
  match c with
  | Above => "Above (+5°F)"
  | Normal => "Normal (±5°F)"
  | Below => "Below (-5°F)"
  end.

(** The three subsets of the rows of a phase, as the source selects them. *)
Definition temp_subset (weekdays phase_data : list phased) (c : temp_category)
  : list phased :=
  match c with
  | Above => filter (fun r => temp_above_normal weekdays r = true) phase_data
  | Below => filter (fun r => temp_below_normal weekdays r = true) phase_data
  | Normal =>
      filter (fun r => negb (temp_above_normal weekdays r)
                       && negb (temp_below_normal weekdays r) = true)
             phase_data
  end.

Record temp_effect := mk_temp_effect {
  te_category : temp_category;
  te_avg : num;
  te_pct : option Q;
  te_n : nat
}.

Section WithRounding.

(** [round(x, 1)] *)
Variable round1 : Q -> Q.

Definition round_cell (x : num) : num :=
  match x with NaN => NaN | Fin q => Fin (round1 q) end.

(** [analyze_weather_by_phase]: for each phase its average and, for each
    weather quality with at least three days, the entry of that quality. *)
Definition analyze_weather_by_phase (df : list phased) : list phase_result :=
  let weekdays := weekdays_of df in
  map (fun ph =>
         let phase_data := filter (fun r => season_phase r = ph) weekdays in
         let phase_avg := leads_mean phase_data in
         mk_phase_result ph (round_cell phase_avg)
           (omap (fun q =>
                    let subset := weather_subset weekdays ph q in
                    if bool_decide (3 <= length subset)%nat
                    then Some (mk_weather_effect q
                                 (round_cell (leads_mean subset))
                                 (round1 <$> pct_vs (leads_mean subset) phase_avg)
                                 (length subset))
                    else None)
                 [nice; ok; bad]))
      phases.

(** [analyze_above_below_normal_temp] *)
Definition analyze_above_below_normal_temp (df : list phased)
  : list (phase * list temp_effect) :=
  let weekdays := weekdays_of df in
  map (fun ph =>
         let phase_data := filter (fun r => season_phase r = ph) weekdays in
         let phase_avg := leads_mean phase_data in
         (ph,
          omap (fun c =>
                  let subset := temp_subset weekdays phase_data c in
                  if bool_decide (3 <= length subset)%nat
                  then Some (mk_temp_effect c
                               (round_cell (leads_mean subset))
                               (round1 <$> pct_vs (leads_mean subset) phase_avg)
                               (length subset))
                  else None)
               [Above; Normal; Below]))
      phases.

End WithRounding.

(** The days of a table that lie in a subset of at least three days, the
    subsets that [analyze_weather_by_phase] reports. *)
Definition in_reported_subset (wd : list phased) (r : phased) : Prop :=
  (3 <= length (weather_subset wd (season_phase r) (weather_quality_of r)))%nat.

#[global] Instance in_reported_subset_dec (wd : list phased) (r : phased) :
  Decision (in_reported_subset wd r).
Proof. unfold in_reported_subset. apply _. Defined.

(** The day count that the result holds for a phase and a quality: none
    for a subset of fewer than three days. *)
Definition reported_count (wd : list phased) (ph : phase) (q : quality) : nat :=
  if bool_decide (3 <= length (weather_subset wd ph q))%nat
  then length (weather_subset wd ph q) else 0%nat.

End Seasonal.

(** ** Lead normalisation (weather_momentum_analysis.py) *)

Module Normalize.
Import Py Frame Features.

(** A float cell that a division can fill: NaN, an infinity or a number. *)
Inductive float := Nan | Inf (negative : bool) | Finite (q : Q).

(** [total_leads / week_baseline] on one row, a count over a float: a
    division by 0 raises nothing and gives an infinity, or NaN for 0 / 0. *)
Definition quotient (a : Z) (b : num) : float :=
  match b with
  | NaN => Nan
  | Fin q =>
      if Qeq_bool q 0
      then (if (a =? 0)%Z then Nan else Inf (a <? 0)%Z)
      else Finite (inject_Z a / q)
  end.

(** [(x - 1) * 100] *)
Definition as_percent_change (x : float) : float :=
  match x with
  | Nan => Nan
  | Inf s => Inf s
  | Finite q => Finite ((q - 1) * 100)
  end.

(** The merge key [['year', 'week_num']]. *)
Definition week_key (d : day) : Z * Z := (year d, week_num d).

(** [df[df['dow'] < 5]] *)
Definition weekday_data (df : list day) : list day :=
  filter (fun d => (dow d < 5)%Z) df.

(** [series.mean()] of a column of counts: NaN for no row. *)
Definition leads_mean (rows : list day) : num :=
  mean_min1 (map (fun d => of_int (total_leads d)) rows).

(** [baselines]: one row for each distinct (year, week_num) of the
    weekdays, with the mean of the leads of the weekdays of that week.  The
    merge finds a row by its key, so the order of the rows plays no part. *)
Definition baselines (df : list day) : list ((Z * Z) * num) :=
  map (fun k => (k, leads_mean (filter (fun d => week_key d = k)
                                       (weekday_data df))))
      (remove_dups (map week_key (weekday_data df))).

(** The week_baseline that the left merge puts on a row: NaN where
    [baselines] has no row with the key. *)
Definition merged (k : Z * Z) (right : list ((Z * Z) * num)) : num :=
  match list_find (fun p => fst p = k) right with
  | Some (_, (_, m)) => m
  | None => NaN
  end.

(** [series.fillna(value)] on one cell *)
Definition fillna (x value : num) : num :=
  match x with NaN => value | Fin _ => x end.

(** A row with the three columns of [normalize_leads]. *)
Record normalized := mk_normalized {
  nbase : day;
  week_baseline : num;
  leads_vs_baseline : float;
  leads_ratio : float
}.

(** [normalize_leads].  Every key occurs once in [baselines], so the left
    merge keeps the rows of [df] as they are, in their order. *)
Definition normalize_leads (df : list day) : list normalized :=
  let right := baselines df in
  let overall := leads_mean df in
  map (fun d =>
         let wb := fillna (merged (week_key d) right) overall in
         mk_normalized d wb
           (as_percent_change (quotient (total_leads d) wb))
           (quotient (total_leads d) wb))
      df.


(** A week of 2025 with uneven leads and a Saturday, and the Saturday of
    the week after. *)
Definition uneven_weeks : list day :=
  let d := fun dt wk wd n =>
    mk_day dt 2025 3 wd wk (bool_decide (5 <= wd)%Z) (bool_decide (wd = 5)%Z)
           (dt mod 100) n 0 n
           (Fin 60) (Fin 55) (Fin 0) (Fin 0) (Fin 0) (Fin 8) (Fin 0) (Fin 5) in
  [ d 20250303%Z 10%Z 0%Z 10%Z; d 20250304%Z 10%Z 1%Z 20%Z;
    d 20250305%Z 10%Z 2%Z 30%Z; d 20250308%Z 10%Z 5%Z 50%Z;
    d 20250315%Z 11%Z 5%Z 70%Z ].

End Normalize.

(** ** Day-to-day changes (weather_momentum_analysis.py) *)

Module MomentumFeatures.
Import Py Classifier Frame Momentum Features MomentumExtra.

(** A row of [dw] in [rebuild_model_with_momentum] with the two columns
    that carry the day before.  The flags and the rolling averages, which
    the function computes with the expressions of [engineer_features], are
    not repeated here. *)
Record lagged := mk_lagged {
  lbase : tagged;
  temp_max_prev : num;
  sunshine_prev : num
}.

(** The two columns do not exist before the loop and read as NaN once the
    first assignment creates them. *)
Definition no_lag (r : tagged) : lagged := mk_lagged r NaN NaN.

(** [series.shift(1)]: every value moves one position down, the first cell
    is NaN and the last value is dropped. *)
Definition shift1 (xs : list num) : list num := take (length xs) (NaN :: xs).

(** [df.loc[mask, col]] and [df.loc[mask, col] = series], as in
    [engineer_features]. *)
Definition gather (col : lagged -> num) (idx : list nat) (f : list lagged)
  : list num :=
  omap (fun ix => col <$> f !! ix) idx.

Definition assign (set : lagged -> num -> lagged)
    (idx : list nat) (vals : list num) (f : list lagged) : list lagged :=
  fold_left (fun f' iv => alter (fun r => set r (snd iv)) (fst iv) f')
            (zip idx vals) f.

Definition set_temp_max_prev (r : lagged) (v : num) : lagged :=
  mk_lagged (lbase r) v (sunshine_prev r).

Definition set_sunshine_prev (r : lagged) (v : num) : lagged :=
  mk_lagged (lbase r) (temp_max_prev r) v.

(** The two shift assignments in the body of
    [for year in dw['year'].unique()]. *)
Definition lag_year (f : list lagged) (y : Z) : list lagged :=
  let idx := year_index y (map (fun r => year (base (lbase r))) f) in
  let f1 :=
    assign set_temp_max_prev idx
           (shift1 (gather (fun r => temp_max (base (lbase r))) idx f)) f in
  assign set_sunshine_prev idx
         (shift1 (gather (fun r => sunshine_hrs (base (lbase r))) idx f1)) f1.

(** [quality_map] *)
Definition quality_num (q : quality) : Z :=
  match q with nice => 2%Z | ok => 1%Z | bad => 0%Z end.

(** The momentum columns of the enhanced model. *)
Record enhanced := mk_enhanced {
  erow : lagged;
  temp_change_1d : num;
  sunshine_change_1d : num;
  weather_quality_num : Z;
  prev_quality_num : Z;
  pop_day : Z
}.

(** The momentum features of [rebuild_model_with_momentum]: the rows
    without temperature or sunshine are dropped, the previous values are
    shifted in year by year, and the changes and quality numbers are
    computed row by row.  ([fillna(0)] on the streak counters changes
    nothing: they are never missing.) *)
Definition momentum_features (df : list tagged) : list enhanced :=
  let dw := with_weather df in
  let lag :=
    fold_left lag_year (unique (map (fun r => year (base r)) dw))
              (map no_lag dw) in
  map (fun r =>
         let d := base (lbase r) in
         mk_enhanced r
           (Seasonal.minus (temp_max d)
              (Normalize.fillna (temp_max_prev r) (temp_max d)))
           (Seasonal.minus (sunshine_hrs d)
              (Normalize.fillna (sunshine_prev r) (sunshine_hrs d)))
           (quality_num (weather_quality (lbase r)))
           (match prev_day_quality (lbase r) with
            | Some q => quality_num q
            | None => 1%Z
            end)
           (is_pop_day (lbase r)))
      lag.

(** The value shifted onto the row of rank [k] of a series. *)
Definition previous (xs : list num) (k : nat) : num :=
  match k with
  | O => NaN
  | S k' => default NaN (xs !! k')
  end.

(** The rows of year [y] hold the shifted values of that year's own
    series, where [s] is the table the loop runs over. *)
Definition year_lagged (s : list tagged) (y : Z) (f : list lagged) : Prop :=
  forall k ix, year_index y (map (fun r => year (base r)) s) !! k = Some ix ->
    exists r, f !! ix = Some r /\
      temp_max_prev r =
        previous (map (fun r => temp_max (base r))
                      (filter (fun r => year (base r) = y) s)) k /\
      sunshine_prev r =
        previous (map (fun r => sunshine_hrs (base r))
                      (filter (fun r => year (base r) = y) s)) k.

End MomentumFeatures.

(** ** Day-of-week table and the report's best weekday
       (lawn_lead_prediction.py) *)

Module Eda.
Import Py Frame Features.

(** [dow_order], the categories of the dow_name column. *)
Definition dow_order : list string :=
  ["Monday"; "Tuesday"; "Wednesday"; "Thursday"; "Friday"; "Saturday";
   "Sunday"]%string.

(** [dt.day_name()] of a date whose [dt.dayofweek] is [dw] (0 is Monday, 6
    is Sunday); [aggregate_daily] derives both columns from the date. *)
Definition day_name (dw : Z) : string :=
  if (0 <=? dw)%Z then default ""%string (dow_order !! Z.to_nat dw)
  else ""%string.

(** The sort key of an ordered categorical value: its position among the
    categories; a value outside the categories is missing and sorts last. *)
Definition category_code (name : string) : Z :=
  match list_find (fun c => c = name) dow_order with
  | Some (i, _) => Z.of_nat i
  | None => Z.of_nat (length dow_order)
  end.

(** The aggregation ['median'] of a column of counts. *)
Definition median (xs : list Z) : num :=
  let s := sort_values (fun x => x) xs in
  let n := length s in
  match s !! (n / 2)%nat with
  | None => NaN
  | Some hi =>
      if Nat.even n
      then Fin ((inject_Z (default hi (s !! (n / 2 - 1)%nat)) + inject_Z hi) / 2)
      else Fin (inject_Z hi)
  end.

(** One row of [dow_stats]. *)
Record dow_stat := mk_dow_stat {
  ds_dow : Z;
  ds_dow_name : string;
  ds_avg_total : num;
  ds_avg_organic : num;
  ds_avg_dm : num;
  ds_median_total : num;
  ds_count : nat;
  ds_pct_vs_weekday_avg : option Q
}.

Definition count_mean (col : day -> Z) (rows : list day) : num :=
  mean_min1 (map (fun d => of_int (col d)) rows).

Section WithRounding.

(** [series.round(1)] on one cell *)
Variable round1 : Q -> Q.

(** The day-of-week table of [run_eda].  The name of a day is determined
    by its number, so the groups of [['dow', 'dow_name']] are the groups of
    dow, in ascending order of dow; the table is then sorted by dow_name as
    an ordered categorical. *)
Definition dow_stats (daily : list day) : list dow_stat :=
  let full_years_rows := filter (fun d => year d ∈ full_years) daily in
  let grouped :=
    map (fun g =>
           mk_dow_stat (fst g) (day_name (fst g))
             (count_mean total_leads (snd g))
             (count_mean organic_leads (snd g))
             (count_mean dm_leads (snd g))
             (median (map total_leads (snd g)))
             (length (snd g))
             None)
        (groupby dow full_years_rows) in
  let sorted := sort_values (fun r => category_code (ds_dow_name r)) grouped in
  let weekday_avg :=
    count_mean total_leads (filter (fun d => (dow d < 5)%Z) full_years_rows) in
  map (fun r =>
         mk_dow_stat (ds_dow r) (ds_dow_name r) (ds_avg_total r)
           (ds_avg_organic r) (ds_avg_dm r) (ds_median_total r) (ds_count r)
           (round1 <$> Seasonal.pct_vs (ds_avg_total r) weekday_avg))
      sorted.

End WithRounding.

(** ['best_weekday'] of [generate_report]:
    [dow_stats.iloc[0]['dow_name'] if len(dow_stats) > 0 else 'N/A']. *)
Definition best_weekday (stats : list dow_stat) : string :=
  match stats with
  | r :: _ => ds_dow_name r
  | [] => "N/A"%string
  end.

(** A week in which the leads grow from Monday to Saturday. *)
Definition growing_week : list day :=
  map (fun i =>
         mk_day (20250303 + i) 2025 3 i 10 (bool_decide (5 <= i)%Z)
                (bool_decide (i = 5)%Z) (16 + i) (10 * (i + 1)) 0 (10 * (i + 1))
                (Fin 60) (Fin 55) (Fin 0) (Fin 0) (Fin 0) (Fin 8) (Fin 0)
                (Fin 5))
      [0; 1; 2; 3; 4; 5]%Z.

End Eda.

(** * Theorems *)

Import Py Classifier.

(** ** The classifiers *)

Section ClassifierFacts.

Local Open Scope Q_scope.

Lemma Qgt_bool_zero (c : Q) : 0 <= c -> Qgt_bool 0 c = false.
Proof.
  intros Hc. unfold Qgt_bool. destruct (0 ?= c) eqn:E; try reflexivity.
  apply Qgt_alt in E. exfalso. apply (Qlt_not_le _ _ E Hc).
Qed.

Lemma Qge_bool_zero (c : Q) : 0 < c -> Qge_bool 0 c = false.
Proof.
  intros Hc. unfold Qge_bool. now rewrite (proj1 (Qlt_alt 0 c) Hc).
Qed.

Lemma Qgt_bool_proper (a b c : Q) : a == b -> Qgt_bool a c = Qgt_bool b c.
Proof. intros H. unfold Qgt_bool. now rewrite H. Qed.

Lemma Qge_bool_proper (a b c : Q) : a == b -> Qge_bool a c = Qge_bool b c.
Proof. intros H. unfold Qge_bool. now rewrite H. Qed.

(** On a field whose default is 0, the source's [get ... or 0] followed by a
    [>] test against a non-negative literal agrees with the test on the
    defaulted number: 0 and NaN both fail it. *)
Lemma gt_or_zero (r : row) (k : string) (c : Q) :
  0 <= c ->
  gt (or_ (get r k 0) 0) c = Qgt_bool (spec_field r k 0) c.
Proof.
  intros Hc. unfold get, spec_field.
  destruct (r !! k) as [[|[|q]]|]; simpl; try reflexivity.
  - symmetry. now apply Qgt_bool_zero.
  - destruct (Qeq_bool q 0) eqn:Hz; [|reflexivity].
    apply Qeq_bool_eq in Hz. simpl. fold (Qgt_bool 0 c).
    symmetry. now apply Qgt_bool_proper.
Qed.

Lemma ge_or_zero (r : row) (k : string) (c : Q) :
  0 < c ->
  ge (or_ (get r k 0) 0) c = Qge_bool (spec_field r k 0) c.
Proof.
  intros Hc. unfold get, spec_field.
  destruct (r !! k) as [[|[|q]]|]; simpl; try reflexivity.
  - symmetry. now apply Qge_bool_zero.
  - destruct (Qeq_bool q 0) eqn:Hz; [|reflexivity].
    apply Qeq_bool_eq in Hz. simpl. fold (Qge_bool 0 c).
    symmetry. now apply Qge_bool_proper.
Qed.

Lemma classify_weather_condition_refines (r : row) :
  classify_weather_condition r = spec_classify_condition r.
Proof.
  unfold classify_weather_condition, spec_classify_condition,
    spec_condition_rules.
  rewrite !gt_or_zero by (compute; discriminate).
  rewrite !ge_or_zero by reflexivity.
  reflexivity.
Qed.

(** C1.  [classify_weather_condition] returns, on every row, the label that
    the six-rule priority list of the specification gives once missing
    fields are defaulted.  At the boundary: with no snow, rain of exactly
    0.25 in is "Light Rain", and any rain above 0.25 in is "Rain". *)
Theorem C1_condition_priority_list :
  (forall r : row, classify_weather_condition r = spec_classify_condition r)
  /\ (forall r : row,
        no_snow r -> has_number r "rain_in" (25 # 100) ->
        condition_label (classify_weather_condition r) = "Light Rain"%string)
  /\ (forall (r : row) (x : Q),
        no_snow r -> has_number r "rain_in" x -> 25 # 100 < x ->
        condition_label (classify_weather_condition r) = "Rain"%string).
Proof.
  split; [exact classify_weather_condition_refines|].
  split.
  - intros r [Hs Hd] Hr. rewrite classify_weather_condition_refines.
    unfold spec_classify_condition, spec_condition_rules.
    rewrite Hs, Hd. unfold spec_field. unfold has_number in Hr. rewrite !Hr. reflexivity.
  - intros r x [Hs Hd] Hr Hx. rewrite classify_weather_condition_refines.
    unfold spec_classify_condition, spec_condition_rules.
    rewrite Hs, Hd. unfold spec_field. unfold has_number in Hr. rewrite !Hr. simpl.
    unfold Qgt_bool. now rewrite (proj1 (Qgt_alt x (25 # 100)) Hx).
Qed.

Lemma C1_condition_priority_list_witness :
  condition_label
    (classify_weather_condition {["rain_in" := PyFloat (Fin (25 # 100))]})
    = "Light Rain"%string /\
  condition_label
    (classify_weather_condition
       {["rain_in" := PyFloat (Fin (25000001 # 100000000))]})
    = "Rain"%string.
Proof.
  split.
  - apply (proj1 (proj2 C1_condition_priority_list)).
    + split; reflexivity.
    + reflexivity.
  - apply (proj2 (proj2 C1_condition_priority_list) _ (25000001 # 100000000)).
    + split; reflexivity.
    + reflexivity.
    + reflexivity.
Defined.

Lemma missing_or (r : row) (k : string) (d : Q) :
  missing r k -> or_ (get r k d) d = Fin d.
Proof.
  unfold get. intros [-> | ->]; simpl; [|reflexivity].
  destruct (Qeq_bool d 0); reflexivity.
Qed.

(** Where every field but temp_max is missing the Python way, the defaults
    are substituted and the day is "Cloudy/Overcast" and "bad". *)
Lemma only_temp_max_missing (r : row) :
  missing r "snowfall_in" -> missing r "snow_depth" ->
  missing r "precip_in" -> missing r "rain_in" -> missing r "sunshine_hrs" ->
  classify_weather_condition r = CloudyOvercast /\
  classify_day_weather r = bad.
Proof.
  intros H1 H2 H3 H4 H5.
  unfold classify_weather_condition, classify_day_weather.
  rewrite !(missing_or r _ 0) by assumption. split; reflexivity.
Qed.

Example only_temp_max_absent_keys :
  classify_weather_condition (Samples.only_temp_max 60) = CloudyOvercast /\
  classify_day_weather (Samples.only_temp_max 60) = bad.
Proof. apply only_temp_max_missing; left; reflexivity. Qed.

(** The coarse classifier gives "Cloudy/Overcast" also when the missing cells
    hold NaN. *)
Example condition_only_temp_max_nan :
  classify_weather_condition (Frame.row_of (Samples.only_temp_max_nan 60))
  = CloudyOvercast.
Proof. vm_compute. reflexivity. Qed.

(** C3.  A table row whose only observation is temp_max = 60, the other
    weather cells holding NaN, is labelled "ok" by [classify_day_weather]:
    NaN is truthy, so [or 0] leaves it in place, and [NaN < 3] is false.
    With the default 0 for sunshine the rule list gives "bad". *)
Theorem C3_nan_sunshine_not_defaulted :
  classify_day_weather (Frame.row_of (Samples.only_temp_max_nan 60)) = ok /\
  spec_classify_quality (Frame.row_of (Samples.only_temp_max_nan 60)) = bad.
Proof. split; vm_compute; reflexivity. Qed.

End ClassifierFacts.

(** ** Indexing a table by year *)

Section IndexFacts.
Import Frame.

Lemma year_index_from_elem (y : Z) (years : list Z) :
  forall (i ix : nat),
    ix ∈ year_index_from i y years <->
    (i <= ix)%nat /\ years !! (ix - i)%nat = Some y.
Proof.
  induction years as [|y' rest IH]; intros i ix; simpl.
  - split; [intros H; inversion H | intros [_ H]; discriminate].
  - case_bool_decide as Hy.
    + rewrite elem_of_cons, IH. split.
      * intros [-> | [Hle Hl]].
        -- split; [lia|]. replace (i - i)%nat with 0%nat by lia. now subst.
        -- split; [lia|]. replace (ix - i)%nat with (S (ix - S i)) by lia.
           exact Hl.
      * intros [Hle Hl]. destruct (decide (ix = i)) as [->|Hne]; [now left|].
        right. split; [lia|].
        replace (ix - i)%nat with (S (ix - S i)) in Hl by lia. exact Hl.
    + rewrite IH. split.
      * intros [Hle Hl]. split; [lia|].
        replace (ix - i)%nat with (S (ix - S i)) by lia. exact Hl.
      * intros [Hle Hl]. destruct (decide (ix = i)) as [->|Hne].
        -- replace (i - i)%nat with 0%nat in Hl by lia. simpl in Hl. congruence.
        -- split; [lia|].
           replace (ix - i)%nat with (S (ix - S i)) in Hl by lia. exact Hl.
Qed.

Lemma year_index_elem (y : Z) (years : list Z) (ix : nat) :
  ix ∈ year_index y years <-> years !! ix = Some y.
Proof.
  unfold year_index. rewrite year_index_from_elem.
  replace (ix - 0)%nat with ix by lia. split; [tauto | split; [lia | easy]].
Qed.

Lemma year_index_from_NoDup (y : Z) (years : list Z) :
  forall i, NoDup (year_index_from i y years).
Proof.
  induction years as [|y' rest IH]; intros i; simpl; [constructor|].
  case_bool_decide; [|apply IH].
  constructor; [|apply IH]. rewrite year_index_from_elem. lia.
Qed.

Lemma year_index_NoDup (y : Z) (years : list Z) : NoDup (year_index y years).
Proof. apply year_index_from_NoDup. Qed.

Lemma year_index_lt (y : Z) (years : list Z) (ix : nat) :
  ix ∈ year_index y years -> (ix < length years)%nat.
Proof. rewrite year_index_elem. apply lookup_lt_Some. Qed.

Lemma unique_from_elem (l : list Z) :
  forall seen x, x ∈ unique_from seen l <-> x ∈ l /\ x ∉ seen.
Proof.
  induction l as [|a l IH]; intros seen x; simpl.
  - split; [intros H; inversion H | intros [H _]; inversion H].
  - case_bool_decide as Ha.
    + rewrite IH, elem_of_cons. split; [tauto|].
      intros [[->|H] Hn]; [contradiction | tauto].
    + rewrite elem_of_cons, IH, !elem_of_cons.
      split.
      * intros [->|[H Hn]]; tauto.
      * intros [[->|H] Hn]; [now left|].
        destruct (decide (x = a)) as [->|Hne]; [now left | right; tauto].
Qed.

Lemma unique_from_NoDup (l : list Z) : forall seen, NoDup (unique_from seen l).
Proof.
  induction l as [|a l IH]; intros seen; simpl; [constructor|].
  case_bool_decide; [apply IH|].
  constructor; [|apply IH].
  rewrite unique_from_elem, elem_of_cons. tauto.
Qed.

Lemma unique_elem (l : list Z) (x : Z) : x ∈ unique l <-> x ∈ l.
Proof.
  unfold unique. rewrite unique_from_elem. split; [tauto|].
  intros H. split; [exact H | apply not_elem_of_nil].
Qed.

Lemma unique_NoDup (l : list Z) : NoDup (unique l).
Proof. apply unique_from_NoDup. Qed.

End IndexFacts.

(** ** Sorting by date *)

Section SortFacts.
Import Frame.
Context {A : Type} (key : A -> Z).

Lemma insert_by_perm (d : A) (l : list A) : insert_by key d l ≡ₚ d :: l.
Proof.
  induction l as [|x l IH]; simpl; [reflexivity|].
  destruct (key d <=? key x)%Z; [reflexivity|].
  rewrite IH. apply Permutation_swap.
Qed.

Lemma sort_values_perm (l : list A) : sort_values key l ≡ₚ l.
Proof.
  induction l as [|x l IH]; simpl; [reflexivity|].
  rewrite insert_by_perm. now rewrite IH.
Qed.

Lemma insert_by_sorted (d : A) (l : list A) :
  sorted_by key l -> sorted_by key (insert_by key d l).
Proof.
  unfold sorted_by. induction l as [|x l IH]; intros Hs; simpl.
  - repeat constructor.
  - apply StronglySorted_inv in Hs as [Hl Hx].
    destruct (key d <=? key x)%Z eqn:E.
    + apply Z.leb_le in E. constructor; [constructor; assumption|].
      constructor; [exact E|].
      eapply Forall_impl; [exact Hx|]. simpl. intros; lia.
    + apply Z.leb_gt in E. constructor; [now apply IH|].
      rewrite insert_by_perm. constructor; [lia | exact Hx].
Qed.

Lemma sort_values_sorted (l : list A) : sorted_by key (sort_values key l).
Proof.
  induction l as [|x l IH]; simpl; [constructor|].
  now apply insert_by_sorted.
Qed.

(** A table already in key order is left as it is. *)
Lemma sort_values_id (l : list A) :
  sorted_by key l -> sort_values key l = l.
Proof.
  unfold sorted_by. induction l as [|x l IH]; intros Hs; simpl; [reflexivity|].
  apply StronglySorted_inv in Hs as [Hl Hx]. rewrite (IH Hl).
  destruct l as [|z l]; [reflexivity|]. simpl.
  apply Forall_cons in Hx as [Hz _].
  now rewrite (proj2 (Z.leb_le _ _) Hz).
Qed.

Lemma sorted_by_filter (P : A -> Prop) `{!forall d, Decision (P d)}
    (l : list A) :
  sorted_by key l -> sorted_by key (filter P l).
Proof.
  unfold sorted_by. induction 1 as [|x l Hs IH Hx]; [constructor|].
  rewrite filter_cons. destruct (decide (P x)); [|exact IH].
  constructor; [exact IH|].
  apply Forall_forall. intros z Hz. apply list_elem_of_filter in Hz as [_ Hz].
  exact (proj1 (Forall_forall _ _) Hx z Hz).
Qed.

End SortFacts.

(** ** Grouping *)

Section GroupFacts.
Import Frame.

Lemma group_keys_NoDup (keys : list Z) : NoDup (group_keys keys).
Proof.
  unfold group_keys. rewrite sort_values_perm. apply unique_NoDup.
Qed.

Lemma group_keys_member (keys : list Z) (k : Z) :
  k ∈ group_keys keys <-> k ∈ keys.
Proof. unfold group_keys. now rewrite sort_values_perm, unique_elem. Qed.

End GroupFacts.

(** ** Loops that treat one year at a time

    Both [build_streaks] and [engineer_features] run a loop over the years
    of the table whose body reads and writes only the rows of its year. *)

Section PerYear.
Import Frame.

Context {T : Type}.
Variable years : list Z.
Variable body : list T -> Z -> list T.
Variable Inv : list T -> Prop.
Variables Pre Post : Z -> list T -> Prop.

Hypothesis body_local : forall f y,
  Inv f -> Pre y f ->
  Inv (body f y) /\
  (forall j, years !! j ≠ Some y -> body f y !! j = f !! j) /\
  Post y (body f y).

Hypothesis Pre_agree : forall y f f',
  (forall j, years !! j = Some y -> f' !! j = f !! j) -> Pre y f -> Pre y f'.

Hypothesis Post_agree : forall y f f',
  (forall j, years !! j = Some y -> f' !! j = f !! j) -> Post y f -> Post y f'.

Lemma per_year_loop (ys : list Z) :
  forall f,
    NoDup ys -> Inv f -> (forall y, y ∈ ys -> Pre y f) ->
    Inv (fold_left body ys f) /\
    (forall j, (forall y, y ∈ ys -> years !! j ≠ Some y) ->
               fold_left body ys f !! j = f !! j) /\
    (forall y, y ∈ ys -> Post y (fold_left body ys f)).
Proof.
  induction ys as [|y0 ys IH]; intros f Hnd Hinv Hpre; simpl.
  - split; [exact Hinv|]. split; [reflexivity|]. intros y Hy. inversion Hy.
  - apply NoDup_cons in Hnd as [Hy0 Hnd].
    destruct (body_local f y0 Hinv) as (Hinv1 & Hout1 & Hpost1).
    { apply Hpre. now left. }
    destruct (IH (body f y0) Hnd Hinv1) as (Hinv' & Hout' & Hpost').
    { intros y Hy. apply (Pre_agree y f).
      - intros j Hj. apply Hout1. rewrite Hj. intros [= ->]. contradiction.
      - apply Hpre. now right. }
    split; [exact Hinv'|]. split.
    + intros j Hj. rewrite Hout'.
      * apply Hout1, Hj. now left.
      * intros y Hy. apply Hj. now right.
    + intros y Hy. apply elem_of_cons in Hy as [->|Hy]; [|now apply Hpost'].
      apply (Post_agree y0 (body f y0)); [|exact Hpost1].
      intros j Hj. apply Hout'. intros y Hy. rewrite Hj.
      intros [= ->]. contradiction.
Qed.

End PerYear.

(** ** The streak tracker *)

Section StreakFacts.
Import Frame Momentum.

Lemma back_nil {A} (n : nat) : back (@nil A) n = None.
Proof. unfold back, from_end. case_bool_decide; [|reflexivity]. now destruct n. Qed.

Lemma back_snoc_1 {A} (l : list A) (x : A) : back (l ++ [x]) 1 = Some x.
Proof.
  unfold back, from_end. rewrite length_app. simpl.
  rewrite bool_decide_eq_true_2 by lia.
  replace (length l + 1 - 1)%nat with (length l + 0)%nat by lia.
  now rewrite lookup_app_r, Nat.add_0_r, Nat.sub_diag by lia.
Qed.

Lemma back_snoc_S {A} (l : list A) (x : A) (n : nat) :
  (1 <= n)%nat -> back (l ++ [x]) (S n) = back l n.
Proof.
  intros Hn. unfold back, from_end. rewrite length_app. simpl.
  case_bool_decide as H1; case_bool_decide as H2; try lia; [|reflexivity].
  replace (length l + 1 - S n)%nat with (length l - n)%nat by lia.
  apply lookup_app_l. lia.
Qed.

Lemma back_guard {A} (l : list A) (n : nat) (p : option A) :
  (1 <= n)%nat ->
  (if bool_decide (n <= length l)%nat then from_end l n else p) =
  match back l n with Some q => Some q | None => p end.
Proof.
  intros Hn. unfold back. case_bool_decide as H; [|reflexivity].
  unfold from_end. destruct (lookup_lt_is_Some_2 l (length l - n)%nat) as [q Hq];
    [lia|]. now rewrite Hq.
Qed.

(** One iteration, when the label [ix] is a row of the table. *)
Lemma scan_step_row (st : scan) (ix : nat) (r0 : tagged) :
  frame st !! ix = Some r0 ->
  let s' := transition (nice_count st, bad_count st) (weather_quality r0) in
  scan_step st ix =
  mk_scan (fst s') (snd s') (qualities st ++ [weather_quality r0])
    (<[ix := mk_tagged (base r0) (weather_quality r0) (fst s') (snd s')
               (match back (qualities st) 1 with
                | Some q => Some q | None => prev_day_quality r0 end)
               (match back (qualities st) 2 with
                | Some q => Some q | None => prev_2day_quality r0 end)]>
       (frame st)).
Proof.
  intros Hr. unfold scan_step. rewrite Hr.
  rewrite !back_guard by lia.
  destruct (weather_quality r0); reflexivity.
Qed.

(** What one scan over a duplicate-free list of row labels leaves in the
    table, for any values of the loop variables at entry. *)
Lemma scan_fold_spec (idx : list nat) :
  forall st : scan,
    NoDup idx ->
    (forall ix, ix ∈ idx -> (ix < length (frame st))%nat) ->
    let st' := fold_left scan_step idx st in
    length (frame st') = length (frame st) /\
    (forall j, j ∉ idx -> frame st' !! j = frame st !! j) /\
    (forall k ix, idx !! k = Some ix ->
       exists r0 r,
         frame st !! ix = Some r0 /\ frame st' !! ix = Some r /\
         base r = base r0 /\ weather_quality r = weather_quality r0 /\
         (nice_streak r, bad_streak r) =
           transition
             (match k with
              | O => (nice_count st, bad_count st)
              | S k' => match idx !! k' with
                        | Some j => streaks_at (frame st') j
                        | None => (0, 0)%Z
                        end
              end) (weather_quality r0) /\
         prev_day_quality r =
           match k with
           | O => match back (qualities st) 1 with
                  | Some q => Some q | None => prev_day_quality r0 end
           | S k' => j ← idx !! k'; label_at (frame st') j
           end /\
         prev_2day_quality r =
           match k with
           | O => match back (qualities st) 2 with
                  | Some q => Some q | None => prev_2day_quality r0 end
           | S O => match back (qualities st) 1 with
                    | Some q => Some q | None => prev_2day_quality r0 end
           | S (S k'') => j ← idx !! k''; label_at (frame st') j
           end).
Proof.
  induction idx as [|i0 rest IH]; intros st Hnd Hlt; simpl.
  - split; [reflexivity|]. split; [reflexivity|]. intros k ix H. discriminate.
  - apply NoDup_cons in Hnd as [Hi0 Hnd].
    destruct (lookup_lt_is_Some_2 (frame st) i0) as [r0 Hr0].
    { apply Hlt. now left. }
    pose proof (scan_step_row st i0 r0 Hr0) as Hstep. simpl in Hstep.
    set (st1 := scan_step st i0) in *.
    assert (Hf1 : forall j, j ≠ i0 -> frame st1 !! j = frame st !! j).
    { intros j Hj. rewrite Hstep. simpl. now apply list_lookup_insert_ne. }
    assert (Hlen1 : length (frame st1) = length (frame st)).
    { rewrite Hstep. simpl. apply length_insert. }
    destruct (IH st1 Hnd) as (Hlen & Hout & Hin).
    { intros ix Hix. rewrite Hlen1. apply Hlt. now right. }
    pose proof (Hout i0 Hi0) as Hkeep.
    assert (Hat0 : frame st1 !! i0 =
                   Some (mk_tagged (base r0) (weather_quality r0)
                     (fst (transition (nice_count st, bad_count st) (weather_quality r0)))
                     (snd (transition (nice_count st, bad_count st) (weather_quality r0)))
                     (match back (qualities st) 1 with
                      | Some q => Some q | None => prev_day_quality r0 end)
                     (match back (qualities st) 2 with
                      | Some q => Some q | None => prev_2day_quality r0 end))).
    { rewrite Hstep. simpl. apply list_lookup_insert_eq.
      apply lookup_lt_Some in Hr0. exact Hr0. }
    split; [congruence|]. split.
    + intros j Hj. apply not_elem_of_cons in Hj as [Hne Hj].
      rewrite (Hout j Hj). now apply Hf1.
    + intros [|k] ix Hk; simpl in Hk.
      * injection Hk as <-. eexists r0, _. split; [exact Hr0|].
        split; [rewrite Hkeep; exact Hat0|]. simpl.
        repeat split. now destruct (transition _ _).
      * destruct (Hin k ix Hk) as (r1 & r & Hr1 & Hr & Hb & Hq & Hs & Hp & Hp2).
        assert (Hne : ix ≠ i0).
        { intros ->. apply Hi0. apply list_elem_of_lookup. eauto. }
        rewrite (Hf1 ix Hne) in Hr1.
        exists r1, r. repeat split; try assumption.
        -- rewrite Hs. destruct k as [|k']; simpl.
           ++ unfold streaks_at. rewrite Hkeep, Hat0. simpl.
              rewrite Hstep. simpl. now destruct (transition _ _).
           ++ reflexivity.
        -- rewrite Hp. destruct k as [|k']; simpl; [|reflexivity].
           unfold label_at. rewrite Hkeep, Hat0. simpl.
           rewrite Hstep. simpl. now rewrite back_snoc_1.
        -- rewrite Hp2. destruct k as [|[|k'']]; simpl; try reflexivity.
           ++ rewrite Hstep. simpl. rewrite back_snoc_S by lia. reflexivity.
           ++ unfold label_at. rewrite Hkeep, Hat0. simpl.
              rewrite Hstep. simpl. now rewrite back_snoc_1.
Qed.

Lemma tagged_over_years (df : list day) (f : list tagged) :
  tagged_over df f -> map (fun r => year (base r)) f = map year df.
Proof. intros [<- _]. now rewrite <- list_fmap_compose. Qed.

Lemma tagged_over_length (df : list day) (f : list tagged) :
  tagged_over df f -> length f = length df.
Proof. intros [<- _]. now rewrite length_map. Qed.

Lemma tagged_over_year (df : list day) (f : list tagged) (ix : nat) (r : tagged) :
  tagged_over df f -> f !! ix = Some r ->
  map year df !! ix = Some (year (base r)).
Proof.
  intros [<- _] Hr. rewrite <- list_fmap_compose, list_lookup_fmap, Hr.
  reflexivity.
Qed.

Lemma year_scanned_agree (df : list day) (y : Z) (f f' : list tagged) :
  (forall ix, map year df !! ix = Some y -> f' !! ix = f !! ix) ->
  year_scanned df y f -> year_scanned df y f'.
Proof.
  intros Hag Hs k ix Hk.
  assert (Hidx : forall k' j, year_index y (map year df) !! k' = Some j ->
                   f' !! j = f !! j).
  { intros k' j Hj. apply Hag, year_index_elem, list_elem_of_lookup. eauto. }
  destruct (Hs k ix Hk) as (r & Hr & Hst & Hp & Hp2).
  exists r. rewrite (Hidx k ix Hk). split; [exact Hr|].
  split; [|split].
  - rewrite Hst. f_equal. destruct k as [|k']; simpl; [reflexivity|].
    destruct (year_index y (map year df) !! k') as [j|] eqn:Hj; [|reflexivity].
    unfold streaks_at. now rewrite (Hidx k' j Hj).
  - rewrite Hp. unfold quality_back. case_bool_decide; [|reflexivity].
    destruct (year_index y (map year df) !! (k - 1)%nat) as [j|] eqn:Hj;
      [|reflexivity].
    simpl. unfold label_at. now rewrite (Hidx _ j Hj).
  - rewrite Hp2. unfold quality_back. case_bool_decide; [|reflexivity].
    destruct (year_index y (map year df) !! (k - 2)%nat) as [j|] eqn:Hj;
      [|reflexivity].
    simpl. unfold label_at. now rewrite (Hidx _ j Hj).
Qed.

(** One pass of the outer loop. *)
Lemma scan_year_spec (df : list day) (f : list tagged) (y : Z) :
  tagged_over df f -> fresh_year df y f ->
  tagged_over df (scan_year f y) /\
  (forall j, map year df !! j ≠ Some y -> scan_year f y !! j = f !! j) /\
  year_scanned df y (scan_year f y).
Proof.
  intros Hov Hfresh. unfold scan_year.
  rewrite (tagged_over_years df f Hov).
  set (idx := year_index y (map year df)).
  destruct (scan_fold_spec idx (mk_scan 0 0 [] f)) as (Hlen & Hout & Hin).
  { apply year_index_NoDup. }
  { intros ix Hix. simpl. rewrite (tagged_over_length df f Hov).
    apply year_index_lt in Hix. now rewrite length_map in Hix. }
  simpl in Hlen, Hout, Hin.
  set (f' := frame (fold_left scan_step idx (mk_scan 0 0 [] f))) in *.
  assert (Hrow : forall j r, f' !! j = Some r ->
            exists r0, f !! j = Some r0 /\ base r = base r0 /\
                       weather_quality r = weather_quality r0).
  { intros j r Hr. destruct (decide (j ∈ idx)) as [Hj|Hj].
    - apply list_elem_of_lookup in Hj as [k Hk].
      destruct (Hin k j Hk) as (r0 & r' & Hr0 & Hr' & Hb & Hq & _).
      exists r0. rewrite Hr in Hr'. injection Hr' as <-. tauto.
    - rewrite (Hout j Hj) in Hr. exists r. tauto. }
  split; [|split].
  - destruct Hov as [Hb Hq]. split.
    + apply list_eq. intros j. rewrite <- Hb, !list_lookup_fmap.
      destruct (f' !! j) as [r|] eqn:Hr.
      * destruct (Hrow j r Hr) as (r0 & Hr0 & Hbr & _).
        rewrite Hr0. simpl. now rewrite Hbr.
      * apply lookup_ge_None in Hr. rewrite Hlen in Hr.
        apply lookup_ge_None in Hr. now rewrite Hr.
    + apply Forall_lookup. intros j r Hr.
      destruct (Hrow j r Hr) as (r0 & Hr0 & Hbr & Hqr).
      rewrite Hqr, Hbr. exact (proj1 (Forall_lookup _ _) Hq j r0 Hr0).
  - intros j Hj. apply Hout. unfold idx. now rewrite year_index_elem.
  - intros k ix Hk. fold idx in Hk |- *.
    destruct (Hin k ix Hk) as (r0 & r & Hr0 & Hr & Hb & Hq & Hs & Hp & Hp2).
    assert (Hy : map year df !! ix = Some y).
    { apply year_index_elem, list_elem_of_lookup. eauto. }
    destruct (Hfresh ix r0 Hy Hr0) as [Hn1 Hn2].
    exists r. split; [exact Hr|]. rewrite Hq. split; [|split].
    + rewrite Hs. f_equal.
    + rewrite Hp. unfold quality_back. destruct k as [|k'].
      * simpl. exact Hn1.
      * rewrite bool_decide_eq_true_2 by lia.
        now replace (S k' - 1)%nat with k' by lia.
    + rewrite Hp2. unfold quality_back. destruct k as [|[|k'']].
      * simpl. exact Hn2.
      * simpl. exact Hn2.
      * rewrite bool_decide_eq_true_2 by lia.
        now replace (S (S k'') - 2)%nat with k'' by lia.
Qed.

Lemma fresh_year_agree (df : list day) (y : Z) (f f' : list tagged) :
  (forall ix, map year df !! ix = Some y -> f' !! ix = f !! ix) ->
  fresh_year df y f -> fresh_year df y f'.
Proof.
  intros Hag Hf ix r Hy Hr. rewrite (Hag ix Hy) in Hr. exact (Hf ix r Hy Hr).
Qed.

Lemma init_tagged_over (df : list day) : tagged_over df (map init_row df).
Proof.
  split.
  - rewrite <- list_fmap_compose. apply list_fmap_id.
  - apply Forall_fmap, Forall_true. intros d. reflexivity.
Qed.

Lemma init_fresh (df : list day) (y : Z) : fresh_year df y (map init_row df).
Proof.
  intros ix r _ Hr. rewrite list_lookup_fmap in Hr.
  destruct (df !! ix); [|discriminate]. injection Hr as <-. now split.
Qed.

Lemma build_streaks_spec (df : list day) :
  tagged_over df (build_streaks df) /\
  forall y, y ∈ map year df -> year_scanned df y (build_streaks df).
Proof.
  unfold build_streaks.
  destruct (per_year_loop (map year df) scan_year (tagged_over df)
              (fresh_year df) (year_scanned df) (scan_year_spec df)
              (fresh_year_agree df) (year_scanned_agree df)
              (unique (map year df)) (map init_row df))
    as (Hov & _ & Hsc).
  - apply unique_NoDup.
  - apply init_tagged_over.
  - intros y _. apply init_fresh.
  - split; [exact Hov|]. intros y Hy. apply Hsc. now apply unique_elem.
Qed.

(** C2.  In the table that [build_streaks] returns, the day of rank [k] in
    year [y] (row [ix]) carries the counters obtained by one transition of
    the state machine from the counters of the previous day of that year:
    a nice day has nice_streak one more than the day before and bad_streak 0,
    a bad day the reverse, an ok day has both 0.  On the first day of a year
    the previous counters are (0, 0) and the previous quality is unknown,
    whatever the preceding year ended with. *)
Theorem C2_streak_recurrence (df : list day) (y : Z) (k ix : nat) :
  year_index y (map year df) !! k = Some ix ->
  let out := build_streaks df in
  let idx := year_index y (map year df) in
  exists d r,
    df !! ix = Some d /\ year d = y /\ out !! ix = Some r /\ base r = d /\
    weather_quality r = Classifier.classify_day_weather (row_of d) /\
    (nice_streak r, bad_streak r) =
      transition (streaks_before out idx k) (weather_quality r) /\
    prev_day_quality r = quality_back out idx k 1 /\
    prev_2day_quality r = quality_back out idx k 2 /\
    (k = 0%nat ->
       (nice_streak r, bad_streak r) = transition (0, 0)%Z (weather_quality r) /\
       prev_day_quality r = None /\ prev_2day_quality r = None).
Proof.
  intros Hk out idx.
  destruct (build_streaks_spec df) as [Hov Hsc]. fold out in Hov, Hsc.
  assert (Hix : map year df !! ix = Some y).
  { apply year_index_elem, list_elem_of_lookup. eauto. }
  assert (Hy : y ∈ map year df) by (apply list_elem_of_lookup; eauto).
  destruct (Hsc y Hy k ix Hk) as (r & Hr & Hs & Hp & Hp2). fold idx in Hs, Hp, Hp2.
  exists (base r), r.
  pose proof (tagged_over_year df out ix r Hov Hr) as Hyr.
  destruct Hov as [Hb Hq].
  split.
  { rewrite <- Hb, list_lookup_fmap, Hr. reflexivity. }
  split; [congruence|]. split; [exact Hr|]. split; [reflexivity|].
  split; [exact (proj1 (Forall_lookup _ _) Hq ix r Hr)|].
  split; [exact Hs|]. split; [exact Hp|]. split; [exact Hp2|].
  intros ->. split; [exact Hs|]. split; [exact Hp | exact Hp2].
Qed.

End StreakFacts.

Section StreakExamples.
Import Frame Momentum Samples.

Example build_streaks_two_seasons :
  map (fun r => (weather_quality r, nice_streak r, bad_streak r, prev_day_quality r))
      (build_streaks two_seasons) =
  [ (Classifier.nice, 1, 0, None); (Classifier.nice, 2, 0, Some Classifier.nice);
    (Classifier.bad, 0, 1, None); (Classifier.nice, 1, 0, Some Classifier.bad) ]%Z.
Proof. vm_compute. reflexivity. Qed.

Lemma C2_streak_recurrence_witness :
  let out := build_streaks two_seasons in
  let idx := year_index 2025 (map year two_seasons) in
  exists d r,
    two_seasons !! 2%nat = Some d /\ year d = 2025%Z /\
    out !! 2%nat = Some r /\ base r = d /\
    weather_quality r = Classifier.classify_day_weather (row_of d) /\
    (nice_streak r, bad_streak r) =
      transition (streaks_before out idx 0) (weather_quality r) /\
    prev_day_quality r = quality_back out idx 0 1 /\
    prev_2day_quality r = quality_back out idx 0 2 /\
    (0%nat = 0%nat ->
       (nice_streak r, bad_streak r) = transition (0, 0)%Z (weather_quality r) /\
       prev_day_quality r = None /\ prev_2day_quality r = None).
Proof. exact (C2_streak_recurrence two_seasons 2025 0 2 eq_refl). Defined.

End StreakExamples.

(** ** Rolling averages *)

Section IndexRows.
Import Frame.
Context {T : Type} (yr : T -> Z).

(** The row at the [k]-th label of year [y] is the [k]-th row of that year. *)
Lemma year_index_from_row (y : Z) (f : list T) :
  forall (i k ix : nat),
    year_index_from i y (map yr f) !! k = Some ix ->
    (i <= ix)%nat /\ f !! (ix - i)%nat = filter (fun r => yr r = y) f !! k.
Proof.
  induction f as [|r f IH]; intros i k ix; simpl; [discriminate|].
  rewrite filter_cons. case_bool_decide as Hy.
  - rewrite decide_True by exact Hy. destruct k as [|k]; simpl.
    + intros [= <-]. split; [lia|]. now rewrite Nat.sub_diag.
    + intros Hk. destruct (IH (S i) k ix Hk) as [Hle Hl]. split; [lia|].
      replace (ix - i)%nat with (S (ix - S i)) by lia. exact Hl.
  - rewrite decide_False by exact Hy.
    intros Hk. destruct (IH (S i) k ix Hk) as [Hle Hl]. split; [lia|].
    replace (ix - i)%nat with (S (ix - S i)) by lia. exact Hl.
Qed.

Lemma year_index_row (y : Z) (f : list T) (k ix : nat) :
  year_index y (map yr f) !! k = Some ix ->
  f !! ix = filter (fun r => yr r = y) f !! k.
Proof.
  intros Hk. destruct (year_index_from_row y f 0 k ix Hk) as [_ H].
  now rewrite Nat.sub_0_r in H.
Qed.

Lemma year_index_from_length (y : Z) (f : list T) :
  forall i,
    length (year_index_from i y (map yr f)) =
    length (filter (fun r => yr r = y) f).
Proof.
  induction f as [|r f IH]; intros i; simpl; [reflexivity|].
  rewrite filter_cons. case_bool_decide as Hy.
  - rewrite decide_True by exact Hy. simpl. now rewrite IH.
  - rewrite decide_False by exact Hy. apply IH.
Qed.

(** Reading a column at the labels of year [y] gives the column of that
    year's rows. *)
Lemma gather_from {B} (g : T -> B) (y : Z) (f : list T) :
  forall pre : list T,
    omap (fun ix => g <$> (pre ++ f) !! ix)
         (year_index_from (length pre) y (map yr f)) =
    map g (filter (fun r => yr r = y) f).
Proof.
  induction f as [|r f IH]; intros pre; simpl; [reflexivity|].
  rewrite filter_cons.
  assert (Hrest : omap (fun ix => g <$> (pre ++ r :: f) !! ix)
                    (year_index_from (S (length pre)) y (map yr f)) =
                  map g (filter (fun r => yr r = y) f)).
  { specialize (IH (pre ++ [r])).
    rewrite length_app, Nat.add_1_r, <- app_assoc in IH. exact IH. }
  case_bool_decide as Hy.
  - rewrite decide_True by exact Hy. simpl.
    rewrite list_lookup_middle by reflexivity. simpl. f_equal. exact Hrest.
  - rewrite decide_False by exact Hy. exact Hrest.
Qed.

Lemma gather_year_index {B} (g : T -> B) (y : Z) (f : list T) :
  omap (fun ix => g <$> f !! ix) (year_index y (map yr f)) =
  map g (filter (fun r => yr r = y) f).
Proof. exact (gather_from g y f []). Qed.

End IndexRows.

Section RollingFacts.
Import Py Frame Features.

(** Writing a series back at duplicate-free labels. *)
Lemma assign_spec (set : featured -> num -> featured) (idx : list nat) :
  forall (vals : list num) (f : list featured),
    NoDup idx -> length vals = length idx ->
    (forall ix, ix ∈ idx -> (ix < length f)%nat) ->
    length (assign set idx vals f) = length f /\
    (forall j, j ∉ idx -> assign set idx vals f !! j = f !! j) /\
    (forall k ix, idx !! k = Some ix ->
       exists r0 v, f !! ix = Some r0 /\ vals !! k = Some v /\
                    assign set idx vals f !! ix = Some (set r0 v)).
Proof.
  unfold assign.
  induction idx as [|i0 rest IH]; intros vals f Hnd Hlen Hlt.
  - simpl. split; [reflexivity|]. split; [reflexivity|]. intros k ix H.
    discriminate.
  - destruct vals as [|v0 vals]; [discriminate|]. simpl in Hlen |- *.
    apply NoDup_cons in Hnd as [Hi0 Hnd].
    set (f1 := alter (fun r => set r v0) i0 f).
    destruct (IH vals f1 Hnd) as (Hl & Hout & Hin); [lia| |].
    { intros ix Hix. unfold f1. rewrite length_alter. apply Hlt. now right. }
    split; [rewrite Hl; apply length_alter|]. split.
    + intros j Hj. apply not_elem_of_cons in Hj as [Hne Hj].
      rewrite (Hout j Hj). unfold f1. now apply list_lookup_alter_ne.
    + intros [|k] ix Hk; simpl in Hk.
      * injection Hk as <-.
        destruct (lookup_lt_is_Some_2 f i0) as [r0 Hr0]; [apply Hlt; now left|].
        exists r0, v0. split; [exact Hr0|]. split; [reflexivity|].
        rewrite (Hout i0 Hi0). unfold f1.
        now rewrite list_lookup_alter_eq, Hr0.
      * destruct (Hin k ix Hk) as (r1 & v & Hr1 & Hv & Hres).
        assert (Hne : i0 ≠ ix).
        { intros ->. apply Hi0. apply list_elem_of_lookup. eauto. }
        unfold f1 in Hr1. rewrite list_lookup_alter_ne in Hr1 by exact Hne.
        exists r1, v. split; [exact Hr1|]. split; [exact Hv | exact Hres].
Qed.

Lemma rolling3_mean_lookup (xs : list num) (k : nat) :
  (k < length xs)%nat ->
  rolling3_mean xs !! k = Some (mean_min1 (window3 xs k)).
Proof.
  intros Hk. unfold rolling3_mean. rewrite list_lookup_imap.
  destruct (lookup_lt_is_Some_2 xs k Hk) as [x Hx]. now rewrite Hx.
Qed.

Lemma rolling3_mean_length (xs : list num) :
  length (rolling3_mean xs) = length xs.
Proof. apply length_imap. Qed.

(** A window of one cell: the mean is that cell. *)
Lemma mean_min1_single (x : num) : num_eq (mean_min1 [x]) x.
Proof.
  destruct x as [|q]; simpl; [exact I|].
  unfold mean_min1. simpl. unfold Qsum. simpl. field.
Qed.

Lemma window3_first (xs : list num) : window3 xs 0 = take 1 xs.
Proof. reflexivity. Qed.

Lemma assign_base (set : featured -> num -> featured) :
  (forall r v, fbase (set r v) = fbase r) ->
  forall idx vals f, map fbase (assign set idx vals f) = map fbase f.
Proof.
  intros Hset idx vals. unfold assign.
  induction (zip idx vals) as [|[i v] ivs IH]; intros f; simpl; [reflexivity|].
  rewrite IH.
  rewrite (list_fmap_alter fbase _ (fun d => d)).
  - now apply list_alter_id.
  - apply Forall_true. intros r. apply Hset.
Qed.

Lemma season_map_base {B} (g : day -> B) (y : Z) (f : list featured) :
  map (fun r => g (fbase r)) (filter (fun r => year (fbase r) = y) f) =
  map g (season y (map fbase f)).
Proof.
  unfold season. induction f as [|r f IH]; simpl; [reflexivity|].
  rewrite !filter_cons. destruct (decide (year (fbase r) = y)); simpl;
    now rewrite IH.
Qed.

Lemma gather_season (g : day -> num) (y : Z) (s : list day) (f : list featured) :
  map fbase f = s ->
  gather (fun r => g (fbase r)) (year_index y (map year s)) f =
  map g (season y s).
Proof.
  intros <-. unfold gather.
  rewrite <- (list_fmap_compose fbase year).
  rewrite (gather_year_index (fun r => year (fbase r))).
  apply season_map_base.
Qed.

Lemma year_index_season_length (y : Z) (s : list day) :
  length (year_index y (map year s)) = length (season y s).
Proof. apply (year_index_from_length year). Qed.

Lemma roll_year_spec (s : list day) (f : list featured) (y : Z) :
  map fbase f = s -> True ->
  map fbase (roll_year f y) = s /\
  (forall j, map year s !! j ≠ Some y -> roll_year f y !! j = f !! j) /\
  year_rolled s y (roll_year f y).
Proof.
  intros Hb _. unfold roll_year.
  replace (map (fun r => year (fbase r)) f) with (map year s)
    by (rewrite <- Hb; symmetry; exact (list_fmap_compose fbase year f)).
  rewrite (gather_season temp_max y s f Hb).
  set (f1 := assign set_temp_max_3d_avg (year_index y (map year s))
               (rolling3_mean (map temp_max (season y s))) f).
  assert (Hb1 : map fbase f1 = s).
  { unfold f1. rewrite assign_base; [exact Hb | reflexivity]. }
  rewrite (gather_season sunshine_hrs y s f1 Hb1).
  set (idx := year_index y (map year s)) in *.
  assert (Hlen : forall g : day -> num,
            length (rolling3_mean (map g (season y s))) = length idx).
  { intros g. rewrite rolling3_mean_length, length_map.
    symmetry. apply year_index_season_length. }
  assert (Hrange : forall f0, map fbase f0 = s ->
            forall ix, ix ∈ idx -> (ix < length f0)%nat).
  { intros f0 H0 ix Hix. apply year_index_lt in Hix.
    rewrite <- H0, !length_map in Hix. exact Hix. }
  destruct (assign_spec set_temp_max_3d_avg idx _ f
              (year_index_NoDup y _) (Hlen temp_max) (Hrange f Hb))
    as (_ & Hout1 & Hin1). fold f1 in Hout1, Hin1.
  destruct (assign_spec set_sunshine_3d_avg idx _ f1
              (year_index_NoDup y _) (Hlen sunshine_hrs) (Hrange f1 Hb1))
    as (_ & Hout2 & Hin2).
  split; [|split].
  - rewrite assign_base; [exact Hb1 | reflexivity].
  - intros j Hj.
    assert (Hn : j ∉ idx) by (unfold idx; now rewrite year_index_elem).
    now rewrite (Hout2 j Hn), (Hout1 j Hn).
  - intros k ix Hk. fold idx in Hk.
    destruct (Hin1 k ix Hk) as (r0 & v & Hr0 & Hv & Hres1).
    destruct (Hin2 k ix Hk) as (r1 & v' & Hr1 & Hv' & Hres2).
    rewrite Hres1 in Hr1. injection Hr1 as <-.
    assert (Hklt : forall g : day -> num, (k < length (map g (season y s)))%nat).
    { intros g. rewrite length_map, <- year_index_season_length.
      apply lookup_lt_Some in Hk. exact Hk. }
    rewrite rolling3_mean_lookup in Hv by apply Hklt.
    rewrite rolling3_mean_lookup in Hv' by apply Hklt.
    injection Hv as <-. injection Hv' as <-.
    eexists. split; [exact Hres2|]. simpl. split; reflexivity.
Qed.

Lemma year_rolled_agree (s : list day) (y : Z) (f f' : list featured) :
  (forall j, map year s !! j = Some y -> f' !! j = f !! j) ->
  year_rolled s y f -> year_rolled s y f'.
Proof.
  intros Hag Hr k ix Hk. destruct (Hr k ix Hk) as (r & Hl & Ht).
  exists r. split; [|exact Ht]. rewrite Hag; [exact Hl|].
  apply year_index_elem, list_elem_of_lookup. eauto.
Qed.

Lemma engineer_features_spec (df : list day) :
  let s := sort_values_date df in
  map fbase (engineer_features df) = s /\
  forall y, y ∈ map year s -> year_rolled s y (engineer_features df).
Proof.
  intros s. unfold engineer_features. fold s.
  destruct (per_year_loop (map year s) roll_year (fun f => map fbase f = s)
              (fun _ _ => True) (year_rolled s) (roll_year_spec s)
              (fun _ _ _ _ _ => I) (year_rolled_agree s)
              (unique (map year s)) (map flag_row s))
    as (Hb & _ & Hpost).
  - apply unique_NoDup.
  - rewrite <- list_fmap_compose. apply list_fmap_id.
  - intros y _. exact I.
  - split; [exact Hb|]. intros y Hy. apply Hpost. now apply unique_elem.
Qed.

(** The window that [rolling(3, min_periods=1)] cuts out is the day and up
    to two days before it. *)
Lemma window3_spec (xs : list num) (k : nat) :
  (k < length xs)%nat -> window3 xs k = spec_window xs k.
Proof.
  intros Hk. unfold window3, spec_window.
  destruct k as [|[|j]].
  - destruct xs as [|x xs]; [simpl in Hk; lia | reflexivity].
  - destruct xs as [|x [|x' xs]]; [simpl in Hk; lia.. | reflexivity].
  - replace (S (S j) - 2)%nat with j by lia.
    destruct (lookup_lt_is_Some_2 xs j) as [a Ha]; [lia|].
    destruct (lookup_lt_is_Some_2 xs (S j)) as [b Hb]; [lia|].
    destruct (lookup_lt_is_Some_2 xs (S (S j))) as [c Hc]; [lia|].
    simpl. rewrite Ha, Hb, Hc. simpl.
    apply list_eq. intros i. rewrite lookup_drop.
    destruct i as [|[|[|i]]]; simpl.
    + rewrite Nat.add_0_r, lookup_take_lt by lia. exact Ha.
    + rewrite Nat.add_1_r, lookup_take_lt by lia. exact Hb.
    + replace (j + 2)%nat with (S (S j)) by lia.
      rewrite lookup_take_lt by lia. exact Hc.
    + apply lookup_take_ge. lia.
Qed.

Lemma observed_numbers_of (w : list num) :
  filter (fun x => is_nan x = false) w = map Fin (observed w).
Proof.
  induction w as [|x w IH]; [reflexivity|].
  rewrite filter_cons. destruct x as [|q].
  - rewrite decide_False by discriminate. exact IH.
  - rewrite decide_True by reflexivity. unfold observed in *. simpl.
    f_equal. exact IH.
Qed.

(** The mean under [min_periods=1] is the mean over the observations. *)
Lemma mean_min1_spec (w : list num) : spec_mean_of w (mean_min1 w).
Proof.
  exists (observed w). split; [apply observed_numbers_of|].
  unfold mean_min1. destruct (observed w) as [|q obs] eqn:Hobs.
  - reflexivity.
  - rewrite bool_decide_eq_true_2 by (simpl; lia).
    split; [discriminate|]. unfold Qsum.
    field. intros H. unfold Qeq in H. simpl in H. lia.
Qed.

(** C6.  After [engineer_features], the day of rank [k] in year [y] of the
    date-ordered table holds, in temp_max_3d_avg and sunshine_3d_avg, the
    mean over the observations among the cells of that day and of the (at
    most two) days before it in the series of the same year: the cells of
    ranks [k-2], [k-1] and [k] of the year's own rows, as many as there are.
    With no observation among them the average is NaN.  The cells are those
    of rows of year [y] only, so no value of another year enters, and on the
    first day of a year each average is that day's own value. *)
Theorem C6_rolling_average_per_year (df : list day) (y : Z) (k ix : nat) :
  let s := sort_values_date df in
  year_index y (map year s) !! k = Some ix ->
  date_sorted s /\
  Forall (fun d => year d = y) (season y s) /\
  exists d r,
    s !! ix = Some d /\ season y s !! k = Some d /\
    engineer_features df !! ix = Some r /\ fbase r = d /\
    spec_mean_of (spec_window (map temp_max (season y s)) k)
                 (temp_max_3d_avg r) /\
    spec_mean_of (spec_window (map sunshine_hrs (season y s)) k)
                 (sunshine_3d_avg r) /\
    (k = 0%nat ->
       num_eq (temp_max_3d_avg r) (temp_max d) /\
       num_eq (sunshine_3d_avg r) (sunshine_hrs d)).
Proof.
  intros s Hk. split; [apply sort_values_sorted|].
  split.
  { apply Forall_forall. intros d Hd.
    now apply list_elem_of_filter in Hd as [Hy _]. }
  destruct (engineer_features_spec df) as [Hb Hroll]. fold s in Hb, Hroll.
  assert (Hy : y ∈ map year s).
  { apply list_elem_of_lookup. exists ix.
    apply year_index_elem, list_elem_of_lookup. eauto. }
  destruct (Hroll y Hy k ix Hk) as (r & Hr & Ht & Hs).
  pose proof (year_index_row year y s k ix Hk) as Hrow. fold (season y s) in Hrow.
  assert (Hd : s !! ix = Some (fbase r)).
  { rewrite <- Hb, list_lookup_fmap, Hr. reflexivity. }
  assert (Hlen : forall g : day -> num, (k < length (map g (season y s)))%nat).
  { intros g. rewrite length_map. eapply lookup_lt_Some.
    rewrite <- Hrow. exact Hd. }
  exists (fbase r), r. split; [exact Hd|]. split; [congruence|].
  split; [exact Hr|]. split; [reflexivity|].
  split.
  { rewrite Ht, (window3_spec _ _ (Hlen temp_max)). apply mean_min1_spec. }
  split.
  { rewrite Hs, (window3_spec _ _ (Hlen sunshine_hrs)). apply mean_min1_spec. }
  intros ->. rewrite Ht, Hs, !window3_first.
  rewrite Hd in Hrow. symmetry in Hrow.
  destruct (season y s) as [|d0 rest]; [discriminate|].
  injection Hrow as ->. simpl. split; apply mean_min1_single.
Qed.

End RollingFacts.

Section RollingExamples.
Import Py Frame Features Samples.

Example engineer_features_two_seasons :
  Forall2 num_eq (map temp_max_3d_avg (engineer_features two_seasons))
                 [Fin 60; Fin 61; Fin 35; Fin 48] /\
  Forall2 num_eq (map sunshine_3d_avg (engineer_features two_seasons))
                 [Fin 9; Fin (19 # 2); Fin 1; Fin 5].
Proof. split; repeat constructor. Qed.

(** A week with a day without weather: the missing cell is left out of the
    means, and a window holds three days at most. *)
Example engineer_features_one_week :
  Forall2 num_eq (map temp_max_3d_avg (engineer_features one_week))
                 [Fin 61; Fin 53; Fin 53; Fin (95 # 2); Fin (105 # 2);
                  Fin (163 # 3); Fin (176 # 3); Fin (185 # 3)].
Proof. repeat constructor. Qed.

Lemma C6_rolling_average_per_year_witness :
  (exists r,
     engineer_features one_week !! 3%nat = Some r /\
     spec_mean_of [Fin 45; NaN; Fin 50] (temp_max_3d_avg r) /\
     spec_mean_of [Fin 6; NaN; Fin 2] (sunshine_3d_avg r)) /\
  (exists d r,
     season 2025 (sort_values_date two_seasons) !! 0%nat = Some d /\
     engineer_features two_seasons !! 2%nat = Some r /\ fbase r = d /\
     num_eq (temp_max_3d_avg r) (temp_max d) /\
     num_eq (sunshine_3d_avg r) (sunshine_hrs d)).
Proof.
  split.
  - destruct (C6_rolling_average_per_year one_week 2025 3 3 eq_refl)
      as (_ & _ & d & r & _ & _ & Hr & _ & Ht & Hs & _).
    exists r. split; [exact Hr|]. split; [exact Ht | exact Hs].
  - destruct (C6_rolling_average_per_year two_seasons 2025 0 2 eq_refl)
      as (_ & _ & d & r & _ & Hd & Hr & Hb & _ & _ & H0).
    exists d, r. split; [exact Hd|]. split; [exact Hr|]. split; [exact Hb|].
    exact (H0 eq_refl).
Defined.

End RollingExamples.

(** ** Sundays and the streak tracker *)

Section SundayFacts.
Import Py Frame Momentum Features.

(** On a table in date order [load_data] only selects rows. *)
Lemma load_data_sorted (csv : list day) :
  date_sorted csv ->
  load_data csv =
  filter (fun d => (dow d < 6)%Z) (filter (fun d => year d ∈ full_years) csv).
Proof.
  intros Hs. unfold load_data.
  apply sort_values_id. now do 2 apply sorted_by_filter.
Qed.

Lemma load_data_no_sunday (csv : list day) :
  Forall (fun d => dow d ≠ 6%Z) (load_data csv).
Proof.
  apply Forall_forall. intros d Hd. unfold load_data in Hd.
  unfold sort_values_date in Hd. rewrite sort_values_perm in Hd.
  apply list_elem_of_filter in Hd as [Hd _]. lia.
Qed.

Lemma year_index_from_app (y : Z) (a b : list Z) :
  forall i,
    year_index_from i y (a ++ b) =
    year_index_from i y a ++ year_index_from (i + length a) y b.
Proof.
  induction a as [|x a IH]; intros i; simpl.
  - now rewrite Nat.add_0_r.
  - rewrite IH. replace (S i + length a)%nat with (i + S (length a))%nat by lia.
    now case_bool_decide.
Qed.

(** Two neighbouring rows of the same year are neighbours in the year's
    index. *)
Lemma year_index_neighbours (y : Z) (a b : list Z) :
  let idx := year_index y (a ++ y :: y :: b) in
  let k := length (year_index y a) in
  idx !! k = Some (length a) /\ idx !! S k = Some (S (length a)).
Proof.
  intros idx k. unfold idx, year_index. rewrite year_index_from_app. simpl.
  rewrite !bool_decide_eq_true_2 by reflexivity. fold (year_index y a). fold k.
  split.
  - rewrite lookup_app_r by (unfold k; lia).
    replace (k - length (year_index y a))%nat with 0%nat by (unfold k; lia).
    reflexivity.
  - rewrite lookup_app_r by (unfold k; lia).
    replace (S k - length (year_index y a))%nat with 1%nat by (unfold k; lia).
    reflexivity.
Qed.

(** C10.  [load_data] drops every Sunday before [build_streaks] runs.  In a
    date-ordered table where a Saturday, the Sunday after it and the Monday
    after that are consecutive rows, the tagged table has no Sunday row, the
    Monday row comes right after the Saturday row, Monday's prev_day_quality
    is Saturday's label, and Monday's counters are one transition away from
    Saturday's, whatever the Sunday row holds. *)
Theorem C10_monday_follows_saturday
    (pre post : list day) (sat sun mon : day) :
  let csv := pre ++ sat :: sun :: mon :: post in
  date_sorted csv ->
  dow sat = 5%Z -> dow sun = 6%Z -> dow mon = 0%Z ->
  year sat ∈ full_years -> year mon = year sat ->
  let out := build_streaks (load_data csv) in
  let i := length (load_data pre) in
  Forall (fun r => dow (base r) ≠ 6%Z) out /\
  exists rs rm,
    out !! i = Some rs /\ base rs = sat /\
    out !! S i = Some rm /\ base rm = mon /\
    prev_day_quality rm = Some (Classifier.classify_day_weather (row_of sat)) /\
    (nice_streak rm, bad_streak rm) =
      transition (nice_streak rs, bad_streak rs)
                 (Classifier.classify_day_weather (row_of mon)).
Proof.
  intros csv Hsorted Hsat Hsun Hmon Hfull Hyear out i.
  set (keep := fun l : list day =>
         filter (fun d => (dow d < 6)%Z)
                (filter (fun d => year d ∈ full_years) l)).
  assert (Hpre : load_data pre = keep pre).
  { apply load_data_sorted. unfold date_sorted, sorted_by in *.
    now apply StronglySorted_app_1_l in Hsorted. }
  assert (Hload : load_data csv = keep pre ++ sat :: mon :: keep post).
  { rewrite (load_data_sorted csv Hsorted). unfold csv, keep.
    rewrite !filter_app, !filter_cons.
    rewrite decide_True by exact Hfull.
    destruct (decide (year sun ∈ full_years)).
    - rewrite decide_True by (rewrite Hyear; exact Hfull).
      rewrite !filter_cons.
      rewrite decide_True by lia. rewrite decide_False by lia.
      rewrite decide_True by lia. reflexivity.
    - rewrite decide_True by (rewrite Hyear; exact Hfull).
      rewrite !filter_cons.
      rewrite decide_True by lia. rewrite decide_True by lia. reflexivity. }
  set (L := load_data csv) in *.
  destruct (build_streaks_spec L) as [Hov Hsc]. fold out in Hov, Hsc.
  set (y := year sat) in *.
  assert (Hyears : map year L = map year (keep pre) ++ y :: y :: map year (keep post)).
  { rewrite Hload, map_app. simpl. now rewrite Hyear. }
  destruct (year_index_neighbours y (map year (keep pre)) (map year (keep post)))
    as [Hk0 Hk1].
  rewrite <- Hyears, length_map, <- Hpre in Hk0, Hk1. fold i in Hk0, Hk1.
  set (k := length (year_index y (map year (load_data pre)))) in *.
  assert (Hy : y ∈ map year L).
  { rewrite Hyears. apply elem_of_app. right. now left. }
  destruct (Hsc y Hy k i Hk0) as (rs & Hrs & _).
  destruct (Hsc y Hy (S k) (S i) Hk1) as (rm & Hrm & Hst & Hp & _).
  assert (Hbase : forall j r, out !! j = Some r -> L !! j = Some (base r)).
  { intros j r Hr. rewrite <- (proj1 Hov), list_lookup_fmap, Hr. reflexivity. }
  assert (Hq : forall j r, out !! j = Some r ->
                 weather_quality r = Classifier.classify_day_weather (row_of (base r))).
  { intros j r Hr. destruct Hov as [_ Hq]. exact (proj1 (Forall_lookup _ _) Hq j r Hr). }
  assert (Hbs : base rs = sat).
  { pose proof (Hbase i rs Hrs) as H. rewrite Hload in H. unfold i in H.
    rewrite Hpre, list_lookup_middle in H by reflexivity. congruence. }
  assert (Hbm : base rm = mon).
  { pose proof (Hbase (S i) rm Hrm) as H. rewrite Hload in H. unfold i in H.
    rewrite Hpre in H.
    rewrite (lookup_app_r (keep pre)) in H by lia.
    replace (S (length (keep pre)) - length (keep pre))%nat with 1%nat in H by lia.
    simpl in H. congruence. }
  split.
  - apply Forall_forall. intros r Hr. apply list_elem_of_lookup in Hr as [j Hr].
    pose proof (Hbase j r Hr) as Hl.
    exact (proj1 (Forall_lookup _ _) (load_data_no_sunday csv) j (base r) Hl).
  - exists rs, rm. split; [exact Hrs|]. split; [exact Hbs|].
    split; [exact Hrm|]. split; [exact Hbm|]. split.
    + rewrite Hp. unfold quality_back.
      rewrite bool_decide_eq_true_2 by lia.
      replace (S k - 1)%nat with k by lia. rewrite Hk0. simpl.
      unfold label_at. rewrite Hrs. simpl.
      now rewrite (Hq i rs Hrs), Hbs.
    + rewrite Hst. simpl. rewrite Hk0. unfold streaks_at. rewrite Hrs.
      now rewrite (Hq (S i) rm Hrm), Hbm.
Qed.

Example build_streaks_long_weekend :
  map (fun r => (dow (base r), weather_quality r, nice_streak r, prev_day_quality r))
      (build_streaks (load_data Samples.long_weekend)) =
  [ (4, Classifier.nice, 1, None);
    (5, Classifier.nice, 2, Some Classifier.nice);
    (0, Classifier.nice, 3, Some Classifier.nice);
    (1, Classifier.ok, 0, Some Classifier.nice) ]%Z.
Proof. vm_compute. reflexivity. Qed.

Example snowy_sunday_is_bad :
  Classifier.classify_day_weather (row_of Samples.snowy_sunday) = Classifier.bad.
Proof. vm_compute. reflexivity. Qed.

Lemma long_weekend_sorted : date_sorted Samples.long_weekend.
Proof.
  unfold date_sorted, sorted_by, Samples.long_weekend.
  repeat (constructor; [|repeat constructor; simpl; lia]). constructor.
Defined.

Lemma full_years_2025 : 2025%Z ∈ full_years.
Proof. apply list_elem_of_In. simpl. tauto. Qed.

Lemma C10_monday_follows_saturday_witness :
  let sat := Samples.sample_day 20250301 2025 5 (Fin 60) (Fin 9) in
  let mon := Samples.sample_day 20250303 2025 0 (Fin 61) (Fin 9) in
  let out := build_streaks (load_data Samples.long_weekend) in
  Forall (fun r => dow (base r) ≠ 6%Z) out /\
  exists rs rm,
    out !! 1%nat = Some rs /\ base rs = sat /\
    out !! 2%nat = Some rm /\ base rm = mon /\
    prev_day_quality rm = Some (Classifier.classify_day_weather (row_of sat)) /\
    (nice_streak rm, bad_streak rm) =
      transition (nice_streak rs, bad_streak rs)
                 (Classifier.classify_day_weather (row_of mon)).
Proof.
  exact (C10_monday_follows_saturday
           [Samples.sample_day 20250228 2025 4 (Fin 58) (Fin 8)]
           [Samples.sample_day 20250304 2025 1 (Fin 45) (Fin 6)]
           (Samples.sample_day 20250301 2025 5 (Fin 60) (Fin 9))
           Samples.snowy_sunday
           (Samples.sample_day 20250303 2025 0 (Fin 61) (Fin 9))
           long_weekend_sorted eq_refl eq_refl eq_refl
           full_years_2025 eq_refl).
Defined.

End SundayFacts.

(** ** Daily aggregation *)

Section AggregateFacts.
Import Frame Leads.

(** [str.upper], whatever it does to a source string. *)
Variable str_upper : string -> string.

Example classify_source_examples :
  map (classify_source Samples.ascii_upper)
      ["DM Spring Postcard"; "Google Ads"; "Unknown";
       "new direct mail offer"; ""; "dm"]%string =
  [DirectMail; OrganicDigital; OrganicDigital; DirectMail; OrganicDigital;
   DirectMail].
Proof. vm_compute. reflexivity. Qed.

Example aggregate_daily_some_leads :
  aggregate_daily Samples.ascii_upper Samples.some_leads =
  [ mk_daily 20250301 3 2 1; mk_daily 20250302 2 0 2 ].
Proof. vm_compute. reflexivity. Qed.

Lemma count_key_absent (keys : list Z) (k : Z) : k ∉ keys -> count_key k keys = 0%Z.
Proof.
  intros Hk. unfold count_key.
  induction keys as [|x keys IH]; [reflexivity|].
  apply not_elem_of_cons in Hk as [Hne Hk].
  rewrite filter_cons_False by congruence. now apply IH.
Qed.

(** Joining the group sizes back on a date and filling the gaps with 0
    gives the number of rows of that date. *)
Lemma joined_group_sizes (keys : list Z) (k : Z) :
  fillna0_int (joined k (group_sizes keys)) = count_key k keys.
Proof.
  unfold joined, group_sizes.
  destruct (list_find _ _) as [[i p]|] eqn:Hfind; simpl.
  - apply list_find_Some in Hfind as (Hi & Hp & _).
    apply list_lookup_fmap_Some in Hi as (k' & -> & Hk'). simpl in *. now subst.
  - apply list_find_None in Hfind. symmetry. apply count_key_absent.
    intros Hk. apply group_keys_member in Hk.
    rewrite Forall_fmap in Hfind.
    apply (proj1 (Forall_forall _ _) Hfind k Hk). reflexivity.
Qed.

(** Every lead is counted in exactly one of the two segments. *)
Lemma count_key_segments (df : list lead) (k : Z) :
  (count_key k (map lead_date
     (filter (fun l => classify_source str_upper (source l) = DirectMail) df)) +
   count_key k (map lead_date
     (filter (fun l => classify_source str_upper (source l) = OrganicDigital)
             df)))%Z =
  count_key k (map lead_date df).
Proof.
  unfold count_key. induction df as [|l df IH]; [reflexivity|].
  rewrite !filter_cons. simpl map. rewrite filter_cons.
  destruct (classify_source str_upper (source l)) eqn:Hc.
  - rewrite decide_True by reflexivity. rewrite decide_False by discriminate.
    simpl map. rewrite filter_cons.
    destruct (decide (lead_date l = k)); simpl length; lia.
  - rewrite decide_False by discriminate. rewrite decide_True by reflexivity.
    simpl map. rewrite filter_cons.
    destruct (decide (lead_date l = k)); simpl length; lia.
Qed.

(** C9.  Whatever [str.upper] makes of a source string, [classify_source]
    puts every source string in one of the two classes, and in every row
    that [aggregate_daily] returns the direct-mail count and the
    organic/digital count add up to the total. *)
Theorem C9_segments_sum_to_total (df : list lead) :
  (forall src : string,
     classify_source str_upper src = DirectMail \/
     classify_source str_upper src = OrganicDigital)
  /\ Forall (fun r => (d_dm_leads r + d_organic_leads r)%Z = d_total_leads r)
            (aggregate_daily str_upper df).
Proof.
  split.
  - intros src. destruct (classify_source str_upper src); [now left | now right].
  - apply Forall_forall. intros r Hr. unfold aggregate_daily in Hr.
    rewrite sort_values_perm in Hr.
    apply list_elem_of_fmap in Hr as ([k n] & -> & Hp). simpl.
    unfold group_sizes in Hp at 1.
    apply list_elem_of_fmap in Hp as (k' & [= -> ->] & _).
    rewrite !joined_group_sizes. apply count_key_segments.
Qed.

End AggregateFacts.

(** ** The percentage error *)

Section MetricsFacts.
Import Features Metrics.
Local Open Scope Q_scope.

Lemma divide_by_positive (a : Q) (z : Z) :
  (1 <= z)%Z -> divide a (inject_Z z) = Some (a / inject_Z z).
Proof.
  intros Hz. unfold divide.
  destruct (Qeq_bool (inject_Z z) 0) eqn:E; [|reflexivity].
  apply Qeq_bool_eq in E. unfold Qeq in E. simpl in E. lia.
Qed.

Lemma abs_pct_error_defined (v : Z) (p : Q) :
  abs_pct_error v p =
  Some (Qabs ((inject_Z v - p) / inject_Z (Z.max v 1))).
Proof.
  unfold abs_pct_error. rewrite divide_by_positive by lia. reflexivity.
Qed.

Lemma abs_pct_errors_defined (y : list Z) (y_pred : list Q) :
  exists errs, abs_pct_errors y y_pred = Some errs /\
               length errs = length (zip y y_pred).
Proof.
  unfold abs_pct_errors.
  destruct (mapM_is_Some_2 (fun vp => abs_pct_error (fst vp) (snd vp))
              (zip y y_pred)) as [errs Herrs].
  - apply Forall_forall. intros [v p] _. simpl.
    rewrite abs_pct_error_defined. eauto.
  - exists errs. split; [exact Herrs|]. symmetry.
    exact (length_mapM _ _ _ Herrs).
Qed.

(** C8.  Every per-day denominator of the percentage error is the larger of
    the actual value and 1, hence at least 1; every per-day quotient exists,
    also on zero-lead days; and over a non-empty season the metric has a
    value. *)
Theorem C8_mape_never_divides_by_zero (y : list Z) (y_pred : list Q) :
  Forall (fun d => (1 <= d)%Z) (floor_at_1 y) /\
  (forall v p, abs_pct_error v p =
               Some (Qabs ((inject_Z v - p) / inject_Z (Z.max v 1)))) /\
  (exists errs, abs_pct_errors y y_pred = Some errs) /\
  (y ≠ [] -> length y_pred = length y -> exists m, mape y y_pred = Some m).
Proof.
  split; [|split; [|split]].
  - unfold floor_at_1. apply Forall_fmap, Forall_true. intros v. simpl. lia.
  - exact abs_pct_error_defined.
  - destruct (abs_pct_errors_defined y y_pred) as (errs & H & _). eauto.
  - intros Hne Hlen. unfold mape.
    destruct (abs_pct_errors_defined y y_pred) as (errs & -> & Hl). simpl.
    unfold mean. rewrite divide_by_positive; [simpl; eauto|].
    rewrite Hl, length_zip, Hlen. destruct y; [contradiction|]. simpl. lia.
Qed.

Example mape_with_zero_lead_day :
  exists m, mape [0; 12]%Z [3 # 2; 10] = Some m /\ m == 250 # 3.
Proof. eexists. split; [vm_compute; reflexivity|]. vm_compute. reflexivity. Qed.

Lemma C8_mape_never_divides_by_zero_witness :
  exists m, mape [0; 12]%Z [3 # 2; 10] = Some m.
Proof.
  apply (proj2 (proj2 (proj2 (C8_mape_never_divides_by_zero
                                [0; 12]%Z [3 # 2; 10])))).
  - discriminate.
  - reflexivity.
Defined.

End MetricsFacts.

(** ** Walk-forward validation *)

Section TrainerFacts.
Import Py Frame Features Trainer.

Lemma StronglySorted_filter {A} (R : relation A) (P : A -> Prop)
    `{!forall x, Decision (P x)} (l : list A) :
  StronglySorted R l -> StronglySorted R (filter P l).
Proof.
  induction 1 as [|x l Hs IH Hx]; [constructor|].
  rewrite filter_cons. destruct (decide (P x)); [|exact IH].
  constructor; [exact IH|].
  apply Forall_forall. intros z Hz. apply list_elem_of_filter in Hz as [_ Hz].
  exact (proj1 (Forall_forall _ _) Hx z Hz).
Qed.

(** Sorted keys without repetition are strictly ascending. *)
Lemma sorted_by_strict {A} (key : A -> Z) (l : list A) :
  sorted_by key l -> NoDup (map key l) ->
  StronglySorted (fun a b => (key a < key b)%Z) l.
Proof.
  unfold sorted_by. induction 1 as [|x l Hs IH Hx]; intros Hnd; [constructor|].
  simpl in Hnd. apply NoDup_cons in Hnd as [Hx' Hnd].
  constructor; [now apply IH|].
  apply Forall_forall. intros z Hz.
  pose proof (proj1 (Forall_forall _ _) Hx z Hz) as Hle. simpl in Hle.
  assert (key x ≠ key z).
  { intros Heq. apply Hx'. rewrite Heq. now apply list_elem_of_fmap_2. }
  lia.
Qed.

Lemma NoDup_map_filter {A} (key : A -> Z) (P : A -> Prop)
    `{!forall x, Decision (P x)} (l : list A) :
  NoDup (map key l) -> NoDup (map key (filter P l)).
Proof.
  induction l as [|x l IH]; simpl; intros Hnd; [constructor|].
  apply NoDup_cons in Hnd as [Hx Hnd]. rewrite filter_cons.
  destruct (decide (P x)); [|now apply IH].
  simpl. constructor; [|now apply IH].
  intros Hin. apply Hx. apply list_elem_of_fmap in Hin as (z & -> & Hz).
  apply list_elem_of_filter in Hz as [_ Hz]. now apply list_elem_of_fmap_2.
Qed.

(** The training table is in strictly ascending date order when the merged
    table has one row per date. *)
Lemma training_table_ascending (dw : list day) :
  NoDup (map date dw) ->
  StronglySorted (fun a b => (date (fbase a) < date (fbase b))%Z)
                 (training_table dw).
Proof.
  intros Hnd. unfold training_table. apply StronglySorted_filter.
  set (full := filter (fun d => year d ∈ full_years) dw).
  destruct (engineer_features_spec full) as [Hb _].
  assert (Hs : StronglySorted (fun a b => (date a < date b)%Z)
                              (map fbase (engineer_features full))).
  { rewrite Hb. apply sorted_by_strict; [apply sort_values_sorted|].
    unfold sort_values_date.
    rewrite (fmap_Permutation date _ _ (sort_values_perm date full)).
    now apply NoDup_map_filter. }
  clear Hb. induction (engineer_features full) as [|r f IH]; [constructor|].
  simpl in Hs. apply StronglySorted_inv in Hs as [Hs Hr].
  constructor; [now apply IH|]. now rewrite Forall_fmap in Hr.
Qed.

Lemma iloc_seq {A} (tbl : list A) (t : nat) :
  forall s, iloc (seq s t) tbl = take t (drop s tbl).
Proof.
  unfold iloc. induction t as [|t IH]; intros s; simpl.
  - now rewrite take_0.
  - destruct (tbl !! s) as [x|] eqn:Hx.
    + rewrite (drop_S _ _ _ Hx). simpl. f_equal. apply IH.
    + rewrite IH. apply lookup_ge_None in Hx.
      rewrite !drop_ge by lia. now rewrite !take_nil.
Qed.

Lemma time_series_split_enough (n : nat) :
  (6 <= n)%nat ->
  exists folds, time_series_split 5 n = Some folds /\ length folds = 5%nat.
Proof.
  intros Hn. unfold time_series_split.
  rewrite bool_decide_eq_false_2 by lia.
  assert (Hdiv : (n / 6 * 5 < n)%nat).
  { pose proof (Nat.Div0.mul_div_le n 6). lia. }
  rewrite bool_decide_eq_false_2 by lia.
  eexists. split; [reflexivity|]. now rewrite length_map, length_seq.
Qed.

Lemma time_series_split_shape (n : nat) (folds : list (list nat * list nat)) :
  time_series_split 5 n = Some folds ->
  Forall (fun f => exists s t, fst f = seq 0 s /\ snd f = seq s t) folds.
Proof.
  intros H. unfold time_series_split in H.
  repeat case_bool_decide; try discriminate.
  simplify_eq. apply Forall_fmap, Forall_true. intros i.
  eexists _, _. split; reflexivity.
Qed.

(** C4.  [train_and_evaluate] cross-validates with five walk-forward folds
    over the training table.  With at least six rows the five folds exist;
    in every fold the training rows are a prefix of the table and the
    evaluation rows the block right after it; and, the merged table holding
    one row per date, every evaluation date is strictly later than every
    training date of the same fold. *)
Theorem C4_walk_forward_chronological (daily_weather : list day) :
  NoDup (map date daily_weather) ->
  let tbl := training_table daily_weather in
  ((6 <= length tbl)%nat ->
     exists blocks, walk_forward_blocks tbl = Some blocks /\
                    length blocks = 5%nat) /\
  (forall blocks, walk_forward_blocks tbl = Some blocks ->
     Forall (fun b => prefix_then_block tbl b /\ chronological b) blocks).
Proof.
  intros Hnd tbl. split.
  - intros Hlen. unfold walk_forward_blocks.
    destruct (time_series_split_enough _ Hlen) as (folds & -> & Hf). simpl.
    eexists. split; [reflexivity|]. now rewrite length_map.
  - intros blocks Hb. unfold walk_forward_blocks in Hb.
    destruct (time_series_split 5 (length tbl)) as [folds|] eqn:Hsplit;
      [|discriminate].
    simpl in Hb. injection Hb as <-.
    apply Forall_fmap. eapply Forall_impl;
      [exact (time_series_split_shape _ _ Hsplit)|].
    intros [tr ev] (s & t & Htr & Hev). simpl in *. subst tr ev.
    rewrite !iloc_seq, drop_0.
    assert (Hshape : prefix_then_block tbl (take s tbl, take t (drop s tbl))).
    { exists s, t. split; reflexivity. }
    split; [exact Hshape|].
    intros a b Ha Hb. simpl in Ha, Hb.
    pose proof (training_table_ascending daily_weather Hnd) as Hsorted.
    fold tbl in Hsorted. rewrite <- (take_drop s tbl) in Hsorted.
    apply (StronglySorted_app_1_elem_of _ _ _ a b Hsorted Ha).
    apply elem_of_take in Hb as (i & Hi & _).
    apply list_elem_of_lookup. eauto.
Qed.

Example time_series_split_13 :
  time_series_split 5 13 =
  Some [ ([0; 1; 2], [3; 4]); ([0; 1; 2; 3; 4], [5; 6]);
         ([0; 1; 2; 3; 4; 5; 6], [7; 8]);
         ([0; 1; 2; 3; 4; 5; 6; 7; 8], [9; 10]);
         ([0; 1; 2; 3; 4; 5; 6; 7; 8; 9; 10], [11; 12]) ]%nat.
Proof. vm_compute. reflexivity. Qed.

Example time_series_split_too_few : time_series_split 5 5 = None.
Proof. reflexivity. Qed.

Example training_table_one_week :
  map (fun r => date (fbase r)) (training_table Samples.one_week) =
  [20250303; 20250304; 20250306; 20250307; 20250308; 20250310; 20250311]%Z.
Proof. vm_compute. reflexivity. Qed.

Lemma one_week_dates : NoDup (map date Samples.one_week).
Proof. apply (bool_decide_unpack _). vm_compute. exact I. Qed.

Lemma C4_walk_forward_chronological_witness :
  let tbl := training_table Samples.one_week in
  exists blocks,
    walk_forward_blocks tbl = Some blocks /\ length blocks = 5%nat /\
    Forall (fun b => prefix_then_block tbl b /\ chronological b) blocks.
Proof.
  intros tbl.
  destruct (C4_walk_forward_chronological Samples.one_week one_week_dates)
    as [Hex Hall].
  destruct Hex as (blocks & Hb & Hl).
  - vm_compute. repeat constructor.
  - exists blocks. split; [exact Hb|]. split; [exact Hl|]. now apply Hall.
Defined.

End TrainerFacts.

(** ** Holdout validation *)

Section HoldoutFacts.
Import Py Frame Features Holdout.

Lemma full_years_not_2026 (d : day) : year d ∈ full_years -> year d ≠ 2026%Z.
Proof.
  unfold full_years. intros H Heq. rewrite Heq in H.
  apply list_elem_of_In in H. simpl in H. intuition discriminate.
Qed.

(** The year filter at the head of [run_holdout_validation] removes the rows
    of 2026, so the prepared table is the same with or without them. *)
Lemma prepared_without_2026 (csv : list day) :
  prepared (without_2026 csv) = prepared csv.
Proof.
  unfold prepared, without_2026. do 2 f_equal.
  apply list_filter_filter_l. exact full_years_not_2026.
Qed.

Lemma partitions_exclude_2026 (csv : list day) :
  Forall (fun r => year (fbase r) ≠ 2026%Z)
         (train_partition csv ++ test_partition csv).
Proof.
  apply Forall_app. split; apply Forall_forall; intros r Hr.
  - apply list_elem_of_filter in Hr as [Hy _]. unfold train_years in Hy.
    intros Heq. rewrite Heq in Hy.
    apply list_elem_of_In in Hy. simpl in Hy. intuition discriminate.
  - apply list_elem_of_filter in Hr as [Hy _]. rewrite Hy. discriminate.
Qed.

(** C5.  For any learner, [run_holdout_validation] reports the same metrics
    and tables on a table with rows of 2026 as on that table with those rows
    removed: the table that enters feature engineering is the same, and no
    row of 2026 is in the training or the test partition. *)
Theorem C5_holdout_ignores_2026
    (fit : list (list Q) -> list Z -> list Q -> Q)
    (r2_score : list Z -> list Q -> Q) (csv : list day) :
  run_holdout_validation fit r2_score csv =
    run_holdout_validation fit r2_score (without_2026 csv) /\
  prepared csv = prepared (without_2026 csv) /\
  Forall (fun r => year (fbase r) ≠ 2026%Z)
         (train_partition csv ++ test_partition csv).
Proof.
  split; [|split].
  - unfold run_holdout_validation, train_partition, test_partition.
    now rewrite prepared_without_2026.
  - symmetry. apply prepared_without_2026.
  - apply partitions_exclude_2026.
Qed.

Example without_2026_drops_rows :
  length Samples.with_partial_season = 8%nat /\
  length (without_2026 Samples.with_partial_season) = 6%nat /\
  map (fun r => date (fbase r)) (train_partition Samples.with_partial_season) =
    [20210301; 20220301; 20230301; 20240301]%Z /\
  map (fun r => date (fbase r)) (test_partition Samples.with_partial_season) =
    [20250301; 20250303]%Z.
Proof. repeat split; vm_compute; reflexivity. Qed.

End HoldoutFacts.

(** ** Seasonal projection *)

Section ProjectionFacts.
Import Py Frame Features Projection.

Example calendar_2025 :
  map (fun dos => (iso_week_2025 dos, month_2025 dos)) [0; 1; 2; 14; 44; 45; 75; 84]%Z =
  [(7, 2); (7, 2); (8, 2); (9, 3); (14, 3); (14, 4); (18, 5); (19, 5)]%Z.
Proof. vm_compute. reflexivity. Qed.

Lemma select_feature_cols (a : day_average) (dw : Z) :
  select feature_cols (feature_row a dw) = Some (map snd (feature_row a dw)).
Proof. reflexivity. Qed.

Lemma mapM_total {A B} (f : A -> option B) (g : A -> B) (l : list A) :
  (forall x, x ∈ l -> f x = Some (g x)) -> mapM f l = Some (map g l).
Proof.
  intros Hf. apply mapM_Some_2. induction l as [|x l IH]; constructor.
  - apply Hf. now left.
  - apply IH. intros z Hz. apply Hf. now right.
Qed.

Lemma mapM_raises {A B} (f : A -> option B) (l : list A) (x : A) :
  x ∈ l -> f x = None -> mapM f l = None.
Proof.
  intros Hx Hf. destruct (mapM f l) as [k|] eqn:Hm; [|reflexivity].
  apply mapM_Some_1 in Hm.
  apply list_elem_of_lookup in Hx as [i Hi].
  destruct (Forall2_lookup_l _ _ _ _ _ Hm Hi) as (y & _ & Hy).
  congruence.
Qed.

Section GridFacts.
Variable predict : list num -> option Q.
Variable mean_float : list Q -> Q.
Variable sqrtQ : Q -> Q.
Variable round1 : Q -> Q.

Abbreviation scored_row := (Projection.scored_row predict round1).

Lemma group_mean_number (xs : list num) :
  observed xs <> [] -> is_nan (group_mean mean_float xs) = false.
Proof. unfold group_mean. now destruct (observed xs). Qed.

(** With an observation of each weather column in the group, the synthetic
    row holds numbers only. *)
Lemma feature_row_numbers (k : Z) (grp : list day) (dw : Z) :
  Forall (fun col : day -> num => observed (map col grp) <> [])
         weather_columns ->
  Forall (fun c => is_nan c = false)
         (map snd (feature_row (averages mean_float sqrtQ k grp) dw)).
Proof.
  unfold weather_columns. intros H.
  repeat (apply Forall_cons in H as [?%group_mean_number H]).
  simpl. repeat constructor; assumption.
Qed.

Lemma avg_by_day_rows (tbl : list day) (a : day_average) :
  a ∈ avg_by_day mean_float sqrtQ tbl ->
  exists g, g ∈ groupby day_of_season (historical tbl) /\
            a = averages mean_float sqrtQ (fst g) (snd g).
Proof.
  unfold avg_by_day. intros Ha.
  apply list_elem_of_fmap in Ha as (g & -> & Hg). eauto.
Qed.

Lemma grid_elem (l : list day_average) (a : day_average) (dw : Z) :
  (a, dw) ∈ (a' ← l; dw' ← weekdays; [(a', dw')]) <-> a ∈ l /\ dw ∈ weekdays.
Proof.
  rewrite list_elem_of_bind. split.
  - intros (a' & Hin & Ha').
    apply list_elem_of_bind in Hin as (dw' & Hin & Hdw').
    apply list_elem_of_singleton in Hin as [= -> ->]. now split.
  - intros [Ha Hdw]. exists a. split; [|exact Ha].
    apply list_elem_of_bind. exists dw. split; [|exact Hdw].
    now apply list_elem_of_singleton.
Qed.

Lemma grid_rows (g : day_average -> Z -> projection_row) (l : list day_average) :
  map (fun ad => g (fst ad) (snd ad)) (a ← l; dw ← weekdays; [(a, dw)]) =
  a ← l; map (g a) weekdays.
Proof.
  induction l as [|a l IH]; [reflexivity|].
  rewrite !bind_cons, map_app. f_equal. exact IH.
Qed.

(** Without a full-year row the loop appends nothing and the call raises. *)
Lemma projection_raises_on_no_row (features : list string) (tbl : list day) :
  historical tbl = [] ->
  build_seasonal_projection predict mean_float sqrtQ round1 features tbl = None.
Proof.
  intros H. unfold build_seasonal_projection, avg_by_day. now rewrite H.
Qed.

(** The call raises when [predict] raises on a synthetic row. *)
Lemma projection_raises_with_predict (tbl : list day) (a : day_average)
    (dw : Z) :
  a ∈ avg_by_day mean_float sqrtQ tbl -> dw ∈ weekdays ->
  predict (map snd (feature_row a dw)) = None ->
  build_seasonal_projection predict mean_float sqrtQ round1 feature_cols tbl
  = None.
Proof.
  intros Ha Hdw Hp. unfold build_seasonal_projection.
  rewrite (mapM_raises _ _ (a, dw)); [reflexivity| |].
  - now apply grid_elem.
  - unfold project. cbn [fst snd]. rewrite select_feature_cols.
    cbn [mbind option_bind]. now rewrite Hp.
Qed.

(** With a full-year row, complete weather and a regressor that takes
    numbers, the table is the grid of scored rows, day by day and weekday by
    weekday. *)
Lemma build_seasonal_projection_grid (tbl : list day) :
  historical tbl <> [] -> weather_complete tbl -> scores_numbers predict ->
  build_seasonal_projection predict mean_float sqrtQ round1 feature_cols tbl =
  Some (a ← avg_by_day mean_float sqrtQ tbl; map (scored_row a) weekdays) /\
  forall a dw, a ∈ avg_by_day mean_float sqrtQ tbl -> dw ∈ weekdays ->
    predict (map snd (feature_row a dw)) =
    Some (default 0%Q (predict (map snd (feature_row a dw)))).
Proof.
  intros Hne Hc Hp.
  assert (Hscored : forall a dw,
            a ∈ avg_by_day mean_float sqrtQ tbl -> dw ∈ weekdays ->
            predict (map snd (feature_row a dw)) =
            Some (default 0%Q (predict (map snd (feature_row a dw))))).
  { intros a dw Ha _. apply avg_by_day_rows in Ha as (g & Hg & ->).
    destruct (Hp (map snd (feature_row
                             (averages mean_float sqrtQ (fst g) (snd g)) dw)))
      as [p Hpred].
    - apply feature_row_numbers.
      exact (proj1 (Forall_forall _ _) Hc g Hg).
    - now rewrite Hpred. }
  split; [|exact Hscored].
  unfold build_seasonal_projection.
  rewrite (mapM_total _ (fun ad => scored_row (fst ad) (snd ad))).
  - simpl. rewrite grid_rows.
    destruct (avg_by_day mean_float sqrtQ tbl) as [|a l] eqn:Havg.
    + exfalso. unfold avg_by_day, groupby in Havg.
      apply fmap_nil_inv in Havg. apply fmap_nil_inv in Havg.
      destruct (historical tbl) as [|d hist]; [contradiction|].
      assert (Hin : day_of_season d ∈ group_keys (map day_of_season (d :: hist))).
      { apply group_keys_member. now left. }
      rewrite Havg in Hin. inversion Hin.
    + rewrite bind_cons. reflexivity.
  - intros [a dw] Hin. apply grid_elem in Hin as [Ha Hdw].
    unfold project. cbn [fst snd]. rewrite select_feature_cols.
    cbn [mbind option_bind]. rewrite (Hscored a dw Ha Hdw). reflexivity.
Qed.

Lemma rows_of_day_block (a : day_average) (k : Z) (w : list Z) :
  filter (fun r => p_day_of_season r = k) (map (scored_row a) w) =
  if decide (a_day_of_season a = k) then map (scored_row a) w else [].
Proof.
  induction w as [|dw w IH]; simpl.
  - now destruct (decide _).
  - rewrite filter_cons, IH.
    change (p_day_of_season (scored_row a dw)) with (a_day_of_season a).
    now destruct (decide (a_day_of_season a = k)).
Qed.

Lemma rows_of_day_grid (f : Z -> day_average) (ks : list Z) (k : Z) :
  (forall k', a_day_of_season (f k') = k') ->
  NoDup ks -> k ∈ ks ->
  rows_of_day k (a ← map f ks; map (scored_row a) weekdays) =
  map (scored_row (f k)) weekdays.
Proof.
  intros Hf. unfold rows_of_day.
  assert (Hnone : forall l, k ∉ l ->
            filter (fun r => p_day_of_season r = k)
                   (a ← map f l; map (scored_row a) weekdays) = []).
  { induction l as [|k' l IH]; intros Hk; [reflexivity|].
    apply not_elem_of_cons in Hk as [Hne Hk].
    rewrite fmap_cons, bind_cons.
    rewrite filter_app, rows_of_day_block, Hf.
    rewrite decide_False by congruence. simpl. exact (IH Hk). }
  induction ks as [|k' ks IH]; intros Hnd Hk; [inversion Hk|].
  apply NoDup_cons in Hnd as [Hk' Hnd].
  rewrite fmap_cons, bind_cons.
  rewrite filter_app, rows_of_day_block, Hf.
  destruct (decide (k' = k)) as [->|Hne].
  - pose proof (Hnone ks Hk') as Hn.
    change (map f ks) with (f <$> ks) in Hn. rewrite Hn. apply app_nil_r.
  - simpl. apply IH; [exact Hnd|].
    apply elem_of_cons in Hk as [->|Hk]; [contradiction | exact Hk].
Qed.

(** C7 (amended).  The projection exists under three conditions: the table
    has a row of the full years 2021-2025, every day of season among those
    rows has an observation of each averaged weather column, and [predict]
    takes every row of numbers.  Without a full-year row the call raises,
    and it raises whenever [predict] raises on a synthetic row, to which the
    averages go as they are, NaN included.  Under the three conditions the
    table holds, for every day of season found among the full-year rows,
    exactly seven rows, one per weekday 0..6 in that order, and no other
    row.  Each row carries the prediction on the features built from the
    across-years averages of its day of season, as the float library
    computes them, and the calendar attributes of its weekday, with
    year_trend at the constant 4 (the 2025 level), next to the rounded
    historical mean and standard deviation of the leads of that day of
    season. *)
Theorem C7_projection_grid (tbl : list day) :
  (historical tbl = [] ->
   build_seasonal_projection predict mean_float sqrtQ round1 feature_cols tbl
   = None) /\
  (forall a dw,
     a ∈ avg_by_day mean_float sqrtQ tbl -> dw ∈ weekdays ->
     predict (map snd (feature_row a dw)) = None ->
     build_seasonal_projection predict mean_float sqrtQ round1 feature_cols tbl
     = None) /\
  (historical tbl <> [] -> weather_complete tbl -> scores_numbers predict ->
   exists rows,
     build_seasonal_projection predict mean_float sqrtQ round1 feature_cols tbl
     = Some rows /\
     (forall dos, dos ∈ map day_of_season (historical tbl) ->
        map p_dow (rows_of_day dos rows) = weekdays) /\
     Forall (fun r => p_day_of_season r ∈ map day_of_season (historical tbl) /\
                      p_dow r ∈ weekdays /\
                      built_from_averages predict mean_float sqrtQ round1 tbl r)
            rows).
Proof.
  split; [apply projection_raises_on_no_row|].
  split; [apply projection_raises_with_predict|].
  intros Hne Hc Hp.
  destruct (build_seasonal_projection_grid tbl Hne Hc Hp) as [Hgrid Hscored].
  eexists. split; [exact Hgrid|].
  set (hist := historical tbl).
  set (f := fun k => averages mean_float sqrtQ k
                       (filter (fun d => day_of_season d = k) hist)).
  assert (Havg : avg_by_day mean_float sqrtQ tbl =
                 map f (group_keys (map day_of_season hist))).
  { unfold avg_by_day, groupby. fold hist. now rewrite <- list_fmap_compose. }
  rewrite Havg in Hscored |- *. clear Havg.
  split.
  - intros dos Hdos.
    rewrite (rows_of_day_grid f).
    + unfold scored_row. rewrite map_map. reflexivity.
    + reflexivity.
    + apply group_keys_NoDup.
    + now apply group_keys_member.
  - apply Forall_forall. intros r Hr.
    apply list_elem_of_bind in Hr as (a & Hr & Ha).
    pose proof Ha as Ha'.
    apply list_elem_of_fmap in Ha as (k & -> & Hk).
    apply (proj1 (group_keys_member _ _)) in Hk.
    apply list_elem_of_fmap in Hr as (dw & -> & Hdw).
    split; [exact Hk|]. split; [exact Hdw|].
    unfold built_from_averages. cbv zeta.
    change (p_day_of_season (scored_row (f k) dw)) with k.
    change (p_dow (scored_row (f k) dw)) with dw.
    fold hist. fold (f k).
    split.
    + apply list_elem_of_fmap in Hk as (d & -> & Hd).
      intros Hnil.
      assert (Hin : d ∈ filter (fun d0 => day_of_season d0 = day_of_season d) hist).
      { apply list_elem_of_filter. split; [reflexivity | exact Hd]. }
      rewrite Hnil in Hin. inversion Hin.
    + split.
      { rewrite (Hscored (f k) dw Ha' Hdw). reflexivity. }
      repeat split; reflexivity.
Qed.

End GridFacts.

(** C7, as stated, fails on a table whose last season is 2024: the most
    recent observed year gives year_trend 3, and every synthetic row is
    scored with year_trend 4, as a model that returns its year_trend cell
    shows. *)
Lemma C7_year_trend_counterexample :
  latest_year_trend Samples.until_2024 = Some 3%Z /\
  fmap (M := option) (map p_predicted_leads)
       (build_seasonal_projection Samples.numbers_only Samples.exact_mean
          Samples.no_sqrt Samples.no_rounding feature_cols Samples.until_2024) =
  Some (replicate 42 4%Q).
Proof. split; vm_compute; reflexivity. Qed.

Example projection_until_2024_first_day :
  (fun rows => map (fun r => (p_day_of_season r, p_dow r, p_dow_name r))
                   (take 8 rows)) <$>
  build_seasonal_projection Samples.numbers_only Samples.exact_mean
    Samples.no_sqrt Samples.no_rounding feature_cols Samples.until_2024 =
  Some [ (1, 0, "Mon"); (1, 1, "Tue"); (1, 2, "Wed"); (1, 3, "Thu");
         (1, 4, "Fri"); (1, 5, "Sat"); (1, 6, "Sun"); (2, 0, "Mon") ]%Z%string.
Proof. vm_compute. reflexivity. Qed.

(** No table comes out of a table without full-year rows, nor of a day
    whose averages are NaN when the regressor takes numbers only. *)
Example projection_raises :
  build_seasonal_projection Samples.numbers_only Samples.exact_mean
    Samples.no_sqrt Samples.no_rounding feature_cols [] = None /\
  build_seasonal_projection Samples.numbers_only Samples.exact_mean
    Samples.no_sqrt Samples.no_rounding feature_cols Samples.no_weather_day
  = None.
Proof. split; vm_compute; reflexivity. Qed.

Lemma numbers_only_scores : scores_numbers Samples.numbers_only.
Proof.
  intros x Hx. unfold Samples.numbers_only.
  replace (forallb (fun c => negb (is_nan c)) x) with true; [eauto|].
  symmetry. apply forallb_forall. intros c Hc.
  apply list_elem_of_In in Hc.
  now rewrite (proj1 (Forall_forall _ _) Hx c Hc).
Qed.

Lemma until_2024_complete : weather_complete Samples.until_2024.
Proof.
  unfold weather_complete. vm_compute.
  repeat (constructor; [repeat constructor; discriminate|]). constructor.
Qed.

Lemma C7_projection_grid_witness :
  historical Samples.until_2024 <> [] /\
  weather_complete Samples.until_2024 /\
  scores_numbers Samples.numbers_only /\
  exists rows,
    build_seasonal_projection Samples.numbers_only Samples.exact_mean
      Samples.no_sqrt Samples.no_rounding feature_cols Samples.until_2024
    = Some rows /\
    map p_dow (rows_of_day 1 rows) = weekdays.
Proof.
  assert (Hne : historical Samples.until_2024 <> []) by discriminate.
  split; [exact Hne|]. split; [exact until_2024_complete|].
  split; [exact numbers_only_scores|].
  destruct (proj2 (proj2 (C7_projection_grid Samples.numbers_only
                            Samples.exact_mean Samples.no_sqrt
                            Samples.no_rounding Samples.until_2024))
              Hne until_2024_complete numbers_only_scores)
    as (rows & Hb & Hg & _).
  exists rows. split; [exact Hb|]. apply Hg.
  apply list_elem_of_In. simpl. left. reflexivity.
Defined.

End ProjectionFacts.

(** * Further properties *)

(** ** The classifiers *)

(** Distinct literals. *)
Ltac distinct_labels :=
  repeat (apply NoDup_cons_2;
          [rewrite ?not_elem_of_cons; repeat split;
           try discriminate; try lia; apply not_elem_of_nil|]);
  apply NoDup_nil_2.

Section ClassifierExtraFacts.
Import Py Classifier ClassifierExtra.
Local Open Scope Q_scope.

Lemma get_insert_eq (r : row) (k : string) (v : pyval) (d : Q) :
  get (<[k := v]> r) k d = v.
Proof. unfold get. now rewrite lookup_insert_eq. Qed.

Lemma get_insert_ne (r : row) (k k' : string) (v : pyval) (d : Q) :
  k ≠ k' -> get (<[k := v]> r) k' d = get r k' d.
Proof. intros H. unfold get. now rewrite lookup_insert_ne. Qed.

(** X1.  Both classifiers start with the same snow test.  The coarse label
    is "Snow" exactly when the test fires, and then the quality label is
    "bad": a day called Snow is never "nice" or "ok". *)
Theorem snow_label_is_bad (r : row) :
  (classify_weather_condition r = Snow <-> snow_test r = true) /\
  (classify_weather_condition r = Snow -> classify_day_weather r = bad).
Proof.
  unfold classify_weather_condition, classify_day_weather, snow_test.
  destruct (gt (or_ (get r "snowfall_in" 0) 0) (1 # 10)
            || gt (or_ (get r "snow_depth" 0) 0) 1) eqn:Hs.
  - split; [split; reflexivity | reflexivity].
  - split; [split; [|discriminate] | ];
      repeat match goal with
             | |- context [if ?b then _ else _] => destruct b
             end; discriminate.
Qed.

Lemma snow_label_is_bad_witness :
  classify_day_weather (Frame.row_of Samples.snowy_sunday) = bad.
Proof.
  apply (proj2 (snow_label_is_bad (Frame.row_of Samples.snowy_sunday))).
  vm_compute. reflexivity.
Defined.

(** X2.  A maximum temperature of exactly 0 is falsy, so [or 50] replaces it:
    the quality label of any row is the same with temp_max 0 as with
    temp_max 50. *)
Theorem zero_temperature_read_as_50 (r : row) :
  classify_day_weather (<["temp_max" := PyFloat (Fin 0)]> r) =
  classify_day_weather (<["temp_max" := PyFloat (Fin 50)]> r).
Proof.
  unfold classify_day_weather.
  rewrite !get_insert_eq. rewrite !get_insert_ne by done. reflexivity.
Qed.

Example zero_degrees_six_hours_is_ok :
  classify_day_weather
    (<["temp_max" := PyFloat (Fin 0)]> {["sunshine_hrs" := PyFloat (Fin 6)]}) = ok /\
  classify_day_weather
    (<["temp_max" := PyFloat (Fin 1)]> {["sunshine_hrs" := PyFloat (Fin 6)]}) = bad.
Proof. split; vm_compute; reflexivity. Qed.

Lemma unobserved_or_zero (r : row) (k : string) :
  unobserved r k ->
  or_ (get r k 0) 0 = Fin 0 \/ or_ (get r k 0) 0 = NaN.
Proof.
  unfold get. intros [-> | [-> | ->]]; simpl; auto.
Qed.

(** X3.  A row without a sunshine observation (no key, [None] or NaN) is
    never labelled "nice", "Sunny" or "Partly Cloudy", whatever its other
    cells hold. *)
Theorem no_sunshine_never_sunny (r : row) :
  unobserved r "sunshine_hrs" ->
  classify_day_weather r ≠ nice /\
  classify_weather_condition r ≠ Sunny /\
  classify_weather_condition r ≠ PartlyCloudy.
Proof.
  intros Hu. unfold classify_day_weather, classify_weather_condition.
  destruct (unobserved_or_zero r _ Hu) as [-> | ->]; simpl;
    repeat split;
    repeat match goal with
           | |- context [if ?b then _ else _] => destruct b
           end; discriminate.
Qed.

Lemma no_sunshine_never_sunny_witness :
  classify_day_weather (Frame.row_of (Samples.only_temp_max_nan 60)) ≠ nice /\
  classify_weather_condition (Frame.row_of (Samples.only_temp_max_nan 60)) ≠ Sunny /\
  classify_weather_condition (Frame.row_of (Samples.only_temp_max_nan 60))
    ≠ PartlyCloudy.
Proof.
  apply (no_sunshine_never_sunny (Frame.row_of (Samples.only_temp_max_nan 60))).
  right. right. reflexivity.
Defined.

Lemma ge_up (a b c : Q) : a <= b -> ge (Fin a) c = true -> ge (Fin b) c = true.
Proof.
  intros Hab. simpl.
  destruct (a ?= c) eqn:Ha; try discriminate; intros _.
  - apply Qeq_alt in Ha.
    destruct (b ?= c) eqn:Hb; try reflexivity.
    apply Qlt_alt in Hb. exfalso. apply (Qlt_irrefl b).
    eapply Qlt_le_trans; [exact Hb|]. now rewrite <- Ha.
  - apply Qgt_alt in Ha.
    destruct (b ?= c) eqn:Hb; try reflexivity.
    apply Qlt_alt in Hb. exfalso. apply (Qlt_irrefl b).
    eapply Qlt_trans; [exact Hb|]. eapply Qlt_le_trans; eassumption.
Qed.

Lemma lt_down (a b c : Q) : a <= b -> lt (Fin b) c = true -> lt (Fin a) c = true.
Proof.
  intros Hab. simpl.
  destruct (b ?= c) eqn:Hb; try discriminate; intros _.
  apply Qlt_alt in Hb.
  assert (Ha : a < c) by (eapply Qle_lt_trans; eassumption).
  now rewrite (proj1 (Qlt_alt a c) Ha).
Qed.

Lemma or_number (x d : Q) : or_ (PyFloat (Fin x)) d = Fin (read_or x d).
Proof. unfold or_, read_or. simpl. now destruct (Qeq_bool x 0). Qed.

Lemma sun_temp_rules_mono (a1 b1 c1 d1 e1 f1 a2 b2 c2 d2 e2 f2 : bool) :
  implb a1 a2 && implb b1 b2 && implb c1 c2 && implb d1 d2
    && implb e2 e1 && implb f2 f1 = true ->
  (quality_rank (sun_temp_rules a1 b1 c1 d1 e1 f1)
   <= quality_rank (sun_temp_rules a2 b2 c2 d2 e2 f2))%Z.
Proof.
  destruct a1, b1, c1, d1, e1, f1, a2, b2, c2, d2, e2, f2; simpl;
    intros H; try discriminate H; lia.
Qed.

Lemma implb_by (a b : bool) : (a = true -> b = true) -> implb a b = true.
Proof. destruct a, b; simpl; intros H; try reflexivity. now apply H. Qed.

(** X22.  Better weather never gives a worse label: when the sunshine and
    the maximum temperature of a row are raised and everything else is left
    as it is, [classify_day_weather] never moves down from 'nice' to 'ok' or
    from 'ok' to 'bad' - provided the lower temperature is not exactly 0,
    which the source reads as 50. *)
Theorem better_weather_never_lowers_label (r : row) (s1 s2 t1 t2 : Q) :
  s1 <= s2 -> t1 <= t2 -> ~ t1 == 0 ->
  (quality_rank (classify_day_weather (with_sun_and_temp r s1 t1))
   <= quality_rank (classify_day_weather (with_sun_and_temp r s2 t2)))%Z.
Proof.
  intros Hs Ht Ht1. unfold classify_day_weather, with_sun_and_temp.
  rewrite !get_insert_eq.
  rewrite !(get_insert_ne _ "sunshine_hrs") by discriminate.
  rewrite !get_insert_eq.
  rewrite !(get_insert_ne _ "temp_max") by discriminate.
  cbv zeta. rewrite !or_number.
  destruct (gt (or_ (get r "snowfall_in" 0) 0) (1 # 10)
            || gt (or_ (get r "snow_depth" 0) 0) 1); [simpl; lia|].
  destruct (gt (or_ (get r "precip_in" 0) 0) (2 # 10)); [simpl; lia|].
  assert (Hs' : read_or s1 0 <= read_or s2 0).
  { unfold read_or.
    destruct (Qeq_bool s1 0) eqn:E1; destruct (Qeq_bool s2 0) eqn:E2;
      try apply Qeq_bool_eq in E1; try apply Qeq_bool_eq in E2.
    - apply Qle_refl.
    - now rewrite <- E1.
    - now rewrite <- E2.
    - exact Hs. }
  assert (Ht' : read_or t1 50 <= read_or t2 50).
  { unfold read_or.
    destruct (Qeq_bool t1 0) eqn:E1.
    { apply Qeq_bool_eq in E1. contradiction. }
    destruct (Qeq_bool t2 0) eqn:E2; [|exact Ht].
    apply Qeq_bool_eq in E2. rewrite E2 in Ht.
    eapply Qle_trans; [exact Ht|]. discriminate. }
  apply (sun_temp_rules_mono
           (ge (Fin (read_or s1 0)) 7) (ge (Fin (read_or t1 50)) 55)
           (ge (Fin (read_or s1 0)) 5) (ge (Fin (read_or t1 50)) 50)
           (lt (Fin (read_or s1 0)) 3) (lt (Fin (read_or t1 50)) 42)
           (ge (Fin (read_or s2 0)) 7) (ge (Fin (read_or t2 50)) 55)
           (ge (Fin (read_or s2 0)) 5) (ge (Fin (read_or t2 50)) 50)
           (lt (Fin (read_or s2 0)) 3) (lt (Fin (read_or t2 50)) 42)).
  rewrite !andb_true_iff. repeat split; apply implb_by.
  - apply ge_up, Hs'.
  - apply ge_up, Ht'.
  - apply ge_up, Hs'.
  - apply ge_up, Ht'.
  - apply lt_down, Hs'.
  - apply lt_down, Ht'.
Qed.

Example zero_degrees_beats_ten :
  classify_day_weather (with_sun_and_temp ∅ 6 0) = ok /\
  classify_day_weather (with_sun_and_temp ∅ 6 10) = bad.
Proof. split; vm_compute; reflexivity. Qed.

Lemma better_weather_never_lowers_label_witness :
  4 <= 8 /\ 45 <= 60 /\ ~ 45 == 0 /\
  (quality_rank (classify_day_weather
                   (with_sun_and_temp (Frame.row_of
                      (Samples.sample_day 20250303 2025 0 (Fin 50) (Fin 5)))
                      4 45))
   <= quality_rank (classify_day_weather
                      (with_sun_and_temp
                         (Frame.row_of
                            (Samples.sample_day 20250303 2025 0 (Fin 50) (Fin 5)))
                         8 60)))%Z.
Proof.
  assert (H1 : 4 <= 8) by discriminate.
  assert (H2 : 45 <= 60) by discriminate.
  assert (H3 : ~ 45 == 0) by discriminate.
  split; [exact H1|]. split; [exact H2|]. split; [exact H3|].
  exact (better_weather_never_lowers_label _ 4 8 45 60 H1 H2 H3).
Defined.

End ClassifierExtraFacts.

(** ** Invariants of the streak columns *)

Section StreakInvariants.
Import Py Classifier Frame Momentum MomentumExtra.

Lemma transition_fit (s : Z * Z) (q : quality) (r : tagged) :
  (0 <= fst s)%Z -> (0 <= snd s)%Z ->
  weather_quality r = q ->
  (nice_streak r, bad_streak r) = transition s q ->
  counters_fit r.
Proof.
  intros H1 H2 Hq Ht. unfold counters_fit. rewrite Hq.
  destruct q; simpl in Ht; injection Ht as -> ->;
    repeat split; try lia; try discriminate; try reflexivity; auto.
Qed.

(** Every row of a tagged table has a rank in the index of its year. *)
Lemma row_rank (df : list day) (out : list tagged) (ix : nat) (r : tagged) :
  tagged_over df out -> out !! ix = Some r ->
  exists k, year_index (year (base r)) (map year df) !! k = Some ix /\
            year (base r) ∈ map year df.
Proof.
  intros Hov Hr.
  pose proof (tagged_over_year df out ix r Hov Hr) as Hy.
  assert (Hin : ix ∈ year_index (year (base r)) (map year df))
    by now apply year_index_elem.
  apply list_elem_of_lookup in Hin as [k Hk].
  exists k. split; [exact Hk|]. apply list_elem_of_lookup. eauto.
Qed.

Lemma build_streaks_rank_fit (df : list day) (y : Z) :
  y ∈ map year df ->
  forall k ix r,
    year_index y (map year df) !! k = Some ix ->
    build_streaks df !! ix = Some r -> counters_fit r.
Proof.
  intros Hy. destruct (build_streaks_spec df) as [_ Hsc].
  specialize (Hsc y Hy).
  induction k as [|k IH]; intros ix r Hk Hr.
  - destruct (Hsc 0%nat ix Hk) as (r' & Hr' & Hs & _).
    rewrite Hr in Hr'. injection Hr' as <-.
    apply (transition_fit (0, 0)%Z (weather_quality r)); simpl;
      [lia | lia | reflexivity | exact Hs].
  - destruct (Hsc (S k) ix Hk) as (r' & Hr' & Hs & _).
    rewrite Hr in Hr'. injection Hr' as <-.
    assert (Hlt : (k < length (year_index y (map year df)))%nat).
    { apply lookup_lt_Some in Hk. lia. }
    destruct (lookup_lt_is_Some_2 _ _ Hlt) as [j Hj].
    destruct (Hsc k j Hj) as (rj & Hrj & _).
    destruct (IH j rj Hj Hrj) as (Hn & Hb & _).
    simpl in Hs. rewrite Hj in Hs. unfold streaks_at in Hs. rewrite Hrj in Hs.
    apply (transition_fit _ (weather_quality r) r) in Hs;
      [exact Hs | exact Hn | exact Hb | reflexivity].
Qed.

Lemma build_streaks_row_fit (df : list day) (ix : nat) (r : tagged) :
  build_streaks df !! ix = Some r -> counters_fit r.
Proof.
  intros Hr. destruct (build_streaks_spec df) as [Hov _].
  destruct (row_rank df _ ix r Hov Hr) as (k & Hk & Hy).
  exact (build_streaks_rank_fit df _ Hy k ix r Hk Hr).
Qed.

(** X4.  In every row that [build_streaks] returns the counters are not
    negative, nice_streak is positive exactly on a "nice" day, bad_streak
    exactly on a "bad" day, and at least one of the two is 0. *)
Theorem streak_counters_fit_label (df : list day) :
  Forall counters_fit (build_streaks df).
Proof. apply Forall_lookup. exact (build_streaks_row_fit df). Qed.

Lemma link_core (pn pb n b : Z) (prev : option quality) (qr : quality) :
  (0 <= pn)%Z -> (0 <= pb)%Z ->
  ((0 < pn)%Z <-> prev = Some nice) -> ((0 < pb)%Z <-> prev = Some bad) ->
  (n, b) = transition (pn, pb) qr ->
  forall q : quality,
    q ≠ ok ->
    let m := match q with nice => n | bad => b | ok => 0%Z end in
    ((2 <= m)%Z <-> qr = q /\ prev = Some q) /\
    (m = 1%Z <-> qr = q /\ prev ≠ Some q).
Proof.
  intros Hn Hb Hnq Hbq Ht q Hq m. subst m.
  assert (Hzn : pn = 0%Z \/ (0 < pn)%Z) by lia.
  assert (Hzb : pb = 0%Z \/ (0 < pb)%Z) by lia.
  destruct q; [|contradiction|];
    destruct qr; simpl in Ht; injection Ht as -> ->;
    (split; split;
     [ intros H; first [lia | split; [reflexivity|]; first [apply Hnq | apply Hbq]; lia]
     | intros [H1 H2]; first [discriminate | first [apply Hnq in H2 | apply Hbq in H2]; lia]
     | intros H; first [lia | split; [reflexivity|];
                              intros Hx; first [apply Hnq in Hx | apply Hbq in Hx]; lia]
     | intros [H1 H2]; first [discriminate | idtac] ]).
  - destruct Hzn as [-> | Hpos]; [reflexivity|]. exfalso. apply H2, Hnq, Hpos.
  - destruct Hzb as [-> | Hpos]; [reflexivity|]. exfalso. apply H2, Hbq, Hpos.
Qed.

Lemma streak_prev_link (df : list day) (ix : nat) (r : tagged) :
  build_streaks df !! ix = Some r ->
  forall q : quality,
    q ≠ ok ->
    let m := match q with nice => nice_streak r | bad => bad_streak r | ok => 0%Z end in
    ((2 <= m)%Z <-> weather_quality r = q /\ prev_day_quality r = Some q) /\
    (m = 1%Z <-> weather_quality r = q /\ prev_day_quality r ≠ Some q).
Proof.
  intros Hr.
  destruct (build_streaks_spec df) as [Hov Hsc].
  destruct (row_rank df _ ix r Hov Hr) as (k & Hk & Hy).
  destruct (Hsc _ Hy k ix Hk) as (r' & Hr' & Hs & Hp & _).
  rewrite Hr in Hr'. injection Hr' as <-.
  destruct k as [|k].
  - simpl in Hs. unfold quality_back in Hp. simpl in Hp. rewrite Hp.
    apply (link_core 0 0 _ _ None (weather_quality r)); try lia; try exact Hs;
      split; intros H; try lia; discriminate.
  - assert (Hlt : (k < length (year_index (year (base r)) (map year df)))%nat).
    { apply lookup_lt_Some in Hk. lia. }
    destruct (lookup_lt_is_Some_2 _ _ Hlt) as [j Hj].
    destruct (Hsc _ Hy k j Hj) as (rj & Hrj & _).
    pose proof (build_streaks_rank_fit df _ Hy k j rj Hj Hrj)
      as (Hn0 & Hb0 & Hnq & Hbq & _).
    simpl in Hs. rewrite Hj in Hs. unfold streaks_at in Hs. rewrite Hrj in Hs.
    unfold quality_back in Hp. rewrite bool_decide_eq_true_2 in Hp by lia.
    replace (S k - 1)%nat with k in Hp by lia. rewrite Hj in Hp. simpl in Hp.
    unfold label_at in Hp. rewrite Hrj in Hp. simpl in Hp. rewrite Hp.
    apply (link_core (nice_streak rj) (bad_streak rj) _ _
             (Some (weather_quality rj)) (weather_quality r));
      try assumption.
    + rewrite Hnq. split; [now intros -> | now intros [= ->]].
    + rewrite Hbq. split; [now intros -> | now intros [= ->]].
Qed.

(** X5.  The counters and the previous-day label of a row agree: nice_streak
    is 2 or more exactly on a nice day whose previous day of the year was
    nice, and exactly 1 on a nice day whose previous day was not nice or is
    unknown; the same holds for bad_streak and bad days. *)
Theorem streak_counts_previous_day (df : list day) :
  Forall (fun r =>
    ((2 <= nice_streak r)%Z <->
       weather_quality r = nice /\ prev_day_quality r = Some nice) /\
    (nice_streak r = 1%Z <->
       weather_quality r = nice /\ prev_day_quality r ≠ Some nice) /\
    ((2 <= bad_streak r)%Z <->
       weather_quality r = bad /\ prev_day_quality r = Some bad) /\
    (bad_streak r = 1%Z <->
       weather_quality r = bad /\ prev_day_quality r ≠ Some bad))
    (build_streaks df).
Proof.
  apply Forall_lookup. intros ix r Hr.
  destruct (streak_prev_link df ix r Hr nice) as [H1 H2]; [discriminate|].
  destruct (streak_prev_link df ix r Hr bad) as [H3 H4]; [discriminate|].
  tauto.
Qed.

(** X6.  A pop day (a nice day right after a bad day, [is_pop_day] = 1)
    always starts a streak: its nice_streak is 1 and its bad_streak 0. *)
Theorem pop_day_starts_streak (df : list day) :
  Forall (fun r => is_pop_day r = 1%Z ->
                   nice_streak r = 1%Z /\ bad_streak r = 0%Z)
         (build_streaks df).
Proof.
  apply Forall_lookup. intros ix r Hr Hpop. unfold is_pop_day in Hpop.
  destruct (bool_decide (weather_quality r = nice)) eqn:Hq; [|discriminate].
  destruct (bool_decide (prev_day_quality r = Some bad)) eqn:Hp; [|discriminate].
  apply bool_decide_eq_true in Hq, Hp.
  destruct (streak_prev_link df ix r Hr nice) as [_ H2]; [discriminate|].
  simpl in H2. split.
  - apply H2. split; [exact Hq|]. rewrite Hp. discriminate.
  - pose proof (build_streaks_row_fit df ix r Hr) as (_ & Hb & _ & Hbq & _).
    destruct (Z.eq_dec (bad_streak r) 0%Z) as [|Hne]; [assumption|].
    assert (Hx : weather_quality r = bad) by (apply Hbq; lia). congruence.
Qed.

Example pop_day_in_two_seasons :
  map is_pop_day (build_streaks Samples.two_seasons) = [0; 0; 0; 1]%Z.
Proof. vm_compute. reflexivity. Qed.

(** The row of rank [k] in year [y], read off the input rows of that year. *)
Lemma rank_facts (df : list day) (y : Z) (k ix : nat) :
  year_index y (map year df) !! k = Some ix ->
  exists r d,
    build_streaks df !! ix = Some r /\ Features.season y df !! k = Some d /\
    base r = d /\ weather_quality r = classify_day_weather (row_of d) /\
    (nice_streak r, bad_streak r) =
      transition (streaks_before (build_streaks df) (year_index y (map year df)) k)
                 (weather_quality r) /\
    prev_day_quality r =
      quality_back (build_streaks df) (year_index y (map year df)) k 1 /\
    prev_2day_quality r =
      quality_back (build_streaks df) (year_index y (map year df)) k 2.
Proof.
  intros Hk. destruct (build_streaks_spec df) as [Hov Hsc].
  assert (Hy : y ∈ map year df).
  { apply list_elem_of_lookup. exists ix.
    apply year_index_elem, list_elem_of_lookup. eauto. }
  destruct (Hsc y Hy k ix Hk) as (r & Hr & Hs & Hp & Hp2).
  pose proof (year_index_row year y df k ix Hk) as Hrow.
  exists r, (base r). split; [exact Hr|].
  split.
  { unfold Features.season. rewrite <- Hrow.
    rewrite <- (proj1 Hov), list_lookup_fmap, Hr. reflexivity. }
  split; [reflexivity|].
  split; [exact (proj1 (Forall_lookup _ _) (proj2 Hov) ix r Hr)|].
  split; [exact Hs|]. split; [exact Hp | exact Hp2].
Qed.

Lemma quality_back_season (df : list day) (y : Z) (k n : nat) :
  (k < length (year_index y (map year df)))%nat ->
  quality_back (build_streaks df) (year_index y (map year df)) k n =
  if bool_decide (n <= k)%nat
  then (fun d => classify_day_weather (row_of d)) <$>
         Features.season y df !! (k - n)%nat
  else None.
Proof.
  intros Hk. unfold quality_back. case_bool_decide as Hn; [|reflexivity].
  destruct (lookup_lt_is_Some_2 (year_index y (map year df)) (k - n)%nat)
    as [j Hj]; [lia|].
  rewrite Hj. simpl.
  destruct (rank_facts df y _ j Hj) as (r & d & Hr & Hd & Hb & Hq & _).
  unfold label_at. rewrite Hr, Hd. simpl. now rewrite Hq.
Qed.

Lemma counters_depend_on_season (df1 df2 : list day) (y : Z) :
  Features.season y df1 = Features.season y df2 ->
  forall k ix1 ix2,
    year_index y (map year df1) !! k = Some ix1 ->
    year_index y (map year df2) !! k = Some ix2 ->
    streaks_at (build_streaks df1) ix1 = streaks_at (build_streaks df2) ix2.
Proof.
  intros HS. induction k as [|k IH]; intros ix1 ix2 H1 H2;
    destruct (rank_facts df1 y _ ix1 H1) as (r1 & d1 & Hr1 & Hd1 & _ & Hq1 & Hs1 & _);
    destruct (rank_facts df2 y _ ix2 H2) as (r2 & d2 & Hr2 & Hd2 & _ & Hq2 & Hs2 & _);
    rewrite HS, Hd2 in Hd1; injection Hd1 as <-;
    unfold streaks_at; rewrite Hr1, Hr2, Hs1, Hs2, Hq1, Hq2; f_equal.
  simpl.
  destruct (lookup_lt_is_Some_2 (year_index y (map year df1)) k) as [j1 Hj1].
  { apply lookup_lt_Some in H1. lia. }
  destruct (lookup_lt_is_Some_2 (year_index y (map year df2)) k) as [j2 Hj2].
  { apply lookup_lt_Some in H2. lia. }
  rewrite Hj1, Hj2. exact (IH j1 j2 Hj1 Hj2).
Qed.

Lemma tagged_eta (r1 r2 : tagged) :
  base r1 = base r2 -> weather_quality r1 = weather_quality r2 ->
  (nice_streak r1, bad_streak r1) = (nice_streak r2, bad_streak r2) ->
  prev_day_quality r1 = prev_day_quality r2 ->
  prev_2day_quality r1 = prev_2day_quality r2 -> r1 = r2.
Proof.
  destruct r1, r2. simpl. intros -> -> [= -> ->] -> ->. reflexivity.
Qed.

(** X7.  The streak columns of a year depend on the rows of that year only:
    two tables with the same rows of year [y], in the same order, get the
    same tagged rows for year [y], whatever their other rows are. *)
Theorem streaks_depend_on_own_year (df1 df2 : list day) (y : Z) :
  Features.season y df1 = Features.season y df2 ->
  filter (fun r => year (base r) = y) (build_streaks df1) =
  filter (fun r => year (base r) = y) (build_streaks df2).
Proof.
  intros HS.
  assert (Hlook : forall df k,
            filter (fun r => year (base r) = y) (build_streaks df) !! k =
            ix ← year_index y (map year df) !! k; build_streaks df !! ix).
  { intros df k. destruct (build_streaks_spec df) as [Hov _].
    pose proof (tagged_over_years df _ Hov) as Hyears.
    destruct (year_index y (map year df) !! k) as [ix|] eqn:Hk; simpl.
    - rewrite <- Hyears in Hk.
      symmetry. exact (year_index_row (fun r => year (base r)) y _ k ix Hk).
    - apply lookup_ge_None. apply lookup_ge_None in Hk.
      rewrite <- Hyears in Hk. unfold year_index in Hk.
      rewrite (year_index_from_length (fun r => year (base r))) in Hk.
      exact Hk. }
  assert (Hlen : forall df, length (year_index y (map year df)) =
                            length (Features.season y df)).
  { intros df. apply (year_index_from_length year). }
  apply list_eq. intros k. rewrite !Hlook.
  destruct (year_index y (map year df1) !! k) as [ix1|] eqn:H1;
    destruct (year_index y (map year df2) !! k) as [ix2|] eqn:H2; simpl.
  - destruct (rank_facts df1 y _ ix1 H1)
      as (r1 & d1 & Hr1 & Hd1 & Hb1 & Hq1 & _ & Hp1 & Hpp1).
    destruct (rank_facts df2 y _ ix2 H2)
      as (r2 & d2 & Hr2 & Hd2 & Hb2 & Hq2 & _ & Hp2 & Hpp2).
    pose proof (counters_depend_on_season df1 df2 y HS k ix1 ix2 H1 H2) as Hc.
    unfold streaks_at in Hc. rewrite Hr1, Hr2 in Hc.
    rewrite Hr1, Hr2. f_equal.
    rewrite HS, Hd2 in Hd1. injection Hd1 as <-.
    apply tagged_eta; try congruence.
    + rewrite Hp1, Hp2.
      rewrite !quality_back_season by (eapply lookup_lt_Some; eassumption).
      now rewrite HS.
    + rewrite Hpp1, Hpp2.
      rewrite !quality_back_season by (eapply lookup_lt_Some; eassumption).
      now rewrite HS.
  - apply lookup_lt_Some in H1. apply lookup_ge_None in H2.
    rewrite Hlen in H1, H2. rewrite HS in H1. lia.
  - apply lookup_lt_Some in H2. apply lookup_ge_None in H1.
    rewrite Hlen in H1, H2. rewrite HS in H1. lia.
  - reflexivity.
Qed.

Lemma streaks_depend_on_own_year_witness :
  filter (fun r => year (base r) = 2025%Z) (build_streaks Samples.two_seasons) =
  filter (fun r => year (base r) = 2025%Z)
         (build_streaks (drop 2 Samples.two_seasons)).
Proof.
  apply (streaks_depend_on_own_year Samples.two_seasons
           (drop 2 Samples.two_seasons) 2025).
  reflexivity.
Defined.

End StreakInvariants.

(** ** Loading and feature engineering *)

Section LoadFacts.
Import Py Classifier Frame Momentum Features.

Lemma filter_all {A} (P : A -> Prop) `{!forall x, Decision (P x)} (l : list A) :
  Forall P l -> filter P l = l.
Proof.
  induction 1 as [|x l Hx _ IH]; [reflexivity|].
  rewrite filter_cons. destruct (decide (P x)); [|contradiction].
  now rewrite IH.
Qed.

(** X8.  [load_data] returns exactly the rows of the full years 2021-2025
    whose [dow] is below 6, each as often as the file holds it, in date
    order; loading its own result changes nothing. *)
Theorem load_data_selects_and_sorts (csv : list day) :
  load_data csv ≡ₚ
    filter (fun d => (dow d < 6)%Z /\ year d ∈ full_years) csv /\
  date_sorted (load_data csv) /\
  load_data (load_data csv) = load_data csv.
Proof.
  assert (Hp : load_data csv ≡ₚ
            filter (fun d => (dow d < 6)%Z /\ year d ∈ full_years) csv).
  { unfold load_data, sort_values_date. rewrite sort_values_perm.
    now rewrite list_filter_filter. }
  assert (Hs : date_sorted (load_data csv)) by apply sort_values_sorted.
  split; [exact Hp|]. split; [exact Hs|].
  rewrite (load_data_sorted _ Hs).
  assert (Hall : Forall (fun d => (dow d < 6)%Z /\ year d ∈ full_years)
                        (load_data csv)).
  { apply Forall_forall. intros d Hd. rewrite Hp in Hd.
    now apply list_elem_of_filter in Hd as [Hd _]. }
  rewrite (filter_all (fun d => year d ∈ full_years)).
  - apply filter_all. eapply Forall_impl; [exact Hall|]. now intros d [H _].
  - eapply Forall_impl; [exact Hall|]. now intros d [_ H].
Qed.

(** Writing a series into one of the rolling columns leaves every other
    column as it is. *)
Lemma assign_keeps {X} (p : featured -> X) (set : featured -> num -> featured) :
  (forall r v, p (set r v) = p r) ->
  forall idx vals f, map p (assign set idx vals f) = map p f.
Proof.
  intros Hset idx vals. unfold assign.
  induction (zip idx vals) as [|[i v] ivs IH]; intros f; simpl; [reflexivity|].
  rewrite IH.
  rewrite (list_fmap_alter p _ (fun d => d)).
  - now apply list_alter_id.
  - apply Forall_true. intros r. apply Hset.
Qed.

Lemma engineer_features_keeps {X} (p : featured -> X) (df : list day) :
  (forall r v, p (set_temp_max_3d_avg r v) = p r) ->
  (forall r v, p (set_sunshine_3d_avg r v) = p r) ->
  map p (engineer_features df) = map p (map flag_row (sort_values_date df)).
Proof.
  intros Ht Hs. unfold engineer_features.
  generalize (unique (map year (sort_values_date df))).
  generalize (map flag_row (sort_values_date df)).
  intros f ys. revert f.
  induction ys as [|y ys IH]; intros f; simpl; [reflexivity|].
  rewrite IH. unfold roll_year.
  rewrite (assign_keeps p _ Hs). apply (assign_keeps p _ Ht).
Qed.

(** X9.  [engineer_features] only adds columns: its rows are the rows of the
    input, each once, in date order, and on every row the three weather
    flags and the year trend are the ones computed from that row's own
    cells. *)
Theorem engineer_features_keeps_rows (df : list day) :
  map fbase (engineer_features df) ≡ₚ df /\
  date_sorted (map fbase (engineer_features df)) /\
  Forall (fun r =>
            is_snow r =
              as_int (gt (fillna0 (snowfall_in (fbase r))) (5 # 100)
                      || gt (fillna0 (snow_depth (fbase r))) (5 # 10)) /\
            is_rainy r = as_int (gt (fillna0 (rain_in (fbase r))) (1 # 10)) /\
            is_sunny r = as_int (ge (fillna0 (sunshine_hrs (fbase r))) 8) /\
            year_trend r = (year (fbase r) - 2021)%Z)
         (engineer_features df).
Proof.
  destruct (engineer_features_spec df) as [Hb _]. cbv zeta in Hb.
  split; [rewrite Hb; apply sort_values_perm|].
  split; [rewrite Hb; apply sort_values_sorted|].
  pose proof (engineer_features_keeps
                (fun r => (fbase r, is_snow r, is_rainy r, is_sunny r,
                           year_trend r)) df
                (fun _ _ => eq_refl) (fun _ _ => eq_refl)) as Hk.
  apply Forall_lookup. intros i r Hr.
  assert (Hi : map (fun r => (fbase r, is_snow r, is_rainy r, is_sunny r,
                              year_trend r)) (engineer_features df) !! i =
               Some (fbase r, is_snow r, is_rainy r, is_sunny r, year_trend r)).
  { change (map ?f ?l) with (f <$> l). now rewrite list_lookup_fmap, Hr. }
  rewrite Hk in Hi.
  change (map ?f (map ?g ?l)) with (f <$> (g <$> l)) in Hi.
  rewrite !list_lookup_fmap in Hi.
  destruct (sort_values_date df !! i) as [d|]; [|discriminate].
  simpl in Hi. injection Hi as <- -> -> -> ->. repeat split; reflexivity.
Qed.

Lemma gt_mono (x : num) (c c' : Q) :
  (c' <= c)%Q -> gt x c = true -> gt x c' = true.
Proof.
  intros Hc. destruct x as [|q]; simpl; [discriminate|].
  destruct (q ?= c)%Q eqn:H1; try discriminate. intros _.
  apply Qgt_alt in H1.
  assert (H2 : (c' < q)%Q) by (eapply Qle_lt_trans; eassumption).
  now rewrite (proj1 (Qgt_alt q c') H2).
Qed.

(** On a table cell [x or 0] and [fillna(0)] pass the same [>] and [>=]
    tests against a positive literal. *)
Lemma gt_or_cell (x : num) (c : Q) :
  (0 <= c)%Q -> gt (or_ (PyFloat x) 0) c = gt (fillna0 x) c.
Proof.
  intros Hc. destruct x as [|q]; simpl.
  - destruct (0 ?= c)%Q eqn:H; try reflexivity.
    apply Qgt_alt in H. exfalso. apply (Qlt_irrefl 0%Q).
    eapply Qle_lt_trans; eassumption.
  - destruct (Qeq_bool q 0) eqn:Hz; simpl; [|reflexivity].
    apply Qeq_bool_eq in Hz. now rewrite (Qcompare_comp q 0%Q Hz c c (Qeq_refl c)).
Qed.

Lemma ge_or_cell (x : num) (c : Q) :
  (0 < c)%Q -> ge (or_ (PyFloat x) 0) c = ge (fillna0 x) c.
Proof.
  intros Hc. destruct x as [|q]; simpl.
  - now rewrite (proj1 (Qlt_alt 0%Q c) Hc).
  - destruct (Qeq_bool q 0) eqn:Hz; simpl; [|reflexivity].
    apply Qeq_bool_eq in Hz. now rewrite (Qcompare_comp q 0%Q Hz c c (Qeq_refl c)).
Qed.

Lemma condition_of_table_row (d : day) :
  classify_weather_condition (row_of d) =
  if gt (fillna0 (snowfall_in d)) (1 # 10) || gt (fillna0 (snow_depth d)) 1
  then Snow
  else if gt (fillna0 (rain_in d)) (25 # 100) then Rain
  else if gt (fillna0 (rain_in d)) (5 # 100) then LightRain
  else if ge (fillna0 (sunshine_hrs d)) 8 then Sunny
  else if ge (fillna0 (sunshine_hrs d)) 4 then PartlyCloudy
  else CloudyOvercast.
Proof.
  unfold classify_weather_condition.
  change (get (row_of d) "snowfall_in" 0) with (PyFloat (snowfall_in d)).
  change (get (row_of d) "snow_depth" 0) with (PyFloat (snow_depth d)).
  change (get (row_of d) "rain_in" 0) with (PyFloat (rain_in d)).
  change (get (row_of d) "sunshine_hrs" 0) with (PyFloat (sunshine_hrs d)).
  cbv zeta.
  rewrite !gt_or_cell by discriminate.
  rewrite !ge_or_cell by reflexivity.
  reflexivity.
Qed.

(** X10.  The model's weather flags agree with the report's labels on every
    table row: a day labelled Snow has [is_snow = 1], a day labelled Rain
    has [is_rainy = 1], a rainy-flagged day is labelled Snow, Rain or Light
    Rain, and a day is labelled Sunny exactly when [is_sunny = 1] and none
    of the snow and rain labels applies. *)
Theorem flags_agree_with_labels (d : day) :
  let c := classify_weather_condition (row_of d) in
  let r := flag_row d in
  (c = Snow -> is_snow r = 1%Z) /\
  (c = Rain -> is_rainy r = 1%Z) /\
  (is_rainy r = 1%Z -> c = Snow \/ c = Rain \/ c = LightRain) /\
  (c = Sunny <->
   is_sunny r = 1%Z /\ c <> Snow /\ c <> Rain /\ c <> LightRain).
Proof.
  cbv zeta. rewrite condition_of_table_row. unfold flag_row. simpl.
  pose proof (gt_mono (fillna0 (snowfall_in d)) (1 # 10) (5 # 100)) as Hsf.
  pose proof (gt_mono (fillna0 (snow_depth d)) 1 (5 # 10)) as Hsd.
  pose proof (gt_mono (fillna0 (rain_in d)) (25 # 100) (1 # 10)) as Hr1.
  pose proof (gt_mono (fillna0 (rain_in d)) (1 # 10) (5 # 100)) as Hr2.
  destruct (gt (fillna0 (snowfall_in d)) (1 # 10)) eqn:E1;
    destruct (gt (fillna0 (snow_depth d)) 1) eqn:E2;
    destruct (gt (fillna0 (rain_in d)) (25 # 100)) eqn:E3;
    destruct (gt (fillna0 (rain_in d)) (1 # 10)) eqn:E4;
    destruct (gt (fillna0 (rain_in d)) (5 # 100)) eqn:E5;
    destruct (ge (fillna0 (sunshine_hrs d)) 8) eqn:E6;
    destruct (ge (fillna0 (sunshine_hrs d)) 4) eqn:E7;
    try rewrite (Hsf ltac:(discriminate) eq_refl);
    try rewrite (Hsd ltac:(discriminate) eq_refl);
    try (specialize (Hr1 ltac:(discriminate) eq_refl); discriminate);
    try (specialize (Hr2 ltac:(discriminate) eq_refl); discriminate);
    simpl; rewrite ?orb_true_r; simpl;
    repeat split; intros; try discriminate; try reflexivity; try tauto;
    try (intuition discriminate).
Qed.

Lemma window3_holds_own (xs : list num) (k : nat) (x : num) :
  xs !! k = Some x -> x ∈ window3 xs k.
Proof.
  intros Hx. unfold window3. apply list_elem_of_lookup.
  exists (k - (k - 2))%nat. rewrite lookup_drop.
  replace (k - 2 + (k - (k - 2)))%nat with k by lia.
  rewrite lookup_take_lt by lia. exact Hx.
Qed.

Lemma mean_min1_observed (w : list num) (q : Q) :
  Fin q ∈ w -> is_nan (mean_min1 w) = false.
Proof.
  intros Hq. unfold mean_min1.
  assert (Hin : q ∈ observed w).
  { apply list_elem_of_omap. exists (Fin q). split; [exact Hq | reflexivity]. }
  destruct (observed w) as [|o obs]; [inversion Hin|].
  rewrite bool_decide_eq_true_2 by (simpl; lia). reflexivity.
Qed.

(** A row with its own temperature and sunshine has both rolling averages. *)
Lemma rolling_defined_at (df : list day) (ix : nat) (r : featured) :
  engineer_features df !! ix = Some r ->
  observed_weather (fbase r) = true ->
  is_nan (temp_max_3d_avg r) = false /\ is_nan (sunshine_3d_avg r) = false.
Proof.
  intros Hr Hobs. destruct (engineer_features_spec df) as [Hb Hroll].
  cbv zeta in Hb, Hroll. set (s := sort_values_date df) in *.
  assert (Hs : s !! ix = Some (fbase r)).
  { rewrite <- Hb. change (map ?f ?l) with (f <$> l).
    now rewrite list_lookup_fmap, Hr. }
  assert (Hy : map year s !! ix = Some (year (fbase r))).
  { change (map ?f ?l) with (f <$> l). now rewrite list_lookup_fmap, Hs. }
  assert (Hin : year (fbase r) ∈ map year s).
  { apply list_elem_of_lookup. eauto. }
  apply year_index_elem, list_elem_of_lookup in Hy as [k Hk].
  destruct (Hroll _ Hin k ix Hk) as (r' & Hr' & Ht & Hsun).
  rewrite Hr in Hr'. injection Hr' as <-.
  pose proof (year_index_row year _ s k ix Hk) as Hrow.
  rewrite Hs in Hrow. fold (season (year (fbase r)) s) in Hrow.
  unfold observed_weather in Hobs. apply andb_true_iff in Hobs as [Ho1 Ho2].
  rewrite Ht, Hsun. split.
  - destruct (temp_max (fbase r)) as [|q] eqn:Hq; [discriminate|].
    apply (mean_min1_observed _ q), window3_holds_own.
    change (map ?f ?l) with (f <$> l).
    now rewrite list_lookup_fmap, <- Hrow, <- Hq.
  - destruct (sunshine_hrs (fbase r)) as [|q] eqn:Hq; [discriminate|].
    apply (mean_min1_observed _ q), window3_holds_own.
    change (map ?f ?l) with (f <$> l).
    now rewrite list_lookup_fmap, <- Hrow, <- Hq.
Qed.

(** X11.  No row that reaches a model lacks a rolling average: in the
    training table of [build_prediction_model] (rows without temperature or
    sunshine dropped after the averages are computed) and in the table of
    [run_holdout_validation] (dropped before), every row has a number in
    temp_max_3d_avg and in sunshine_3d_avg. *)
Theorem model_rows_have_rolling_averages (daily_weather : list day) :
  Forall (fun r => is_nan (temp_max_3d_avg r) = false /\
                   is_nan (sunshine_3d_avg r) = false)
         (Trainer.training_table daily_weather) /\
  Forall (fun r => is_nan (temp_max_3d_avg r) = false /\
                   is_nan (sunshine_3d_avg r) = false)
         (Holdout.prepared daily_weather).
Proof.
  split; apply Forall_forall; intros r Hr.
  - unfold Trainer.training_table in Hr.
    apply list_elem_of_filter in Hr as [Hobs Hr].
    apply list_elem_of_lookup in Hr as [ix Hix].
    apply (rolling_defined_at _ ix r Hix). now apply Is_true_true.
  - unfold Holdout.prepared in Hr.
    apply list_elem_of_lookup in Hr as [ix Hix].
    apply (rolling_defined_at _ ix r Hix).
    assert (Hin : fbase r ∈ map fbase (engineer_features
              (filter (fun d => observed_weather d)
                 (filter (fun d => year d ∈ full_years) daily_weather)))).
    { apply list_elem_of_lookup. exists ix.
      change (map ?f ?l) with (f <$> l). now rewrite list_lookup_fmap, Hix. }
    rewrite (proj1 (engineer_features_spec _)) in Hin.
    unfold sort_values_date in Hin. rewrite sort_values_perm in Hin.
    apply list_elem_of_filter in Hin as [Hobs _]. now apply Is_true_true.
Qed.

End LoadFacts.

(** ** Grouping keeps every row *)

Section GroupingFacts.
Import Py Classifier Frame Features Leads Metrics Holdout.

Section AnyKey.
Context {A K : Type} `{EqDecision K} (key : A -> K).

Lemma bind_filter_skip (x : A) (l : list A) (ks : list K) :
  key x ∉ ks ->
  ks ≫= (fun k => filter (fun r => key r = k) (x :: l)) =
  ks ≫= (fun k => filter (fun r => key r = k) l).
Proof.
  induction ks as [|k ks IH]; intros Hx; [reflexivity|].
  apply not_elem_of_cons in Hx as [Hne Hx].
  rewrite !bind_cons, (IH Hx). now rewrite filter_cons_False by congruence.
Qed.

Lemma bind_filter_take (x : A) (l : list A) (ks : list K) :
  NoDup ks -> key x ∈ ks ->
  ks ≫= (fun k => filter (fun r => key r = k) (x :: l)) ≡ₚ
  x :: ks ≫= (fun k => filter (fun r => key r = k) l).
Proof.
  induction ks as [|k ks IH]; intros Hnd Hx; [inversion Hx|].
  apply NoDup_cons in Hnd as [Hk Hnd]. rewrite !bind_cons.
  destruct (decide (key x = k)) as [Heq|Hne].
  - rewrite filter_cons_True by exact Heq.
    rewrite bind_filter_skip by (rewrite Heq; exact Hk). reflexivity.
  - rewrite filter_cons_False by exact Hne.
    apply elem_of_cons in Hx as [Hx|Hx]; [contradiction|].
    rewrite (IH Hnd Hx). now rewrite Permutation_middle.
Qed.

(** The groups of distinct keys that cover the table hold every row once. *)
Lemma bind_filter_partition (l : list A) (ks : list K) :
  NoDup ks -> (forall x, x ∈ l -> key x ∈ ks) ->
  ks ≫= (fun k => filter (fun r => key r = k) l) ≡ₚ l.
Proof.
  intros Hnd. induction l as [|x l IH]; intros Hcov.
  - clear Hnd Hcov. induction ks as [|k ks IH]; [reflexivity|].
    now rewrite bind_cons, IH.
  - rewrite bind_filter_take;
      [|exact Hnd | apply Hcov; now left].
    rewrite IH; [reflexivity|]. intros z Hz. apply Hcov. now right.
Qed.

End AnyKey.

Context {A : Type} (key : A -> Z).

Lemma bind_perm_pointwise {B C} (f g : B -> list C) (l : list B) :
  (forall x, f x ≡ₚ g x) -> l ≫= f ≡ₚ l ≫= g.
Proof.
  intros Hfg. induction l as [|x l IH]; [reflexivity|].
  now rewrite !bind_cons, Hfg, IH.
Qed.

Lemma groupby_partition (l : list A) :
  groupby key l ≫= snd ≡ₚ l.
Proof.
  unfold groupby.
  etransitivity;
    [|apply (bind_filter_partition key l (group_keys (map key l)))].
  - generalize (group_keys (map key l)). intros ks.
    change (map ?f ?l) with (f <$> l).
    induction ks as [|k ks IH]; [reflexivity|].
    rewrite fmap_cons, !bind_cons. simpl. now rewrite IH.
  - apply group_keys_NoDup.
  - intros x Hx. apply group_keys_member. now apply list_elem_of_fmap_2.
Qed.

Lemma Zsum_app (a b : list Z) : Zsum (a ++ b) = (Zsum a + Zsum b)%Z.
Proof. induction a as [|x a IH]; simpl; [reflexivity|]. rewrite IH. lia. Qed.

Lemma Zsum_perm (a b : list Z) : a ≡ₚ b -> Zsum a = Zsum b.
Proof. induction 1; simpl; lia. Qed.

Lemma groupby_sum_Z (f : A -> Z) (h : Z * list A -> Z) (l : list A) :
  (forall g, h g = Zsum (map f (snd g))) ->
  Zsum (map h (groupby key l)) = Zsum (map f l).
Proof.
  intros Hh. transitivity (Zsum (f <$> (groupby key l ≫= snd))).
  - generalize (groupby key l). intros gs.
    induction gs as [|g gs IH]; [reflexivity|].
    rewrite bind_cons, fmap_app, Zsum_app, <- IH. simpl. now rewrite Hh.
  - apply Zsum_perm, fmap_Permutation, groupby_partition.
Qed.

Lemma groupby_sum_nat (h : Z * list A -> nat) (l : list A) :
  (forall g, h g = length (snd g)) ->
  sum_list (map h (groupby key l)) = length l.
Proof.
  intros Hh. transitivity (length (groupby key l ≫= snd)).
  - generalize (groupby key l). intros gs.
    induction gs as [|g gs IH]; [reflexivity|].
    rewrite bind_cons, length_app, <- IH. simpl. now rewrite Hh.
  - apply Permutation_length, groupby_partition.
Qed.

End GroupingFacts.

Section ConservationFacts.
Import Py Classifier Frame Features Leads Metrics Holdout.

Lemma count_key_present (keys : list Z) (k : Z) :
  k ∈ keys -> (1 <= count_key k keys)%Z.
Proof.
  intros Hk. unfold count_key.
  assert (Hin : k ∈ filter (fun x => x = k) keys).
  { apply list_elem_of_filter. split; [reflexivity | exact Hk]. }
  destruct (filter _ keys); [inversion Hin | simpl; lia].
Qed.

Lemma group_sizes_total (keys : list Z) :
  Zsum (map snd (group_sizes keys)) = Z.of_nat (length keys).
Proof.
  unfold group_sizes.
  transitivity (Z.of_nat (length (group_keys keys ≫=
                   (fun k => filter (fun x => x = k) keys)))).
  - generalize (group_keys keys). intros ks.
    induction ks as [|k ks IH]; [reflexivity|].
    rewrite bind_cons, length_app, Nat2Z.inj_add, <- IH. reflexivity.
  - f_equal. apply Permutation_length.
    apply (bind_filter_partition (fun k => k) keys (group_keys keys)).
    + apply group_keys_NoDup.
    + intros x Hx. now apply group_keys_member.
Qed.

(** X12.  [aggregate_daily] counts every lead once: the daily table has one
    row for each date that has a lead and no other, in strictly ascending
    date order; a row's total is the number of leads of its date, at least
    1; and the totals add up to the number of leads. *)
Theorem aggregate_daily_counts_every_lead (str_upper : string -> string)
    (df : list lead) :
  let daily := aggregate_daily str_upper df in
  StronglySorted (fun a b => (d_date a < d_date b)%Z) daily /\
  (forall k, k ∈ map d_date daily <-> k ∈ map lead_date df) /\
  Forall (fun r => d_total_leads r = count_key (d_date r) (map lead_date df) /\
                   (1 <= d_total_leads r)%Z) daily /\
  Zsum (map d_total_leads daily) = Z.of_nat (length df).
Proof.
  cbv zeta. unfold aggregate_daily.
  set (mk := fun p : Z * Z => mk_daily (fst p) (snd p) _ _).
  set (keys := map lead_date df).
  assert (Hdates : map d_date (map mk (group_sizes keys)) = group_keys keys).
  { unfold group_sizes. change (map ?f ?l) with (f <$> l).
    rewrite <- !list_fmap_compose. apply list_fmap_id. }
  assert (Hperm : map d_date (sort_values d_date (map mk (group_sizes keys)))
                  ≡ₚ group_keys keys).
  { rewrite <- Hdates. apply fmap_Permutation, sort_values_perm. }
  split; [|split; [|split]].
  - apply sorted_by_strict; [apply sort_values_sorted|].
    rewrite Hperm. apply group_keys_NoDup.
  - intros k. rewrite Hperm. apply group_keys_member.
  - apply Forall_forall. intros r Hr. rewrite sort_values_perm in Hr.
    apply list_elem_of_fmap in Hr as ([k n] & -> & Hp). simpl.
    unfold group_sizes in Hp.
    apply list_elem_of_fmap in Hp as (k' & [= -> ->] & Hk').
    split; [reflexivity|]. apply count_key_present.
    now apply group_keys_member.
  - rewrite (Zsum_perm _ (map d_total_leads (map mk (group_sizes keys)))).
    + replace (map d_total_leads (map mk (group_sizes keys)))
        with (map snd (group_sizes keys)).
      * rewrite group_sizes_total. unfold keys. now rewrite length_map.
      * change (map ?f ?l) with (f <$> l).
        now rewrite <- list_fmap_compose.
    + apply fmap_Permutation, sort_values_perm.
Qed.

Lemma quality_lengths {T} (q : T -> quality) (l : list T) :
  (length (filter (fun r => q r = bad) l)
   + (length (filter (fun r => q r = nice) l)
      + length (filter (fun r => q r = ok) l)))%nat = length l.
Proof.
  induction l as [|x l IH]; [reflexivity|].
  rewrite !filter_cons.
  destruct (q x); repeat (destruct (decide _); try discriminate; try congruence);
    simpl; lia.
Qed.

(** X13.  The tables of [run_holdout_validation] that count days count
    every test day once: the day counts of the weekly table and those of
    the weather-quality table each add up to the number of test rows, and
    the weekly actual totals add up to the season's actual total. *)
Theorem holdout_tables_cover_test_days
    (fit : list (list Q) -> list Z -> list Q -> Q)
    (r2_score : list Z -> list Q -> Q) (csv : list day) :
  let rep := run_holdout_validation fit r2_score csv in
  let n := length (test_partition csv) in
  sum_list (map w_days (r_weekly rep)) = n /\
  sum_list (map (a_count quality) (r_quality rep)) = n /\
  Zsum (map w_actual_total (r_weekly rep)) = r_total_actual rep.
Proof.
  cbv zeta. unfold run_holdout_validation. simpl.
  set (model := fit _ _).
  set (twp := map _ (test_partition csv)).
  assert (Hlen : length twp = length (test_partition csv))
    by apply length_map.
  split; [|split].
  - rewrite map_map, <- Hlen. now apply groupby_sum_nat.
  - rewrite <- Hlen, <- (quality_lengths scored_quality twp).
    unfold quality_keys. simpl.
    repeat match goal with
           | |- context [bool_decide (?l = [])] =>
               let E := fresh "E" in
               destruct (decide (l = [])) as [E|E];
               [ rewrite E, bool_decide_eq_true_2 by reflexivity
               | rewrite bool_decide_eq_false_2 by exact E ]
           end; simpl; lia.
  - rewrite map_map.
    rewrite (groupby_sum_Z _ actual) by (intros g; reflexivity).
    unfold twp. rewrite map_map. reflexivity.
Qed.

End ConservationFacts.

(** ** The season window *)

Section SeasonWindowFacts.
Import SeasonWindow.

Lemma in_window_day_of_season (t : timestamp) :
  calendar_date t ->
  in_window t = true <->
  (0 <= day_of_season t <= last_day_of_season (ts_year t))%Z.
Proof.
  destruct t as [y m d]. unfold calendar_date, in_window, day_of_season,
    day_of_year, last_day_of_season. simpl.
  intros [Hm Hd].
  rewrite andb_true_iff, !Z.leb_le.
  assert (Hcases : (m = 1 \/ m = 2 \/ m = 3 \/ m = 4 \/ m = 5 \/ m = 6 \/
                    m = 7 \/ m = 8 \/ m = 9 \/ m = 10 \/ m = 11 \/ m = 12)%Z)
    by lia.
  unfold days_in_month in *.
  destruct (is_leap_year y);
    repeat (destruct Hcases as [->|Hcases]; [simpl in *; lia|]);
    subst m; simpl in *; lia.
Qed.

(** X14.  On calendar dates [filter_season] keeps exactly the leads whose
    date lies 0 to 84 days after February 15 of its year (0 to 85 in a leap
    year), so that [day_of_season], which [aggregate_daily] computes from
    the kept dates, stays within that range. *)
Theorem filter_season_day_range {A} (date_of : A -> timestamp) (df : list A) :
  Forall (fun r => calendar_date (date_of r)) df ->
  forall r,
    r ∈ filter_season date_of df <->
    r ∈ df /\
    (0 <= day_of_season (date_of r)
       <= last_day_of_season (ts_year (date_of r)))%Z.
Proof.
  intros Hcal r. unfold filter_season. rewrite list_elem_of_filter.
  split.
  - intros [Hw Hr]. split; [exact Hr|].
    apply in_window_day_of_season; [|exact Hw].
    exact (proj1 (Forall_forall _ _) Hcal r Hr).
  - intros [Hr Hd]. split; [|exact Hr].
    apply in_window_day_of_season; [|exact Hd].
    exact (proj1 (Forall_forall _ _) Hcal r Hr).
Qed.

Example filter_season_2024 :
  map day_of_season
      (filter_season (fun t => t)
         [ mk_timestamp 2024 2 14; mk_timestamp 2024 2 15;
           mk_timestamp 2024 2 29; mk_timestamp 2024 3 1;
           mk_timestamp 2024 5 10; mk_timestamp 2024 5 11;
           mk_timestamp 2025 5 10; mk_timestamp 2025 12 1 ]) =
  [0; 14; 15; 85; 84]%Z.
Proof. vm_compute. reflexivity. Qed.

Lemma filter_season_day_range_witness :
  Forall (fun r => calendar_date r)
         [mk_timestamp 2024 5 10; mk_timestamp 2024 5 11] /\
  (mk_timestamp 2024 5 10 ∈
     filter_season (fun t => t)
       [mk_timestamp 2024 5 10; mk_timestamp 2024 5 11] <->
   mk_timestamp 2024 5 10 ∈ [mk_timestamp 2024 5 10; mk_timestamp 2024 5 11] /\
   (0 <= day_of_season (mk_timestamp 2024 5 10)
      <= last_day_of_season 2024)%Z).
Proof.
  assert (Hcal : Forall (fun r => calendar_date r)
                   [mk_timestamp 2024 5 10; mk_timestamp 2024 5 11]).
  { repeat constructor; vm_compute; congruence. }
  split; [exact Hcal|].
  exact (filter_season_day_range (fun t => t) _ Hcal (mk_timestamp 2024 5 10)).
Defined.

End SeasonWindowFacts.

(** ** Season phases *)

Section SeasonalFacts.
Import Py Classifier Frame Features Metrics Seasonal.

Lemma phase_of_cases (dos : Z) :
  (phase_of dos = Early /\ (dos < 14)%Z) \/
  (phase_of dos = Ramp /\ (14 <= dos < 30)%Z) \/
  (phase_of dos = Peak /\ (30 <= dos < 60)%Z) \/
  (phase_of dos = Tail /\ (60 <= dos)%Z).
Proof.
  unfold phase_of. simpl.
  destruct (Z.ltb_spec dos 14); [tauto|].
  destruct (Z.leb_spec 14 dos); [|lia]. simpl.
  destruct (Z.ltb_spec dos 30); [right; left; split; [reflexivity | lia]|].
  destruct (Z.leb_spec 30 dos); [|lia]. simpl.
  destruct (Z.ltb_spec dos 60); [right; right; left; split; [reflexivity | lia]|].
  destruct (Z.leb_spec 60 dos); [|lia].
  right; right; right. split; [reflexivity | lia].
Qed.

Lemma filter_none {A} (P : A -> Prop) `{!forall x, Decision (P x)} (l : list A) :
  Forall (fun x => ~ P x) l -> filter P l = [].
Proof.
  induction 1 as [|x l Hx _ IH]; [reflexivity|].
  rewrite filter_cons. destruct (decide (P x)); [contradiction | exact IH].
Qed.

Lemma reported_subset_length (wd : list phased) (ph : phase) (q : quality) :
  length (filter (in_reported_subset wd) (weather_subset wd ph q)) =
  reported_count wd ph q.
Proof.
  unfold reported_count.
  assert (Hall : Forall (fun r => season_phase r = ph /\ weather_quality_of r = q)
                        (weather_subset wd ph q)).
  { apply Forall_forall. intros r Hr. unfold weather_subset in Hr.
    apply list_elem_of_filter in Hr as [Hq Hr].
    apply list_elem_of_filter in Hr as [Hp _]. now split. }
  case_bool_decide as Hn.
  - rewrite filter_all; [reflexivity|].
    eapply Forall_impl; [exact Hall|]. intros r [Hp Hq].
    unfold in_reported_subset. rewrite Hp, Hq. exact Hn.
  - rewrite filter_none; [reflexivity|].
    eapply Forall_impl; [exact Hall|]. intros r [Hp Hq] Hr.
    unfold in_reported_subset in Hr. rewrite Hp, Hq in Hr. contradiction.
Qed.

Lemma reported_subsets_length (wd : list phased) (phs : list phase)
    (qs : list quality) :
  length (filter (in_reported_subset wd)
            (phs ≫= fun ph => qs ≫= fun q => weather_subset wd ph q)) =
  sum_list (map (fun ph => sum_list (map (reported_count wd ph) qs)) phs).
Proof.
  induction phs as [|ph phs IH]; [reflexivity|].
  rewrite bind_cons, filter_app, length_app, IH. simpl. f_equal.
  clear IH. induction qs as [|q qs IH]; [reflexivity|].
  rewrite bind_cons, filter_app, length_app, IH, reported_subset_length.
  reflexivity.
Qed.

Lemma sum_list_app (a b : list nat) :
  sum_list (a ++ b) = (sum_list a + sum_list b)%nat.
Proof. induction a as [|x a IH]; simpl; [reflexivity|]. rewrite IH. lia. Qed.

Lemma table_counts (mk : phase -> phase_result) (cnt : phase -> nat)
    (phs : list phase) :
  (forall ph, sum_list (map we_count (pr_weather_effects (mk ph))) = cnt ph) ->
  sum_list (map we_count (map mk phs ≫= pr_weather_effects)) =
  sum_list (map cnt phs).
Proof.
  intros Hmk. induction phs as [|ph phs IH]; [reflexivity|].
  simpl map at 2 3. rewrite bind_cons.
  change (map we_count ?l) with (we_count <$> l) in *.
  rewrite fmap_app, sum_list_app, IH, Hmk. reflexivity.
Qed.

(** X15.  [define_season_phases] gives every day one of the four phases,
    never 'Unknown'; the twelve subsets of [analyze_weather_by_phase], one
    for each phase and weather quality, hold every weekday exactly once; and
    the day counts in its result add up to the number of weekdays that lie
    in a subset of at least three days. *)
Theorem phase_table_covers_weekdays (round1 : Q -> Q) (df : list day) :
  let tbl := define_season_phases df in
  let wd := weekdays_of tbl in
  Forall (fun r => season_phase r <> Unknown) tbl /\
  (phases ≫= fun ph => [nice; ok; bad] ≫= fun q => weather_subset wd ph q)
    ≡ₚ wd /\
  sum_list (map we_count
              (analyze_weather_by_phase round1 tbl ≫= pr_weather_effects)) =
  length (filter (in_reported_subset wd) wd).
Proof.
  cbv zeta.
  assert (Hph : Forall (fun r => season_phase r <> Unknown)
                       (define_season_phases df)).
  { apply Forall_forall. intros r Hr. unfold define_season_phases in Hr.
    apply list_elem_of_fmap in Hr as (d & -> & _). simpl.
    destruct (phase_of_cases (day_of_season d)) as [[-> _]|[[-> _]|[[-> _]|[-> _]]]];
      discriminate. }
  set (wd := weekdays_of (define_season_phases df)).
  assert (Hpart : (phases ≫= fun ph => [nice; ok; bad] ≫= fun q =>
                     weather_subset wd ph q) ≡ₚ wd).
  { etransitivity;
      [|apply (bind_filter_partition season_phase wd phases)].
    - unfold phases.
      assert (Hin : forall ph,
                ([nice; ok; bad] ≫= fun q => weather_subset wd ph q) ≡ₚ
                filter (fun r => season_phase r = ph) wd).
      { intros ph. unfold weather_subset.
        apply (bind_filter_partition weather_quality_of).
        - distinct_labels.
        - intros r _. destruct (weather_quality_of r);
            apply list_elem_of_In; simpl; tauto. }
      now apply bind_perm_pointwise.
    - unfold phases. distinct_labels.
    - intros r Hr. unfold wd, weekdays_of in Hr.
      apply list_elem_of_filter in Hr as [_ Hr].
      pose proof (proj1 (Forall_forall _ _) Hph r Hr) as Hne.
      unfold phases. destruct (season_phase r) eqn:E;
        try (apply list_elem_of_In; simpl; tauto). congruence. }
  split; [exact Hph|]. split; [exact Hpart|].
  unfold analyze_weather_by_phase. cbv zeta. fold wd.
  rewrite (table_counts _
             (fun ph => sum_list (map (reported_count wd ph) [nice; ok; bad]))).
  - rewrite <- reported_subsets_length.
    apply Permutation_length. now rewrite Hpart.
  - intros ph. simpl. unfold reported_count.
    repeat case_bool_decide; simpl; lia.
Qed.

Lemma three_way_split {A} (a b : A -> bool) (l : list A) :
  (forall r, a r = true -> b r = false) ->
  filter (fun r => a r = true) l ++
  filter (fun r => negb (a r) && negb (b r) = true) l ++
  filter (fun r => b r = true) l ≡ₚ l.
Proof.
  intros Hex. induction l as [|x l IH]; [reflexivity|].
  rewrite !filter_cons. pose proof (Hex x) as Hx.
  destruct (a x) eqn:Ha; destruct (b x) eqn:Hb; simpl;
    repeat (destruct (decide _) as [?|?];
            try discriminate; try congruence); simpl.
  - specialize (Hx eq_refl). discriminate.
  - now rewrite IH.
  - rewrite <- !Permutation_middle. now rewrite IH.
  - rewrite <- Permutation_middle. now rewrite IH.
Qed.

Lemma above_not_below (x : num) : gt x 5 = true -> lt x (-5) = false.
Proof.
  destruct x as [|q]; simpl; [reflexivity|].
  destruct (q ?= 5)%Q eqn:H5; try discriminate. intros _.
  apply Qgt_alt in H5.
  destruct (q ?= -5)%Q eqn:Hm; try reflexivity.
  apply Qlt_alt in Hm. exfalso.
  apply (Qlt_irrefl q). eapply Qlt_trans; [exact Hm|].
  eapply Qlt_trans; [|exact H5]. reflexivity.
Qed.

Lemma zero_is_normal (x : Q) :
  (x == 0)%Q -> gt (Fin x) 5 = false /\ lt (Fin x) (-5) = false.
Proof.
  intros Hx. simpl.
  rewrite (Qcompare_comp x 0%Q Hx 5%Q 5%Q (Qeq_refl 5%Q)).
  rewrite (Qcompare_comp x 0%Q Hx (-5)%Q (-5)%Q (Qeq_refl (-5)%Q)).
  split; reflexivity.
Qed.

(** X16.  In [analyze_above_below_normal_temp] the three temperature
    subsets of a phase hold each of its weekdays exactly once.  A day
    without a temperature reading is in the Normal subset, and so is a day
    that is the only weekday with its day of season, whatever its
    temperature.  The day counts reported for a phase never add up to more
    than the weekdays of the phase. *)
Theorem temperature_categories (round1 : Q -> Q) (df : list phased)
    (ph : phase) :
  let wd := weekdays_of df in
  let phase_data := filter (fun r => season_phase r = ph) wd in
  temp_subset wd phase_data Above ++ temp_subset wd phase_data Normal
    ++ temp_subset wd phase_data Below ≡ₚ phase_data /\
  (forall r, r ∈ phase_data -> temp_max (pbase r) = NaN ->
             r ∈ temp_subset wd phase_data Normal) /\
  (forall r, r ∈ phase_data ->
             filter (fun r' => day_of_season (pbase r') =
                               day_of_season (pbase r)) wd = [r] ->
             r ∈ temp_subset wd phase_data Normal) /\
  (forall effs, (ph, effs) ∈ analyze_above_below_normal_temp round1 df ->
                (sum_list (map te_n effs) <= length phase_data)%nat).
Proof.
  cbv zeta. set (wd := weekdays_of df).
  set (phase_data := filter (fun r => season_phase r = ph) wd).
  assert (Hpart : temp_subset wd phase_data Above
                    ++ temp_subset wd phase_data Normal
                    ++ temp_subset wd phase_data Below ≡ₚ phase_data).
  { unfold temp_subset.
    apply (three_way_split (temp_above_normal wd) (temp_below_normal wd)).
    intros r. apply above_not_below. }
  split; [exact Hpart|]. split; [|split].
  - intros r Hr Hnan. unfold temp_subset. apply list_elem_of_filter.
    split; [|exact Hr].
    unfold temp_above_normal, temp_below_normal, temp_vs_normal.
    now rewrite Hnan.
  - intros r Hr Hone. unfold temp_subset. apply list_elem_of_filter.
    split; [|exact Hr].
    unfold temp_above_normal, temp_below_normal, temp_vs_normal.
    rewrite Hone. simpl. destruct (temp_max (pbase r)) as [|q]; [reflexivity|].
    unfold column_mean, mean_min1. simpl.
    destruct (zero_is_normal (q - (q + 0) / inject_Z 1)) as [Hg Hl].
    { field. }
    change (Qsum [q]) with (q + 0)%Q.
    simpl. change (Z.of_nat 1) with 1%Z.
    unfold gt in Hg. unfold lt in Hl. now rewrite Hg, Hl.
  - intros effs Hin. unfold analyze_above_below_normal_temp in Hin.
    apply list_elem_of_fmap in Hin as (ph' & Heq & _).
    injection Heq as <- ->. fold wd. fold phase_data.
    rewrite <- (Permutation_length Hpart), !length_app. simpl.
    repeat case_bool_decide; simpl; lia.
Qed.

Example one_season_all_normal :
  temp_subset (weekdays_of (define_season_phases Samples.one_week))
              (weekdays_of (define_season_phases Samples.one_week)) Normal =
  weekdays_of (define_season_phases Samples.one_week).
Proof. vm_compute. reflexivity. Qed.

End SeasonalFacts.

(** ** Streak tables *)

Section StreakTables.
Import Py Classifier Frame Momentum MomentumExtra.

Lemma filter_agree {A} (P Q : A -> Prop) `{!forall x, Decision (P x)}
    `{!forall x, Decision (Q x)} (l : list A) :
  Forall (fun x => P x <-> Q x) l -> filter P l = filter Q l.
Proof.
  induction 1 as [|x l Hx _ IH]; [reflexivity|].
  rewrite !filter_cons, IH.
  destruct (decide (P x)), (decide (Q x)); tauto.
Qed.

(** The line of a streak table that a day belongs to. *)
Lemma streak_subset_line (streak : tagged -> Z) (last : Z)
    (wd : list tagged) (k : Z) :
  (k <= last)%Z ->
  streak_subset streak last wd k =
  filter (fun r => Z.min (streak r) last = k) wd.
Proof.
  intros Hk. unfold streak_subset.
  destruct (Z.ltb_spec k last);
    apply filter_agree, Forall_forall; intros r _; lia.
Qed.

Lemma filter_split_key {A} (key : A -> Z) (k : Z) (ks : list Z) (l : list A) :
  k ∉ ks ->
  filter (fun r => key r ∈ k :: ks) l ≡ₚ
  filter (fun r => key r = k) l ++ filter (fun r => key r ∈ ks) l.
Proof.
  intros Hk. induction l as [|x l IH]; [reflexivity|].
  rewrite !filter_cons.
  destruct (decide (key x = k)) as [Hx|Hx].
  - rewrite decide_True by (rewrite Hx; now left).
    rewrite decide_False by (rewrite Hx; exact Hk).
    simpl. now rewrite IH.
  - destruct (decide (key x ∈ ks)) as [Hin|Hin].
    + rewrite decide_True by now right.
      rewrite <- Permutation_middle. now rewrite IH.
    + rewrite decide_False; [exact IH|].
      intros H. apply elem_of_cons in H as [H|H]; contradiction.
Qed.

Lemma bind_filter_select {A} (key : A -> Z) (ks : list Z) (l : list A) :
  NoDup ks ->
  ks ≫= (fun k => filter (fun r => key r = k) l) ≡ₚ
  filter (fun r => key r ∈ ks) l.
Proof.
  induction 1 as [|k ks Hk _ IH].
  - symmetry. rewrite filter_none; [reflexivity|].
    apply Forall_forall. intros r _ H. inversion H.
  - rewrite bind_cons, IH. symmetry. now apply filter_split_key.
Qed.

(** The lines of a streak table hold the days whose streak, capped at the
    last line, is among the lengths of the table. *)
Lemma streak_lines (streak : tagged -> Z) (last : Z) (wd : list tagged)
    (ks : list Z) :
  NoDup ks -> Forall (fun k => (k <= last)%Z) ks ->
  mjoin (map (streak_subset streak last wd) ks) ≡ₚ
  filter (fun r => Z.min (streak r) last ∈ ks) wd.
Proof.
  intros Hnd Hks.
  rewrite <- (bind_filter_select (fun r => Z.min (streak r) last) ks wd Hnd).
  clear Hnd. induction ks as [|k ks IH]; [reflexivity|].
  apply Forall_cons in Hks as [Hk Hks].
  rewrite bind_cons. simpl. rewrite (IH Hks).
  now rewrite (streak_subset_line streak last wd k Hk).
Qed.

Lemma weekday_counters_fit (df : list day) (r : tagged) :
  r ∈ weekdays_of (build_streaks df) -> counters_fit r.
Proof.
  intros Hr. unfold weekdays_of in Hr.
  apply list_elem_of_filter in Hr as [_ Hr].
  apply list_elem_of_lookup in Hr as [ix Hix].
  exact (build_streaks_row_fit df ix r Hix).
Qed.

(** X17.  The streak tables count no day twice: in [analyze_streaks] the
    five lines of the nice-streak table hold each nice weekday exactly once
    and no other day, and the four lines of the bad-streak table each bad
    weekday; in [export_momentum_coefficients], whose tables start at
    streak length 0, each table holds every weekday of its input exactly
    once. *)
Theorem streak_tables_partition (df : list day) :
  let wd := weekdays_of (build_streaks df) in
  let wd' := weekdays_of (with_weather (build_streaks df)) in
  mjoin (nice_streak_subsets wd) ≡ₚ
    filter (fun r => weather_quality r = nice) wd /\
  mjoin (bad_streak_subsets wd) ≡ₚ
    filter (fun r => weather_quality r = bad) wd /\
  mjoin (export_nice_subsets wd') ≡ₚ wd' /\
  mjoin (export_bad_subsets wd') ≡ₚ wd'.
Proof.
  cbv zeta.
  assert (Hfit' : forall r,
            r ∈ weekdays_of (with_weather (build_streaks df)) ->
            counters_fit r).
  { intros r Hr. unfold weekdays_of, with_weather in Hr.
    apply list_elem_of_filter in Hr as [_ Hr].
    apply list_elem_of_filter in Hr as [_ Hr].
    apply list_elem_of_lookup in Hr as [ix Hix].
    exact (build_streaks_row_fit df ix r Hix). }
  unfold nice_streak_subsets, bad_streak_subsets, export_nice_subsets,
    export_bad_subsets.
  change (range 1 6) with [1; 2; 3; 4; 5]%Z.
  change (range 1 5) with [1; 2; 3; 4]%Z.
  change (range 0 6) with [0; 1; 2; 3; 4; 5]%Z.
  change (range 0 5) with [0; 1; 2; 3; 4]%Z.
  repeat split.
  - rewrite streak_lines;
      [|distinct_labels | repeat constructor; lia].
    erewrite filter_agree; [reflexivity|].
    apply Forall_forall. intros r Hr.
    destruct (weekday_counters_fit df r Hr) as (Hn & _ & Hnice & _).
    rewrite <- Hnice, !elem_of_cons, elem_of_nil. lia.
  - rewrite streak_lines;
      [|distinct_labels | repeat constructor; lia].
    erewrite filter_agree; [reflexivity|].
    apply Forall_forall. intros r Hr.
    destruct (weekday_counters_fit df r Hr) as (_ & Hb & _ & Hbad & _).
    rewrite <- Hbad, !elem_of_cons, elem_of_nil. lia.
  - rewrite streak_lines;
      [|distinct_labels | repeat constructor; lia].
    rewrite filter_all; [reflexivity|].
    apply Forall_forall. intros r Hr.
    destruct (Hfit' r Hr) as (Hn & _).
    rewrite !elem_of_cons, elem_of_nil. lia.
  - rewrite streak_lines;
      [|distinct_labels | repeat constructor; lia].
    rewrite filter_all; [reflexivity|].
    apply Forall_forall. intros r Hr.
    destruct (Hfit' r Hr) as (_ & Hb & _).
    rewrite !elem_of_cons, elem_of_nil. lia.
Qed.

End StreakTables.

(** ** Lead normalisation *)

Section NormalizeFacts.
Import Py Frame Features Normalize.

Lemma filter_map_comm {A B} (F : A -> B) (P : B -> Prop) (Q : A -> Prop)
    `{!forall x, Decision (P x)} `{!forall x, Decision (Q x)} (l : list A) :
  (forall x, P (F x) <-> Q x) ->
  filter P (map F l) = map F (filter Q l).
Proof.
  intros HPQ. induction l as [|x l IH]; [reflexivity|].
  simpl. rewrite !filter_cons, IH.
  destruct (decide (P (F x))) as [H1|H1], (decide (Q x)) as [H2|H2];
    try reflexivity; exfalso; apply HPQ in H1 || apply HPQ in H2; contradiction.
Qed.






Example normalize_uneven_weeks :
  map (fun r => (week_baseline r, leads_ratio r))
      (normalize_leads uneven_weeks) =
  [ (Fin (60 # 3), Finite ((10 # 1) / (60 # 3)));
    (Fin (60 # 3), Finite ((20 # 1) / (60 # 3)));
    (Fin (60 # 3), Finite ((30 # 1) / (60 # 3)));
    (Fin (60 # 3), Finite ((50 # 1) / (60 # 3)));
    (Fin (180 # 5), Finite ((70 # 1) / (180 # 5))) ].
Proof. vm_compute. reflexivity. Qed.


End NormalizeFacts.

(** ** Day-to-day changes *)

Section MomentumFeatureFacts.
Import Py Classifier Frame Momentum Features MomentumExtra MomentumFeatures.

(** Writing a series back at duplicate-free labels. *)
Lemma lag_assign_spec (set : lagged -> num -> lagged) (idx : list nat) :
  forall (vals : list num) (f : list lagged),
    NoDup idx -> length vals = length idx ->
    (forall ix, ix ∈ idx -> (ix < length f)%nat) ->
    (forall j, j ∉ idx -> assign set idx vals f !! j = f !! j) /\
    (forall k ix, idx !! k = Some ix ->
       exists r0 v, f !! ix = Some r0 /\ vals !! k = Some v /\
                    assign set idx vals f !! ix = Some (set r0 v)).
Proof.
  unfold assign.
  induction idx as [|i0 rest IH]; intros vals f Hnd Hlen Hlt.
  - simpl. split; [reflexivity|]. intros k ix H. discriminate.
  - destruct vals as [|v0 vals]; [discriminate|]. simpl in Hlen |- *.
    apply NoDup_cons in Hnd as [Hi0 Hnd].
    set (f1 := alter (fun r => set r v0) i0 f).
    destruct (IH vals f1 Hnd) as (Hout & Hin); [lia| |].
    { intros ix Hix. unfold f1. rewrite length_alter. apply Hlt. now right. }
    split.
    + intros j Hj. apply not_elem_of_cons in Hj as [Hne Hj].
      rewrite (Hout j Hj). unfold f1. now apply list_lookup_alter_ne.
    + intros [|k] ix Hk; simpl in Hk.
      * injection Hk as <-.
        destruct (lookup_lt_is_Some_2 f i0) as [r0 Hr0]; [apply Hlt; now left|].
        exists r0, v0. split; [exact Hr0|]. split; [reflexivity|].
        rewrite (Hout i0 Hi0). unfold f1.
        now rewrite list_lookup_alter_eq, Hr0.
      * destruct (Hin k ix Hk) as (r1 & v & Hr1 & Hv & Hres).
        assert (Hne : i0 ≠ ix).
        { intros ->. apply Hi0. apply list_elem_of_lookup. eauto. }
        unfold f1 in Hr1. rewrite list_lookup_alter_ne in Hr1 by exact Hne.
        exists r1, v. split; [exact Hr1|]. split; [exact Hv | exact Hres].
Qed.

Lemma lag_assign_base (set : lagged -> num -> lagged) :
  (forall r v, lbase (set r v) = lbase r) ->
  forall idx vals f, map lbase (assign set idx vals f) = map lbase f.
Proof.
  intros Hset idx vals. unfold assign.
  induction (zip idx vals) as [|[i v] ivs IH]; intros f; simpl; [reflexivity|].
  rewrite IH.
  rewrite (list_fmap_alter lbase _ (fun d => d)).
  - now apply list_alter_id.
  - apply Forall_true. intros r. apply Hset.
Qed.

Lemma shift1_length (xs : list num) : length (shift1 xs) = length xs.
Proof. unfold shift1. rewrite length_take. simpl. lia. Qed.

Lemma shift1_lookup (xs : list num) (k : nat) :
  (k < length xs)%nat -> shift1 xs !! k = Some (previous xs k).
Proof.
  intros Hk. unfold shift1. rewrite lookup_take_lt by exact Hk.
  destruct k as [|k]; [reflexivity|]. simpl.
  destruct (lookup_lt_is_Some_2 xs k) as [x Hx]; [lia|]. now rewrite Hx.
Qed.

Lemma lag_gather (g : tagged -> num) (y : Z) (s : list tagged)
    (f : list lagged) :
  map lbase f = s ->
  gather (fun r => g (lbase r))
         (year_index y (map (fun r => year (base r)) s)) f =
  map g (filter (fun r => year (base r) = y) s).
Proof.
  intros <-. unfold gather.
  replace (map (fun r => year (base r)) (map lbase f))
    with (map (fun r => year (base (lbase r))) f) by (now rewrite map_map).
  rewrite (gather_year_index (fun r => year (base (lbase r)))).
  rewrite (filter_map_comm lbase _ (fun r => year (base (lbase r)) = y))
    by (intros r; reflexivity).
  now rewrite map_map.
Qed.

Lemma lag_year_spec (s : list tagged) (f : list lagged) (y : Z) :
  map lbase f = s -> True ->
  map lbase (lag_year f y) = s /\
  (forall j, map (fun r => year (base r)) s !! j ≠ Some y ->
             lag_year f y !! j = f !! j) /\
  year_lagged s y (lag_year f y).
Proof.
  intros Hb _. unfold lag_year.
  replace (map (fun r => year (base (lbase r))) f)
    with (map (fun r => year (base r)) s)
    by (rewrite <- Hb; now rewrite map_map).
  rewrite (lag_gather (fun r => temp_max (base r)) y s f Hb).
  set (f1 := assign set_temp_max_prev _ _ f).
  assert (Hb1 : map lbase f1 = s).
  { unfold f1. rewrite lag_assign_base; [exact Hb | reflexivity]. }
  rewrite (lag_gather (fun r => sunshine_hrs (base r)) y s f1 Hb1).
  set (idx := year_index y (map (fun r => year (base r)) s)) in *.
  set (yr := filter (fun r => year (base r) = y) s) in *.
  assert (Hidx : length idx = length yr).
  { apply (year_index_from_length (fun r => year (base r))). }
  assert (Hlen : forall g : tagged -> num,
            length (shift1 (map g yr)) = length idx).
  { intros g. now rewrite shift1_length, length_map. }
  assert (Hrange : forall f0, map lbase f0 = s ->
            forall ix, ix ∈ idx -> (ix < length f0)%nat).
  { intros f0 H0 ix Hix. apply year_index_lt in Hix.
    rewrite <- H0, !length_map in Hix. exact Hix. }
  destruct (lag_assign_spec set_temp_max_prev idx _ f
              (year_index_NoDup y _)
              (Hlen (fun r => temp_max (base r))) (Hrange f Hb))
    as (Hout1 & Hin1). fold f1 in Hout1, Hin1.
  destruct (lag_assign_spec set_sunshine_prev idx _ f1
              (year_index_NoDup y _)
              (Hlen (fun r => sunshine_hrs (base r))) (Hrange f1 Hb1))
    as (Hout2 & Hin2).
  split; [|split].
  - rewrite lag_assign_base; [exact Hb1 | reflexivity].
  - intros j Hj.
    assert (Hn : j ∉ idx) by (unfold idx; now rewrite year_index_elem).
    now rewrite (Hout2 j Hn), (Hout1 j Hn).
  - intros k ix Hk. fold idx in Hk. fold yr.
    destruct (Hin1 k ix Hk) as (r0 & v & Hr0 & Hv & Hres1).
    destruct (Hin2 k ix Hk) as (r1 & v' & Hr1 & Hv' & Hres2).
    rewrite Hres1 in Hr1. injection Hr1 as <-.
    assert (Hklt : forall g : tagged -> num, (k < length (map g yr))%nat).
    { intros g. rewrite length_map, <- Hidx.
      apply lookup_lt_Some in Hk. exact Hk. }
    rewrite shift1_lookup in Hv by apply Hklt.
    rewrite shift1_lookup in Hv' by apply Hklt.
    injection Hv as <-. injection Hv' as <-.
    eexists. split; [exact Hres2|]. simpl. split; reflexivity.
Qed.

Lemma year_lagged_agree (s : list tagged) (y : Z) (f f' : list lagged) :
  (forall j, map (fun r => year (base r)) s !! j = Some y -> f' !! j = f !! j) ->
  year_lagged s y f -> year_lagged s y f'.
Proof.
  intros Hag Hr k ix Hk. destruct (Hr k ix Hk) as (r & Hl & Ht).
  exists r. split; [|exact Ht]. rewrite Hag; [exact Hl|].
  apply year_index_elem, list_elem_of_lookup. eauto.
Qed.

Lemma lag_loop_spec (s : list tagged) :
  let f := fold_left lag_year (unique (map (fun r => year (base r)) s))
                     (map no_lag s) in
  map lbase f = s /\
  forall y, y ∈ map (fun r => year (base r)) s -> year_lagged s y f.
Proof.
  cbv zeta.
  destruct (per_year_loop (map (fun r => year (base r)) s) lag_year
              (fun f => map lbase f = s)
              (fun _ _ => True) (year_lagged s) (lag_year_spec s)
              (fun _ _ _ _ _ => I) (year_lagged_agree s)
              (unique (map (fun r => year (base r)) s)) (map no_lag s))
    as (Hb & _ & Hpost).
  - apply unique_NoDup.
  - rewrite map_map. apply map_id.
  - intros y _. exact I.
  - split; [exact Hb|]. intros y Hy. apply Hpost. now apply unique_elem.
Qed.

Lemma observed_numbers (d : day) :
  observed_weather d = true ->
  exists t u, temp_max d = Fin t /\ sunshine_hrs d = Fin u.
Proof.
  unfold observed_weather. intros H. apply andb_true_iff in H as [H1 H2].
  destruct (temp_max d) as [|t]; [discriminate|].
  destruct (sunshine_hrs d) as [|u]; [discriminate|]. eauto.
Qed.

(** X19.  The day-to-day changes of [rebuild_model_with_momentum] stay
    within a year: on the first kept day of each year temp_change_1d and
    sunshine_change_1d are 0, and on every other day they are the day's
    value less the value of the kept day before it in the same year; no
    change is NaN. *)
Theorem day_change_within_year (df : list tagged) (y : Z) (k ix : nat) :
  let dw := with_weather df in
  let yr := filter (fun r => year (base r) = y) dw in
  year_index y (map (fun r => year (base r)) dw) !! k = Some ix ->
  exists r d,
    momentum_features df !! ix = Some r /\ yr !! k = Some d /\
    lbase (erow r) = d /\
    is_nan (temp_change_1d r) = false /\
    is_nan (sunshine_change_1d r) = false /\
    match k with
    | O => num_eq (temp_change_1d r) (Fin 0) /\
           num_eq (sunshine_change_1d r) (Fin 0)
    | S k' =>
        exists p, yr !! k' = Some p /\
          temp_change_1d r =
            Seasonal.minus (temp_max (base d)) (temp_max (base p)) /\
          sunshine_change_1d r =
            Seasonal.minus (sunshine_hrs (base d)) (sunshine_hrs (base p))
    end.
Proof.
  intros dw yr Hk.
  destruct (lag_loop_spec dw) as [Hb Hlag]. cbv zeta in Hb, Hlag.
  assert (Hy : y ∈ map (fun r => year (base r)) dw).
  { apply list_elem_of_lookup. exists ix.
    apply year_index_elem, list_elem_of_lookup. eauto. }
  destruct (Hlag y Hy k ix Hk) as (r & Hr & Ht & Hs).
  pose proof (year_index_row (fun r => year (base r)) y dw k ix Hk) as Hrow.
  fold yr in Hrow, Ht, Hs.
  assert (Hd : dw !! ix = Some (lbase r)).
  { rewrite <- Hb. change (map ?f ?l) with (f <$> l).
    now rewrite list_lookup_fmap, Hr. }
  assert (Hobs : forall p, p ∈ dw -> observed_weather (base p) = true).
  { intros p Hp. unfold dw, with_weather in Hp.
    now apply list_elem_of_filter in Hp as [Hp _]. }
  assert (Hyr : forall j p, yr !! j = Some p -> p ∈ dw).
  { intros j p Hp. apply list_elem_of_lookup_2 in Hp. unfold yr in Hp.
    now apply list_elem_of_filter in Hp as [_ Hp]. }
  destruct (observed_numbers (base (lbase r))) as (t & u & Htemp & Hsun).
  { apply Hobs. apply list_elem_of_lookup. eauto. }
  unfold momentum_features. cbv zeta. fold dw.
  change (map ?f ?l) with (f <$> l). rewrite list_lookup_fmap, Hr. simpl.
  eexists _, (lbase r). split; [reflexivity|].
  split; [rewrite <- Hd; symmetry; exact Hrow|].
  split; [reflexivity|]. simpl.
  rewrite Ht, Hs, Htemp, Hsun.
  destruct k as [|k']; simpl.
  - repeat split; ring.
  - destruct (lookup_lt_is_Some_2 yr k') as [p Hp].
    { apply lookup_lt_Some in Hk.
      pose proof (year_index_from_length (fun r => year (base r)) y dw 0)
        as Hlen.
      fold (year_index y (map (fun r => year (base r)) dw)) in Hlen.
      change (length (year_index y (map (fun r => year (base r)) dw)) =
              length yr) in Hlen.
      lia. }
    destruct (observed_numbers (base p)) as (tp & up & Htp & Hup).
    { apply Hobs. eapply Hyr. exact Hp. }
    change (map ?f ?l) with (f <$> l). rewrite !list_lookup_fmap, Hp. simpl.
    rewrite Htp, Hup. simpl.
    split; [reflexivity|]. split; [reflexivity|].
    exists p. split; [reflexivity|]. rewrite Htp, Hup. split; reflexivity.
Qed.

Example day_changes_two_seasons :
  Forall2 num_eq
    (map temp_change_1d (momentum_features (build_streaks Samples.two_seasons)))
    [Fin 0; Fin 2; Fin 0; Fin 26].
Proof. repeat constructor. Qed.

Lemma day_change_within_year_witness :
  let df := build_streaks Samples.two_seasons in
  let yr := filter (fun r => year (base r) = 2025%Z) (with_weather df) in
  exists r d,
    momentum_features df !! 3%nat = Some r /\ yr !! 1%nat = Some d /\
    lbase (erow r) = d /\
    is_nan (temp_change_1d r) = false /\
    is_nan (sunshine_change_1d r) = false /\
    exists p, yr !! 0%nat = Some p /\
      temp_change_1d r =
        Seasonal.minus (temp_max (base d)) (temp_max (base p)) /\
      sunshine_change_1d r =
        Seasonal.minus (sunshine_hrs (base d)) (sunshine_hrs (base p)).
Proof.
  exact (day_change_within_year (build_streaks Samples.two_seasons)
           2025 1 3 eq_refl).
Defined.

End MomentumFeatureFacts.

(** ** The holdout split *)

Section HoldoutSplit.
Import Py Frame Features Holdout.

Lemma two_way_split {A} (P Q : A -> Prop) `{!forall x, Decision (P x)}
    `{!forall x, Decision (Q x)} (l : list A) :
  Forall (fun x => (P x /\ ~ Q x) \/ (~ P x /\ Q x)) l ->
  filter P l ++ filter Q l ≡ₚ l.
Proof.
  induction 1 as [|x l Hx _ IH]; [reflexivity|].
  rewrite !filter_cons.
  destruct (decide (P x)), (decide (Q x)); try tauto; simpl.
  - now rewrite IH.
  - rewrite <- Permutation_middle. now rewrite IH.
Qed.

(** X20.  The holdout split is exact: every row of the prepared table goes
    to exactly one side, the rows of 2021-2024 to the training partition
    and the rows of 2025 to the test partition; no row is lost and none is
    on both sides. *)
Theorem holdout_split_is_exact (csv : list day) :
  train_partition csv ++ test_partition csv ≡ₚ prepared csv /\
  Forall (fun r => (2021 <= year (fbase r) <= 2024)%Z) (train_partition csv) /\
  Forall (fun r => year (fbase r) = 2025%Z) (test_partition csv).
Proof.
  assert (Hin : forall y, y ∈ train_years <-> (2021 <= y <= 2024)%Z).
  { intros y. unfold train_years. rewrite !elem_of_cons, elem_of_nil. lia. }
  split; [|split].
  - unfold train_partition, test_partition. apply two_way_split.
    apply Forall_forall. intros r Hr.
    assert (Hy : year (fbase r) ∈ full_years).
    { assert (Hb : fbase r ∈ map fbase (prepared csv))
        by now apply list_elem_of_fmap_2.
      unfold prepared in Hb. rewrite (proj1 (engineer_features_spec _)) in Hb.
      unfold sort_values_date in Hb. rewrite sort_values_perm in Hb.
      apply list_elem_of_filter in Hb as [_ Hb].
      now apply list_elem_of_filter in Hb as [Hb _]. }
    unfold full_years in Hy. rewrite !elem_of_cons, elem_of_nil in Hy.
    rewrite Hin. unfold test_year. lia.
  - apply Forall_forall. intros r Hr. unfold train_partition in Hr.
    apply list_elem_of_filter in Hr as [Hr _]. now apply Hin.
  - apply Forall_forall. intros r Hr. unfold test_partition in Hr.
    now apply list_elem_of_filter in Hr as [Hr _].
Qed.

End HoldoutSplit.

(** ** The best weekday of the report *)

Section EdaFacts.
Import Py Frame Features Eda.

Lemma category_code_day_name (k : Z) :
  (0 <= k <= 6)%Z -> category_code (day_name k) = k.
Proof.
  intros Hk.
  assert (Hc : (k = 0 \/ k = 1 \/ k = 2 \/ k = 3 \/ k = 4 \/ k = 5 \/ k = 6)%Z)
    by lia.
  repeat (destruct Hc as [->|Hc]; [vm_compute; reflexivity|]).
  subst k. vm_compute. reflexivity.
Qed.

Lemma sorted_by_map {A B} (key : B -> Z) (F : A -> B) (l : list A) :
  sorted_by (fun x => key (F x)) l -> sorted_by key (map F l).
Proof.
  unfold sorted_by. induction 1 as [|x l Hs IH Hx]; [constructor|].
  simpl. constructor; [exact IH|].
  change (map F l) with (F <$> l). now apply Forall_fmap.
Qed.

Lemma sorted_by_agree {A} (key key' : A -> Z) (l : list A) :
  Forall (fun x => key x = key' x) l -> sorted_by key l -> sorted_by key' l.
Proof.
  unfold sorted_by. intros Hag Hs. induction Hs as [|x l Hs IH Hx]; [constructor|].
  apply Forall_cons in Hag as [Hx' Hag].
  constructor; [now apply IH|].
  apply Forall_forall. intros z Hz.
  pose proof (proj1 (Forall_forall _ _) Hx z Hz) as H1.
  pose proof (proj1 (Forall_forall _ _) Hag z Hz) as H2.
  simpl in *. lia.
Qed.

(** X21.  The report's 'best_weekday' does not look at lead counts: on a
    daily table whose weekday numbers are 0 to 6 it is the name of the
    earliest weekday, in Monday-to-Sunday order, that occurs among the rows
    of 2021-2025 ('Monday' whenever there is a Monday), and 'N/A' when
    there is no such row. *)
Theorem best_weekday_is_first_day (round1 : Q -> Q) (daily : list day) (k : Z) :
  let rows := filter (fun d => year d ∈ full_years) daily in
  Forall (fun d => (0 <= dow d <= 6)%Z) daily ->
  (rows = [] -> best_weekday (dow_stats round1 daily) = "N/A"%string) /\
  (k ∈ map dow rows -> Forall (fun d => (k <= dow d)%Z) rows ->
   best_weekday (dow_stats round1 daily) = day_name k).
Proof.
  intros rows Hvalid. unfold dow_stats. cbv zeta. fold rows.
  set (mk := fun g : Z * list day => mk_dow_stat (fst g) _ _ _ _ _ _ _).
  assert (Hkeys : sorted_by (fun k => k) (group_keys (map dow rows)))
    by apply sort_values_sorted.
  assert (Hrange : forall k', k' ∈ group_keys (map dow rows) ->
                              (0 <= k' <= 6)%Z).
  { intros k' Hk'. apply (proj1 (group_keys_member _ _)) in Hk'.
    apply list_elem_of_fmap in Hk' as (d & -> & Hd).
    apply list_elem_of_filter in Hd as [_ Hd].
    exact (proj1 (Forall_forall _ _) Hvalid d Hd). }
  rewrite sort_values_id.
  2:{ apply sorted_by_map. unfold groupby. apply sorted_by_map.
      eapply sorted_by_agree; [|exact Hkeys].
      apply Forall_forall. intros k' Hk'. simpl.
      symmetry. apply category_code_day_name. now apply Hrange. }
  unfold groupby. rewrite !map_map. split.
  - intros Hrows. rewrite Hrows. reflexivity.
  - intros Hk Hmin. apply (proj2 (group_keys_member _ _)) in Hk.
    destruct (group_keys (map dow rows)) as [|h ks] eqn:Hg;
      [inversion Hk|].
    simpl. f_equal.
    assert (Hh : h ∈ map dow rows).
    { apply (proj1 (group_keys_member _ _)). rewrite Hg. now left. }
    apply list_elem_of_fmap in Hh as (d & -> & Hd).
    pose proof (proj1 (Forall_forall _ _) Hmin d Hd) as Hle.
    apply elem_of_cons in Hk as [Hk|Hk]; [now symmetry|].
    unfold sorted_by in Hkeys. apply StronglySorted_inv in Hkeys as [_ Hall].
    pose proof (proj1 (Forall_forall _ _) Hall k Hk). simpl in *. lia.
Qed.

Example best_weekday_growing_week :
  best_weekday (dow_stats (fun q => q) growing_week) = "Monday"%string /\
  map total_leads growing_week = [10; 20; 30; 40; 50; 60]%Z.
Proof. split; vm_compute; reflexivity. Qed.

Lemma best_weekday_is_first_day_witness :
  Forall (fun d => (0 <= dow d <= 6)%Z) growing_week /\
  0%Z ∈ map dow (filter (fun d => year d ∈ full_years) growing_week) /\
  Forall (fun d => (0 <= dow d)%Z)
         (filter (fun d => year d ∈ full_years) growing_week) /\
  best_weekday (dow_stats (fun q => q) growing_week) = day_name 0.
Proof.
  assert (H : Forall (fun d => (0 <= dow d <= 6)%Z) growing_week).
  { repeat constructor; vm_compute; congruence. }
  assert (H0 : 0%Z ∈ map dow (filter (fun d => year d ∈ full_years)
                                growing_week)).
  { vm_compute. left. }
  assert (Hmin : Forall (fun d => (0 <= dow d)%Z)
                        (filter (fun d => year d ∈ full_years) growing_week)).
  { vm_compute. repeat constructor; congruence. }
  split; [exact H|]. split; [exact H0|]. split; [exact Hmin|].
  exact (proj2 (best_weekday_is_first_day (fun q => q) growing_week 0 H)
               H0 Hmin).
Defined.

End EdaFacts.
